(** * common_utils: the bounded pollers and the backoff retrier

    A shallow embedding of [wait_with_timeout], [retry_operation] and
    [DockerHelper.wait_for_container] of [src/common_utils.py], together
    with the console helper [print_status] they call.

    Modelling choices, all of them visible in the definitions below:
    - the wall clock ([time.time()]) is a rational number held in the
      environment; a [time.sleep d] that is performed advances it by
      exactly [d] and nothing else advances it except the caller-supplied
      callables, which receive the whole environment and may change the
      clock as they like;
    - [time.sleep d] is refused, with the error CPython raises, when [d]
      does not fit the interpreter's clock type ([OverflowError]), when it
      is negative ([ValueError]), and when the operating system does not
      take it ([OSError]); what the operating system takes is a parameter
      of the development, [Platform]; signals are not modelled: nothing is
      interrupted from outside;
    - a callable (predicate, operation, Docker SDK call) is a function from
      the environment to an outcome and a new environment: it may keep
      state, return different values on different invocations, or raise;
    - Python exceptions are values of [PyExn]; [except Exception] catches
      those for which [is_Exception] holds, [except docker.errors.NotFound]
      those for which [is_NotFound] holds;
    - everything observable a function does is collected, in order, in the
      list of [Event]s of its run: the lines printed, the sleeps performed
      and, as ghost instrumentation, one [EvCall] per invocation of a
      callable;
    - the [while] loops take a fuel argument bounding the number of
      iterations; running out of fuel is [None]. *)

From Stdlib Require Import ZArith QArith Qround List String Ascii Bool Lia Lqa.
From Stdlib Require Import DecimalString.
Import ListNotations.

Local Open Scope string_scope.
Local Open Scope Z_scope.

(** ** Python values used by the module *)

(** Exceptions.  [NotFound] is [docker.errors.NotFound]; [ValueError] is
    what [time.sleep] raises on a negative length; [OtherError] stands for
    every other subclass of [Exception], among them the [OverflowError] and
    the [OSError] of [time.sleep]; [NonError] for the classes that derive
    from [BaseException] only ([KeyboardInterrupt], [SystemExit]). *)
Inductive PyExn : Type :=
| NotFound (msg : string)
| ValueError (msg : string)
| OtherError (cls msg : string)
| NonError (cls : string).

Definition is_Exception (e : PyExn) : bool :=
  match e with
  | NonError _ => false
  | _ => true
  end.

Definition is_NotFound (e : PyExn) : bool :=
  match e with
  | NotFound _ => true
  | _ => false
  end.

(** [str(e)] *)
Definition exn_str (e : PyExn) : string :=
  match e with
  | NotFound msg => msg
  | ValueError msg => msg
  | OtherError _ msg => msg
  | NonError _ => ""
  end.

(** [str(n)] for an [int] *)
Definition str_int (n : Z) : string := NilZero.string_of_int (Z.to_int n).

(** [int(x)] for a number: truncation towards zero *)
Definition py_int (x : Q) : Z := Z.quot (Qnum x) (Zpos (Qden x)).

(** [x < y] on numbers *)
Definition Qltb (x y : Q) : bool := (Qnum x * QDen y <? Qnum y * QDen x)%Z.

(** The longest sleep, in whole seconds, that fits the interpreter's clock
    type, a signed 64-bit count of nanoseconds: [(2^63 - 1) / 10^9].
    [time.sleep] converts its argument to that type before anything else,
    and the conversion of an [int] fails outside [-sleep_max .. sleep_max]. *)
Definition sleep_max : Z := 9223372036.

Definition sleep_overflow : PyExn :=
  OtherError "OverflowError" "timestamp too large to convert to C _PyTime_t".

Definition sleep_negative : PyExn :=
  ValueError "sleep length must be non-negative".

(** [bytes]: the [in] operator is a search for a contiguous occurrence. *)
Definition bytes := list Byte.byte.

Fixpoint bytes_startswith (s prefix : bytes) : bool :=
  match prefix, s with
  | [], _ => true
  | _ :: _, [] => false
  | p :: prefix', c :: s' => Byte.eqb p c && bytes_startswith s' prefix'
  end.

Fixpoint bytes_in (needle haystack : bytes) : bool :=
  bytes_startswith haystack needle ||
  match haystack with
  | [] => false
  | _ :: rest => bytes_in needle rest
  end.

(** ** Effects *)

(** Which callable an [EvCall] event records. *)
Inductive Callee : Type :=
| CCondition      (* condition_func() *)
| COperation      (* operation_func() *)
| CContainersGet  (* self.client.containers.get(name) *)
| CLogs.          (* container.logs() *)

Inductive Event : Type :=
| EvPrint (line : string)   (* one print(...) *)
| EvSleep (d : Z)           (* one completed time.sleep(d) *)
| EvCall (c : Callee).      (* one invocation of a callable *)

Inductive Outcome (A : Type) : Type :=
| Ret (a : A)
| Raise (e : PyExn).
Arguments Ret {A} a.
Arguments Raise {A} e.

(** How a loop body ends: by a [return] statement or by falling through
    to the next iteration. *)
Inductive Ctl (A : Type) : Type :=
| Return (a : A)
| Continue.
Arguments Return {A} a.
Arguments Continue {A}.

Definition is_call (ev : Event) : bool :=
  match ev with EvCall _ => true | _ => false end.

(** Number of invocations of callables recorded in a run. *)
Definition calls (evs : list Event) : nat := List.length (filter is_call evs).

(** The lengths of the sleeps performed in a run, in order. *)
Fixpoint sleeps (evs : list Event) : list Z :=
  match evs with
  | [] => []
  | EvSleep d :: rest => d :: sleeps rest
  | _ :: rest => sleeps rest
  end.

(** The lines printed in a run, in order. *)
Fixpoint printed (evs : list Event) : list string :=
  match evs with
  | [] => []
  | EvPrint l :: rest => l :: printed rest
  | _ :: rest => printed rest
  end.

(** For each invocation of a run, in order, the sleep performed since the
    previous invocation ([None] when there was none). *)
Fixpoint sleep_before_calls (pending : option Z) (evs : list Event)
  : list (option Z) :=
  match evs with
  | [] => []
  | EvCall _ :: rest => pending :: sleep_before_calls None rest
  | EvSleep d :: rest => sleep_before_calls (Some d) rest
  | EvPrint _ :: rest => sleep_before_calls pending rest
  end.

Module StatusIndicators.

Definition SUCCESS := "[SUCCESS]".
Definition ERROR := "[ERROR]".
Definition WARNING := "[WARNING]".
Definition INFO := "[INFO]".
Definition WORKING := "[WORKING]".

End StatusIndicators.

Section Utils.

(** The part of the world the callables own: container state, counters,
    whatever their closures capture. *)
Variable U : Type.

Record Env : Type := mkEnv { clock : Q; store : U }.

(** A Python callable of no argument. *)
Definition Callable (A : Type) : Type := Env -> Outcome A * Env.

Record Run (A : Type) : Type :=
  mkRun { outcome : Outcome A; final : Env; events : list Event }.
Arguments mkRun {A} _ _ _.
Arguments outcome {A} _.
Arguments final {A} _.
Arguments events {A} _.

Definition Eff (A : Type) : Type := Env -> Run A.

(** The operating system's part of [time.sleep]: asked to suspend the
    caller for [d] seconds, a length the interpreter has accepted, it does
    so ([None]) or fails, and then [time.sleep] raises [OSError] with the
    text given.  What it takes may depend on the state it is asked in. *)
Class Platform : Type := { os_sleep : Z -> Env -> option string }.

Context {platform : Platform}.

Definition ret {A} (a : A) : Eff A := fun env => mkRun (Ret a) env [].

Definition raise {A} (e : PyExn) : Eff A := fun env => mkRun (Raise e) env [].

Definition bind {A B} (m : Eff A) (f : A -> Eff B) : Eff B :=
  fun env =>
    let r := m env in
    match outcome r with
    | Ret a =>
        let r' := f a (final r) in
        mkRun (outcome r') (final r') (events r ++ events r')%list
    | Raise e => mkRun (Raise e) (final r) (events r)
    end.

Notation "x <- m ;; k" := (bind m (fun x => k))
  (at level 61, m at next level, right associativity).
Notation "m ;; k" := (bind m (fun _ => k))
  (at level 61, right associativity).

(** [try: m  except Exception as e: handler e] *)
Definition try_except_Exception {A} (m : Eff A) (handler : PyExn -> Eff A)
  : Eff A :=
  fun env =>
    let r := m env in
    match outcome r with
    | Ret a => r
    | Raise e =>
        if is_Exception e then
          let r' := handler e (final r) in
          mkRun (outcome r') (final r') (events r ++ events r')%list
        else r
    end.

(** [time.time()] *)
Definition time_time : Eff Q := fun env => mkRun (Ret (clock env)) env [].

(** The error [time.sleep(d)] ends with in [env], if any.  The checks are
    made in this order: the length is converted to the clock type, then
    tested for its sign, then handed to the operating system. *)
Definition sleep_error (d : Z) (env : Env) : option PyExn :=
  if (d <? - sleep_max) || (sleep_max <? d) then Some sleep_overflow
  else if d <? 0 then Some sleep_negative
  else option_map (OtherError "OSError") (os_sleep d env).

(** [time.sleep(d)]: a sleep that is refused leaves the clock alone. *)
Definition time_sleep (d : Z) : Eff unit :=
  fun env =>
    match sleep_error d env with
    | Some e => mkRun (Raise e) env []
    | None =>
        mkRun (Ret tt) (mkEnv (clock env + inject_Z d) (store env)) [EvSleep d]
    end.

(** [print(line)] *)
Definition print (line : string) : Eff unit :=
  fun env => mkRun (Ret tt) env [EvPrint line].

(** Invocation of a callable, recorded in the events. *)
Definition invoke {A} (c : Callee) (f : Callable A) : Eff A :=
  fun env => let (o, env') := f env in mkRun o env' [EvCall c].

(** [print_status(message, status, details)]; [details] is printed when
    it is truthy, that is neither [None] nor the empty string. *)
Definition print_status (message status : string) (details : option string)
  : Eff unit :=
  print (status ++ " " ++ message) ;;
  match details with
  | Some (String c d) => print ("  " ++ String c d)
  | _ => ret tt
  end.

(** ** retry_operation *)

Section Retry.

Variable T : Type.
Variable operation_func : Callable T.
Variable max_retries : Z.
Variable delay : Z.
Variable description : string.

(** [range(n)] *)
Definition range (n : Z) : list Z := map Z.of_nat (seq 0 (Z.to_nat n)).

(** The [except Exception as e] handler of one attempt.  It either
    re-raises [e] or sleeps and falls through to the next iteration. *)
Definition retry_handler (attempt : Z) (e : PyExn) : Eff (Ctl (option T)) :=
  if attempt =? max_retries - 1 then
    print_status (description ++ " failed after " ++ str_int max_retries
                    ++ " attempts")
                 StatusIndicators.ERROR (Some (exn_str e)) ;;
    raise e
  else
    let wait_time := delay * 2 ^ attempt in
    print_status (description ++ " attempt " ++ str_int (attempt + 1)
                    ++ " failed, retrying in " ++ str_int wait_time ++ "s")
                 StatusIndicators.WARNING None ;;
    time_sleep wait_time ;;
    ret Continue.

(** The body of the [for] loop. *)
Definition retry_body (attempt : Z) : Eff (Ctl (option T)) :=
  try_except_Exception
    (v <- invoke COperation operation_func ;; ret (Return (Some v)))
    (retry_handler attempt).

(** The [for attempt in ...] loop; falling off its end makes the function
    return [None]. *)
Fixpoint retry_loop (attempts : list Z) : Eff (option T) :=
  match attempts with
  | [] => ret None
  | attempt :: rest =>
      c <- retry_body attempt ;;
      match c with
      | Return v => ret v
      | Continue => retry_loop rest
      end
  end.

Definition retry_operation : Eff (option T) :=
  retry_loop (range max_retries).

End Retry.

(** ** Loops that may not terminate *)

(** A run with the events [evs] of what came before put in front. *)
Definition after {A} (evs : list Event) (r : Run A) : Run A :=
  mkRun (outcome r) (final r) (evs ++ events r)%list.

(** [m] followed by a computation that needs fuel. *)
Definition bind_loop {A B} (m : Eff A) (k : A -> Env -> option (Run B))
  : Env -> option (Run B) :=
  fun env =>
    let r := m env in
    match outcome r with
    | Ret a => option_map (after (events r)) (k a (final r))
    | Raise e => Some (mkRun (Raise e) (final r) (events r))
    end.

(** [while test: body] followed by [orelse], the statements after the
    loop.  Each iteration uses one unit of fuel; the test uses none. *)
Fixpoint while_loop {A} (fuel : nat) (test : Eff bool) (body : Eff (Ctl A))
    (orelse : Eff A) (env : Env) : option (Run A) :=
  let t := test env in
  match outcome t with
  | Raise e => Some (mkRun (Raise e) (final t) (events t))
  | Ret false => Some (after (events t) (orelse (final t)))
  | Ret true =>
      match fuel with
      | O => None
      | S fuel' =>
          let r := body (final t) in
          match outcome r with
          | Raise e => Some (mkRun (Raise e) (final r) (events t ++ events r)%list)
          | Ret (Return a) =>
              Some (mkRun (Ret a) (final r) (events t ++ events r)%list)
          | Ret Continue =>
              option_map (after (events t ++ events r)%list)
                         (while_loop fuel' test body orelse (final r))
          end
      end
  end.

(** [time.time() - start_time < timeout], the test of both pollers *)
Definition before_deadline (start_time : Q) (timeout : Z) : Eff bool :=
  now <- time_time ;;
  ret (Qltb (now - start_time) (inject_Z timeout)).

(** ** wait_with_timeout *)

Section Wait.

Variable condition_func : Callable bool.
Variable timeout : Z.
Variable check_interval : Z.
Variable description : string.

(** The body of the [while] loop. *)
Definition wait_body (start_time : Q) : Eff (Ctl bool) :=
  c <- invoke CCondition condition_func ;;
  if (c : bool) then
    print_status (description ++ " completed") StatusIndicators.SUCCESS None ;;
    ret (Return true)
  else
    now <- time_time ;;
    let elapsed := py_int (now - start_time) in
    (if (elapsed mod 15 =? 0) && (elapsed >? 0) then
       print_status ("Still waiting for " ++ description ++ "... ("
                       ++ str_int elapsed ++ "s)")
                    StatusIndicators.WORKING None
     else ret tt) ;;
    time_sleep check_interval ;;
    ret Continue.

(** The statements after the loop. *)
Definition wait_timed_out : Eff bool :=
  print_status (description ++ " timed out after " ++ str_int timeout ++ "s")
               StatusIndicators.ERROR None ;;
  ret false.

Definition wait_with_timeout (fuel : nat) : Env -> option (Run bool) :=
  bind_loop
    (start_time <- time_time ;;
     print_status ("Waiting for " ++ description ++ " (timeout: "
                     ++ str_int timeout ++ "s)")
                  StatusIndicators.WORKING None ;;
     ret start_time)
    (fun start_time =>
       while_loop fuel (before_deadline start_time timeout)
                  (wait_body start_time) wait_timed_out).

End Wait.

(** ** DockerHelper.wait_for_container *)

Section Docker.

(** The container objects of the Docker SDK and the two calls made on
    them: [self.client.containers.get(name)] and [container.logs()]. *)
Variable Container : Type.
Variable containers_get : string -> Callable Container.
Variable container_logs : Container -> Callable bytes.

Variable container_name : string.
Variable ready_messages : list bytes.
Variable timeout : Z.
Variable check_interval : Z.

(** The body of the [while] loop.  The inner [for] loop returns at the
    first ready message found in the logs and has no other effect. *)
Definition container_body (container : Container) (start_time : Q)
  : Eff (Ctl bool) :=
  logs <- invoke CLogs (container_logs container) ;;
  if existsb (fun ready_msg => bytes_in ready_msg logs) ready_messages then
    print_status (container_name ++ " is ready") StatusIndicators.SUCCESS None ;;
    ret (Return true)
  else
    now <- time_time ;;
    let elapsed := py_int (now - start_time) in
    (if elapsed mod 10 =? 0 then
       print_status ("Still waiting... (" ++ str_int elapsed ++ "s elapsed)")
                    StatusIndicators.WORKING None
     else ret tt) ;;
    time_sleep check_interval ;;
    ret Continue.

Definition container_timed_out : Eff bool :=
  print_status (container_name ++ " did not start within " ++ str_int timeout
                  ++ "s")
               StatusIndicators.ERROR None ;;
  ret false.

(** The [try] block. *)
Definition wait_for_container_try (fuel : nat) : Env -> option (Run bool) :=
  bind_loop
    (container <- invoke CContainersGet (containers_get container_name) ;;
     start_time <- time_time ;;
     print_status ("Waiting for " ++ container_name ++ " to start (timeout: "
                     ++ str_int timeout ++ "s)")
                  StatusIndicators.WORKING None ;;
     ret (container, start_time))
    (fun '(container, start_time) =>
       while_loop fuel (before_deadline start_time timeout)
                  (container_body container start_time) container_timed_out).

(** [except docker.errors.NotFound: ...] *)
Definition on_not_found : Eff bool :=
  print_status ("Container " ++ container_name ++ " not found")
               StatusIndicators.ERROR None ;;
  ret false.

(** [except Exception as e: ...] *)
Definition on_exception (e : PyExn) : Eff bool :=
  print_status ("Error waiting for " ++ container_name)
               StatusIndicators.ERROR (Some (exn_str e)) ;;
  ret false.

(** The [try] block with its two handlers, tried in order. *)
Definition wait_for_container (fuel : nat) : Env -> option (Run bool) :=
  fun env =>
    match wait_for_container_try fuel env with
    | None => None
    | Some r =>
        match outcome r with
        | Ret _ => Some r
        | Raise e =>
            if is_NotFound e then
              Some (after (events r) (on_not_found (final r)))
            else if is_Exception e then
              Some (after (events r) (on_exception e (final r)))
            else Some r
        end
    end.

End Docker.

End Utils.

Arguments mkEnv {U} _ _.
Arguments clock {U} _.
Arguments store {U} _.
Arguments mkRun {U A} _ _ _.
Arguments outcome {U A} _.
Arguments final {U A} _.
Arguments events {U A} _.
Arguments ret {U A} _ _.
Arguments raise {U A} _ _.
Arguments bind {U A B} _ _ _.
Arguments invoke {U A} _ _ _.
Arguments os_sleep {U _} _ _.
Arguments sleep_error {U platform} _ _.
Arguments time_sleep {U platform} _ _.
Arguments time_time {U} _.
Arguments print {U} _ _.
Arguments print_status {U} _ _ _ _.
Arguments try_except_Exception {U A} _ _ _.
Arguments after {U A} _ _.
Arguments bind_loop {U A B} _ _ _.
Arguments while_loop {U A} _ _ _ _ _.
Arguments before_deadline {U} _ _ _.
Arguments retry_handler {U platform T} _ _ _ _ _ _.
Arguments retry_body {U platform T} _ _ _ _ _ _.
Arguments retry_loop {U platform T} _ _ _ _ _ _.
Arguments retry_operation {U platform T} _ _ _ _ _.
Arguments wait_body {U platform} _ _ _ _ _.
Arguments wait_timed_out {U} _ _ _.
Arguments wait_with_timeout {U platform} _ _ _ _ _ _.
Arguments container_body {U platform Container} _ _ _ _ _ _ _.
Arguments container_timed_out {U} _ _ _.
Arguments wait_for_container_try {U platform Container} _ _ _ _ _ _ _ _.
Arguments on_not_found {U} _ _.
Arguments on_exception {U} _ _ _.
Arguments wait_for_container {U platform Container} _ _ _ _ _ _ _ _.

(** ** Scripted callables, for concrete runs *)

Module Scenario.

(** A callable whose behaviour depends only on how many times it has been
    invoked: the store is the invocation counter.  It takes no time. *)
Definition scripted {A} (script : nat -> Outcome A) : Callable nat A :=
  fun env => (script (store env), mkEnv (clock env) (S (store env))).

Definition start : Env nat := mkEnv 0 0%nat.

(** An operating system that takes every sleep the interpreter hands it. *)
#[export] Instance takes_every_sleep : Platform nat :=
  {| os_sleep := fun _ _ => None |}.

(** An operating system that has been up for [uptime] seconds and refuses
    a sleep that would end later than its timers can tell. *)
Definition up_since (uptime : Z) : Platform nat :=
  {| os_sleep := fun d _ =>
       if sleep_max <=? uptime + d then Some "[Errno 22] Invalid argument"
       else None |}.

Definition boom : PyExn := OtherError "RuntimeError" "boom".

(** Operations for [retry_operation]. *)
Definition always_fails : Callable nat Z := scripted (fun _ => Raise boom).

Definition succeeds_on_third : Callable nat Z :=
  scripted (fun n => if (n <? 2)%nat then Raise boom else Ret 42).

Definition always_ok : Callable nat Z := scripted (fun _ => Ret 7).

(** Predicates for [wait_with_timeout]. *)
Definition never_true : Callable nat bool := scripted (fun _ => Ret false).

(** A predicate that is never true and takes three time units. *)
Definition slow_never_true : Callable nat bool :=
  fun env => (Ret false, mkEnv (clock env + 3)%Q (S (store env))).

Definition true_on_third : Callable nat bool :=
  scripted (fun n => Ret (2 <=? n)%nat).

Definition raises_on_third : Callable nat bool :=
  scripted (fun n => if (n <? 2)%nat then Ret false else Raise boom).

(** A Docker client for [wait_for_container]; its container objects carry
    no data.  The lookup and the logs share the invocation counter. *)
Definition api_error : PyExn := OtherError "APIError" "500 Server Error".

Definition lookup_missing (name : string) : Callable nat unit :=
  scripted (fun _ => Raise (NotFound ("No such container: " ++ name))).

Definition lookup_broken (name : string) : Callable nat unit :=
  scripted (fun _ => Raise api_error).

Definition lookup_ok (name : string) : Callable nat unit :=
  scripted (fun _ => Ret tt).

Definition logs_quiet (c : unit) : Callable nat bytes :=
  scripted (fun _ => Ret (list_byte_of_string "starting")).

(** Two quiet polls after the lookup, then the daemon fails. *)
Definition logs_break_on_third (c : unit) : Callable nat bytes :=
  scripted (fun n => if (n <? 3)%nat then Ret (list_byte_of_string "starting")
                     else Raise api_error).

(** The user interrupts the first reading of the logs. *)
Definition logs_interrupted (c : unit) : Callable nat bytes :=
  scripted (fun _ => Raise (NonError "KeyboardInterrupt")).

Definition ready_messages : list bytes := [list_byte_of_string "ready"].

End Scenario.

(** ** Histories of runs, used to state the theorems *)

Section Histories.

Context {U : Type}.

(** The environment left by a failed attempt of [retry_operation] that is
    not the last: the operation has run and the backoff sleep has been
    performed. *)
Definition after_failed_attempt {T} (operation_func : Callable U T)
    (delay : Z) (attempt : nat) (env : Env U) : Env U :=
  let env' := snd (operation_func env) in
  mkEnv (clock env' + inject_Z (delay * 2 ^ Z.of_nat attempt)) (store env').

(** The environment in which attempt [first + j] starts, when the run is
    at attempt [first] in [env] and the attempts in between fail. *)
Fixpoint attempt_env {T} (operation_func : Callable U T) (delay : Z)
    (first j : nat) (env : Env U) : Env U :=
  match j with
  | O => env
  | S j' =>
      attempt_env operation_func delay (S first) j'
                  (after_failed_attempt operation_func delay first env)
  end.

(** The environment left by an iteration of a poller that found nothing:
    the polled callable ([condition_func], or [container.logs]) has run
    and the poller has slept [check_interval]. *)
Definition after_idle_poll {A} (poll : Callable U A) (check_interval : Z)
    (env : Env U) : Env U :=
  let env' := snd (poll env) in
  mkEnv (clock env' + inject_Z check_interval) (store env').

(** The environment in which poll [j] (counted from 0) starts, when the
    polls before it found nothing. *)
Fixpoint poll_env {A} (poll : Callable U A) (check_interval : Z)
    (j : nat) (env : Env U) : Env U :=
  match j with
  | O => env
  | S j' => poll_env poll check_interval j' (after_idle_poll poll check_interval env)
  end.

End Histories.

(** A number cut to whole time units: rounded down when it is not
    negative, rounded up, that is towards zero, when it is. *)
Definition whole_units (x : Q) : Z :=
  if Qle_bool 0 x then Qfloor x else Qceiling x.

(** The events of a poller iteration that finds nothing: the poll, the
    progress line when [emit] holds, the sleep. *)
Definition idle_iteration (c : Callee) (emit : bool) (line : string)
    (check_interval : Z) : list Event :=
  EvCall c :: ((if emit then [EvPrint line] else []) ++ [EvSleep check_interval])%list.

(** What the handlers of [wait_for_container] print for the exception
    [e]: one line for a missing container, otherwise one line and, when
    [str(e)] is not empty, the text of the exception. *)
Definition reported_error (container_name : string) (e : PyExn) : list Event :=
  if is_NotFound e then
    [EvPrint ("[ERROR] Container " ++ container_name ++ " not found")]
  else
    EvPrint ("[ERROR] Error waiting for " ++ container_name) ::
    match exn_str e with
    | EmptyString => []
    | s => [EvPrint ("  " ++ s)]
    end.

(** * The rest of the module *)

(** ** Python strings *)

(** [s * n] for a one-character string: empty when [n <= 0] *)
Definition str_repeat (c : ascii) (n : Z) : string :=
  string_of_list_ascii (repeat c (Z.to_nat n)).

(** [s.rstrip(c)] for a single character [c]: the trailing run of [c] is
    removed *)
Fixpoint str_rstrip (c : ascii) (s : string) : string :=
  match s with
  | EmptyString => EmptyString
  | String a s' =>
      match str_rstrip c s' with
      | EmptyString => if Ascii.eqb a c then EmptyString else String a EmptyString
      | r => String a r
      end
  end.

(** [s.split(c)[0]] for a single character [c]: what precedes the first
    [c], or all of [s] when there is none *)
Fixpoint str_split_head (c : ascii) (s : string) : string :=
  match s with
  | EmptyString => EmptyString
  | String a s' => if Ascii.eqb a c then EmptyString
                   else String a (str_split_head c s')
  end.

(** [sep.join(xs)] *)
Definition str_join (sep : string) (xs : list string) : string :=
  String.concat sep xs.

(** [needle in haystack] on [str] *)
Definition str_in (needle haystack : string) : bool :=
  bytes_in (list_byte_of_string needle) (list_byte_of_string haystack).

Definition slash : ascii := "/"%char.
Definition newline : ascii := ascii_of_nat 10.

(** ** Python values

    The values a JSON document decodes to.  A [dict] is represented by
    the list of its items in insertion order; its keys are distinct.  A
    [float] is carried by its text, which nothing here inspects. *)
#[local] Unset Elimination Schemes.

Inductive PyVal : Type :=
| VNone
| VBool (b : bool)
| VInt (n : Z)
| VFloat (repr : string)
| VStr (s : string)
| VList (items : list PyVal)
| VDict (items : list (string * PyVal)).

#[local] Set Elimination Schemes.

(** The item of a [dict] under [key] *)
Fixpoint dict_lookup (key : string) (items : list (string * PyVal))
  : option PyVal :=
  match items with
  | [] => None
  | (k, v) :: rest => if String.eqb k key then Some v else dict_lookup key rest
  end.

Definition dict_keys (items : list (string * PyVal)) : list string :=
  map fst items.

Definition is_container (v : PyVal) : bool :=
  match v with VList _ | VDict _ => true | _ => false end.

(** Levels of nested [list]s and [dict]s in a value *)
Fixpoint height (v : PyVal) : nat :=
  match v with
  | VList items => S (fold_right (fun x acc => Nat.max (height x) acc) 0%nat items)
  | VDict items =>
      S (fold_right (fun kv acc => Nat.max (height (snd kv)) acc) 0%nat items)
  | _ => 0%nat
  end.

(** Every [list] and [dict] in the value has at most [w] entries. *)
Fixpoint width_le (w : nat) (v : PyVal) : bool :=
  match v with
  | VList items =>
      (List.length items <=? w)%nat && forallb (width_le w) items
  | VDict items =>
      (List.length items <=? w)%nat
      && forallb (fun kv => width_le w (snd kv)) items
  | _ => true
  end.

(** Every [dict] in the value has distinct keys. *)
Fixpoint keys_distinct (v : PyVal) : Prop :=
  match v with
  | VList items => fold_right (fun x acc => keys_distinct x /\ acc) True items
  | VDict items =>
      NoDup (map fst items)
      /\ fold_right (fun kv acc => keys_distinct (snd kv) /\ acc) True items
  | _ => True
  end.

(** *** format_json_response *)

(** [truncate_dict(obj, depth)] for [depth = Z.of_nat n]; the recursion of
    the source is on [depth], which decreases by one at each level. *)
Fixpoint truncate_levels (n : nat) (obj : PyVal) : PyVal :=
  match n with
  | O => VStr "..."
  | S n' =>
      match obj with
      | VDict items =>
          VDict (map (fun kv => (fst kv, truncate_levels n' (snd kv)))
                     (firstn 3 items))
      | VList items => VList (map (truncate_levels n') (firstn 3 items))
      | _ => obj
      end
  end.

(** [truncate_dict(obj, depth)]; every [depth <= 0] gives ["..."]. *)
Definition truncate_dict (obj : PyVal) (depth : Z) : PyVal :=
  truncate_levels (Z.to_nat depth) obj.

Section FormatJson.

(** [str(data)] and [json.dumps(data, indent=2)], of the Python library *)
Variable py_str : PyVal -> string.
Variable json_dumps : PyVal -> string.

Definition format_json_response (data : PyVal) (max_depth : Z) : string :=
  if max_depth <=? 0 then py_str data
  else json_dumps (truncate_dict data max_depth).

End FormatJson.

(** ** Operations on Python values that can raise *)

Section PyOps.

(** [str(e)] of the exception an operation raises on a value: its text
    depends on the Python version and is left open.  The first argument
    names the operation. *)
Variable error_text : string -> PyVal -> string -> string.

(** [v[key]] for a [str] key *)
Definition py_getitem (v : PyVal) (key : string) : Outcome PyVal :=
  match v with
  | VDict items =>
      match dict_lookup key items with
      | Some x => Ret x
      | None => Raise (OtherError "KeyError" (error_text "[]" v key))
      end
  | _ => Raise (OtherError "TypeError" (error_text "[]" v key))
  end.

(** [key in v] for a [str] key: a key of a [dict], an element of a [list],
    a substring of a [str] *)
Definition py_contains (key : string) (v : PyVal) : Outcome bool :=
  match v with
  | VDict items => Ret (existsb (String.eqb key) (dict_keys items))
  | VList items =>
      Ret (existsb (fun x => match x with
                             | VStr s => String.eqb s key
                             | _ => false
                             end) items)
  | VStr s => Ret (str_in key s)
  | _ => Raise (OtherError "TypeError" (error_text "in" v key))
  end.

(** [v.get(key, default)] *)
Definition py_get (v : PyVal) (key : string) (default : PyVal)
  : Outcome PyVal :=
  match v with
  | VDict items =>
      Ret (match dict_lookup key items with Some x => x | None => default end)
  | _ => Raise (OtherError "AttributeError" (error_text ".get" v key))
  end.

(** [v.items()] *)
Definition py_items (v : PyVal) : Outcome (list (string * PyVal)) :=
  match v with
  | VDict items => Ret items
  | _ => Raise (OtherError "AttributeError" (error_text ".items" v EmptyString))
  end.

(** [v.split('/')[0]] *)
Definition py_split_head (v : PyVal) : Outcome string :=
  match v with
  | VStr s => Ret (str_split_head slash s)
  | _ => Raise (OtherError "AttributeError" (error_text ".split" v EmptyString))
  end.

(** The body of the [for] loop of [get_network_containers], run over the
    items of [containers] with the [result] list built so far. *)
Fixpoint collect_containers (items : list (string * PyVal))
    (result : list PyVal) : Outcome (list PyVal) :=
  match items with
  | [] => Ret result
  | (container_id, container_info) :: rest =>
      match py_get container_info "Name" (VStr "Unknown") with
      | Raise e => Raise e
      | Ret name =>
          match py_get container_info "IPv4Address" (VStr "Unknown") with
          | Raise e => Raise e
          | Ret address =>
              match py_split_head address with
              | Raise e => Raise e
              | Ret ip =>
                  collect_containers rest
                    (result ++ [VDict [("name", name); ("ip", VStr ip);
                                       ("id", VStr container_id)]])
              end
          end
      end
  end.

End PyOps.

(** ** More effects *)

Section MoreEffects.

Context {U : Type}.

(** A call of a library function; unlike [invoke] it leaves no event. *)
Definition call {A} (f : Callable U A) : Eff U A :=
  fun env => let (o, env') := f env in mkRun o env' [].

(** The outcome of an operation that has no effect *)
Definition lift {A} (o : Outcome A) : Eff U A := fun env => mkRun o env [].

(** [try: m] with its [except] clauses: [clauses e] is the handler of the
    first clause that matches [e], if any. *)
Definition try_except {A} (m : Eff U A) (clauses : PyExn -> option (Eff U A))
  : Eff U A :=
  fun env =>
    let r := m env in
    match outcome r with
    | Ret _ => r
    | Raise e =>
        match clauses e with
        | Some handler => after (events r) (handler (final r))
        | None => r
        end
    end.

End MoreEffects.

(** ** print_section, DockerHelper, validate_prerequisites *)

Section DockerHelper.

Context {U : Type}.

Local Notation "x <- m ;; k" := (bind m (fun x => k))
  (at level 61, m at next level, right associativity).
Local Notation "m ;; k" := (bind m (fun _ => k))
  (at level 61, right associativity).

Definition print_section (title : string) (width : Z) : Eff U unit :=
  print (String newline (str_repeat "=" width)) ;;
  print title ;;
  print (str_repeat "=" width).

(** The Docker SDK: container and network objects, the lookups
    [client.containers.get] and [client.networks.get], the call
    [client.api.inspect_network], and the attributes [container.attrs],
    [container.status] and [network.id]. *)
Variable Container : Type.
Variable Network : Type.
Variable containers_get : string -> Callable U Container.
Variable networks_get : string -> Callable U Network.
Variable inspect_network : string -> Callable U PyVal.
Variable attrs : Container -> PyVal.
Variable container_status : Container -> string.
Variable network_id : Network -> string.

Variable error_text : string -> PyVal -> string -> string.

(** [str(v)] of the Python library, used by the f-strings *)
Variable py_str : PyVal -> string.

(** [f"{v}"] *)
Definition format_value (v : PyVal) : string :=
  match v with
  | VStr s => s
  | _ => py_str v
  end.

(** The two [except] clauses of the [DockerHelper] methods. *)
Definition docker_clauses {A} (not_found : Eff U A) (failed : PyExn -> Eff U A)
    (e : PyExn) : option (Eff U A) :=
  if is_NotFound e then Some not_found
  else if is_Exception e then Some (failed e)
  else None.

Definition get_container_ip (container_name network_name : string)
  : Eff U PyVal :=
  try_except
    (container <- invoke CContainersGet (containers_get container_name) ;;
     settings <- lift (py_getitem error_text (attrs container) "NetworkSettings") ;;
     network_info <- lift (py_getitem error_text settings "Networks") ;;
     present <- lift (py_contains error_text network_name network_info) ;;
     if (present : bool) then
       entry <- lift (py_getitem error_text network_info network_name) ;;
       ip <- lift (py_getitem error_text entry "IPAddress") ;;
       print_status ("Container " ++ container_name ++ " IP: " ++ format_value ip)
                    StatusIndicators.SUCCESS None ;;
       ret ip
     else
       print_status ("Container " ++ container_name ++ " not in network "
                       ++ network_name)
                    StatusIndicators.WARNING None ;;
       ret VNone)
    (docker_clauses
       (print_status ("Container " ++ container_name ++ " not found")
                     StatusIndicators.ERROR None ;;
        ret VNone)
       (fun e =>
          print_status ("Error getting IP for " ++ container_name)
                       StatusIndicators.ERROR (Some (exn_str e)) ;;
          ret VNone)).

Definition get_network_containers (network_name : string)
  : Eff U (list PyVal) :=
  try_except
    (network <- call (networks_get network_name) ;;
     network_info <- call (inspect_network (network_id network)) ;;
     containers <- lift (py_get error_text network_info "Containers" (VDict [])) ;;
     items <- lift (py_items error_text containers) ;;
     result <- lift (collect_containers error_text items []) ;;
     print_status ("Found " ++ str_int (Z.of_nat (List.length result))
                     ++ " containers in " ++ network_name)
                  StatusIndicators.SUCCESS None ;;
     ret result)
    (docker_clauses
       (print_status ("Network " ++ network_name ++ " not found")
                     StatusIndicators.ERROR None ;;
        ret [])
       (fun e =>
          print_status "Error getting network containers"
                       StatusIndicators.ERROR (Some (exn_str e)) ;;
          ret [])).

(** The single clause [except docker.errors.NotFound] of
    [validate_prerequisites]. *)
Definition not_found_clause {A} (handler : Eff U A) (e : PyExn)
  : option (Eff U A) :=
  if is_NotFound e then Some handler else None.

(** The [for] loop over the required containers, with the list of missing
    containers found so far. *)
Fixpoint check_containers (required_containers : list string)
    (missing_containers : list string) : Eff U (list string) :=
  match required_containers with
  | [] => ret missing_containers
  | container_name :: rest =>
      missing <-
        try_except
          (container <- invoke CContainersGet (containers_get container_name) ;;
           (if String.eqb (container_status container) "running" then
              print_status ("Container " ++ container_name ++ " running")
                           StatusIndicators.SUCCESS None
            else
              print_status ("Container " ++ container_name ++ " not running ("
                              ++ container_status container ++ ")")
                           StatusIndicators.WARNING None) ;;
           ret missing_containers)
          (not_found_clause
             (print_status ("Container " ++ container_name ++ " not found")
                           StatusIndicators.ERROR None ;;
              ret (missing_containers ++ [container_name])%list)) ;;
      check_containers rest missing
  end.

Definition validate_prerequisites (required_containers : list string)
    (network_name : string) : Eff U bool :=
  print_section "Prerequisites Check" 60 ;;
  c <- try_except
         (call (networks_get network_name) ;;
          print_status ("Network " ++ network_name ++ " exists")
                       StatusIndicators.SUCCESS None ;;
          ret Continue)
         (not_found_clause
            (print_status ("Network " ++ network_name ++ " not found")
                          StatusIndicators.ERROR None ;;
             ret (Return false))) ;;
  match c with
  | Return b => ret b
  | Continue =>
      missing_containers <- check_containers required_containers [] ;;
      match missing_containers with
      | _ :: _ =>
          print_status ("Missing containers: "
                          ++ str_join ", " missing_containers)
                       StatusIndicators.ERROR None ;;
          ret false
      | [] =>
          print_status "All prerequisites satisfied"
                       StatusIndicators.SUCCESS None ;;
          ret true
      end
  end.

End DockerHelper.

(** ** RESTClient and print_raw_response *)

Module RESTClient.

(** The attributes of a client that its methods read.  The session, with
    the credentials and headers [__init__] gives it, is behind the request
    functions below. *)
Record t : Type := mk { base_url : string; timeout : Z }.

(** [__init__]: trailing slashes of [base_url] are dropped. *)
Definition init (base_url : string) (username password : string)
    (timeout : Z) : t :=
  mk (str_rstrip slash base_url) timeout.

Section Client.

Context {U : Type}.

Local Notation "x <- m ;; k" := (bind m (fun x => k))
  (at level 61, m at next level, right associativity).
Local Notation "m ;; k" := (bind m (fun _ => k))
  (at level 61, right associativity).

(** The [requests] library: responses with their [status_code], [text],
    [json()] and the text of [dict(response.headers)]; the three request
    methods of the session, given the URL, the JSON payload and the
    timeout; the class tests of the two [except] clauses. *)
Variable Response : Type.
Variable status_code : Response -> Z.
Variable headers_str : Response -> string.
Variable response_text : Response -> string.
Variable response_json : Response -> Callable U PyVal.
Variable session_get : string -> Z -> Callable U Response.
Variable session_post : string -> PyVal -> Z -> Callable U Response.
Variable session_put : string -> PyVal -> Z -> Callable U Response.
Variable is_Timeout : PyExn -> bool.
Variable is_RequestException : PyExn -> bool.

(** [json.dumps(data, indent=2)] *)
Variable json_dumps : PyVal -> string.

(** The bare [except:] catches whatever [response.json()] or the
    formatting raises. *)
Definition print_raw_response (response : Response) (label : string)
  : Eff U unit :=
  print (label ++ ":") ;;
  print ("  Status: " ++ str_int (status_code response)) ;;
  print ("  Headers: " ++ headers_str response) ;;
  match response_text response with
  | EmptyString => print "  Body: (empty)"
  | _ =>
      try_except
        (data <- call (response_json response) ;;
         print ("  Body: " ++ json_dumps data))
        (fun _ => Some (print ("  Body: " ++ response_text response)))
  end.

(** The two [except] clauses of the request methods. *)
Definition request_clauses {A} (timed_out : Eff U A) (failed : PyExn -> Eff U A)
    (e : PyExn) : option (Eff U A) :=
  if is_Timeout e then Some timed_out
  else if is_RequestException e then Some (failed e)
  else None.

Definition get (self : t) (endpoint : string) (show_details : bool)
  : Eff U (option Response) :=
  let url := base_url self ++ endpoint in
  (if show_details then
     print_status ("GET " ++ endpoint) StatusIndicators.INFO None
   else ret tt) ;;
  try_except
    (response <- call (session_get url (timeout self)) ;;
     (if show_details then print_raw_response response "GET Response"
      else ret tt) ;;
     ret (Some response))
    (request_clauses
       (print_status ("GET request timed out (" ++ str_int (timeout self) ++ "s)")
                     StatusIndicators.ERROR None ;;
        ret None)
       (fun e =>
          print_status "GET request failed" StatusIndicators.ERROR
                       (Some (exn_str e)) ;;
          ret None)).

Definition post (self : t) (endpoint : string) (data : PyVal)
    (show_details : bool) : Eff U (option Response) :=
  let url := base_url self ++ endpoint in
  (if show_details then
     print_status ("POST " ++ endpoint) StatusIndicators.INFO None ;;
     print ("Payload: " ++ json_dumps data)
   else ret tt) ;;
  try_except
    (response <- call (session_post url data (timeout self)) ;;
     (if show_details then print_raw_response response "POST Response"
      else ret tt) ;;
     ret (Some response))
    (request_clauses
       (print_status ("POST request timed out (" ++ str_int (timeout self) ++ "s)")
                     StatusIndicators.ERROR None ;;
        ret None)
       (fun e =>
          print_status "POST request failed" StatusIndicators.ERROR
                       (Some (exn_str e)) ;;
          ret None)).

Definition put (self : t) (endpoint : string) (data : PyVal)
    (show_details : bool) : Eff U (option Response) :=
  let url := base_url self ++ endpoint in
  (if show_details then
     print_status ("PUT " ++ endpoint) StatusIndicators.INFO None ;;
     print ("Payload: " ++ json_dumps data)
   else ret tt) ;;
  try_except
    (response <- call (session_put url data (timeout self)) ;;
     (if show_details then print_raw_response response "PUT Response"
      else ret tt) ;;
     ret (Some response))
    (request_clauses
       (print_status ("PUT request timed out (" ++ str_int (timeout self) ++ "s)")
                     StatusIndicators.ERROR None ;;
        ret None)
       (fun e =>
          print_status "PUT request failed" StatusIndicators.ERROR
                       (Some (exn_str e)) ;;
          ret None)).

End Client.

End RESTClient.

Arguments get_container_ip {U Container} _ _ _ _ _ _ _.
Arguments get_network_containers {U Network} _ _ _ _ _ _.
Arguments check_containers {U Container} _ _ _ _ _.
Arguments validate_prerequisites {U Container Network} _ _ _ _ _ _.
Arguments RESTClient.print_raw_response {U Response} _ _ _ _ _ _ _ _.
Arguments RESTClient.request_clauses {U} _ _ {A} _ _ _.
Arguments RESTClient.get {U Response} _ _ _ _ _ _ _ _ _ _ _ _.
Arguments RESTClient.post {U Response} _ _ _ _ _ _ _ _ _ _ _ _ _.
Arguments RESTClient.put {U Response} _ _ _ _ _ _ _ _ _ _ _ _ _.

(** ** Descriptions of runs, used to state the theorems *)

(** The line [print_status] adds for the text of an exception, when the
    text is not empty. *)
Definition error_details (e : PyExn) : list Event :=
  match exn_str e with
  | EmptyString => []
  | s => [EvPrint ("  " ++ s)]
  end.

(** What a request method of [RESTClient] prints before the request when
    [show_details] is set; [payload] is the text of the JSON payload of a
    POST or PUT. *)
Definition request_details (show_details : bool) (method endpoint : string)
    (payload : option string) : list Event :=
  if show_details then
    EvPrint ("[INFO] " ++ method ++ " " ++ endpoint) ::
    match payload with
    | Some p => [EvPrint ("Payload: " ++ p)]
    | None => []
    end
  else [].

(** What a request method prints for a request exception [e]. *)
Definition request_error_lines (is_Timeout : PyExn -> bool) (method : string)
    (timeout : Z) (e : PyExn) : list Event :=
  if is_Timeout e then
    [EvPrint ("[ERROR] " ++ method ++ " request timed out ("
                ++ str_int timeout ++ "s)")]
  else EvPrint ("[ERROR] " ++ method ++ " request failed") :: error_details e.

(** The three lines of [print_section]. *)
Definition section_lines (title : string) (width : Z) : list Event :=
  [EvPrint (String newline (str_repeat "=" width)); EvPrint title;
   EvPrint (str_repeat "=" width)].

Section Lookups.

Context {U Container : Type}.
Variable containers_get : string -> Callable U Container.

(** The environment after the containers [names] have been looked up in
    order. *)
Fixpoint after_lookups (names : list string) (env : Env U) : Env U :=
  match names with
  | [] => env
  | name :: rest => after_lookups rest (snd (containers_get name env))
  end.

(** Looking up [names] in order raises nothing but "not found". *)
Fixpoint found_or_missing (names : list string) (env : Env U) : Prop :=
  match names with
  | [] => True
  | name :: rest =>
      match fst (containers_get name env) with
      | Ret _ => True
      | Raise e => is_NotFound e = true
      end
      /\ found_or_missing rest (snd (containers_get name env))
  end.

(** The names, in order, whose lookup does not return a container. *)
Fixpoint missing_among (names : list string) (env : Env U) : list string :=
  match names with
  | [] => []
  | name :: rest =>
      match fst (containers_get name env) with
      | Ret _ => missing_among rest (snd (containers_get name env))
      | Raise _ => name :: missing_among rest (snd (containers_get name env))
      end
  end.

End Lookups.

(** The entry [get_network_containers] builds for one container. *)
Definition container_entry (name : PyVal) (ip container_id : string) : PyVal :=
  VDict [("name", name); ("ip", VStr ip); ("id", VStr container_id)].

(** [fields.get(key, "Unknown")] on the items of a dict *)
Definition field_or_unknown (key : string) (fields : list (string * PyVal))
  : PyVal :=
  match dict_lookup key fields with
  | Some x => x
  | None => VStr "Unknown"
  end.

(** [entry] is the entry of the item [(id, info)] of [Containers]: [info]
    is a dict, its address (or ["Unknown"]) is a string, and the entry
    holds the name, the address up to its first slash, and the id. *)
Definition entry_of (item : string * PyVal) (entry : PyVal) : Prop :=
  exists fields address,
    snd item = VDict fields
    /\ field_or_unknown "IPv4Address" fields = VStr address
    /\ entry = container_entry (field_or_unknown "Name" fields)
                               (str_split_head slash address) (fst item).

Section PurePaths.

Variable error_text : string -> PyVal -> string -> string.

(** What [get_container_ip] reads in the attributes of a container: the
    address recorded for the network, [None] when the container is not in
    the network, or the exception of the first operation that fails. *)
Definition address_in (container_attrs : PyVal) (network_name : string)
  : Outcome (option PyVal) :=
  match py_getitem error_text container_attrs "NetworkSettings" with
  | Raise e => Raise e
  | Ret settings =>
      match py_getitem error_text settings "Networks" with
      | Raise e => Raise e
      | Ret network_info =>
          match py_contains error_text network_name network_info with
          | Raise e => Raise e
          | Ret false => Ret None
          | Ret true =>
              match py_getitem error_text network_info network_name with
              | Raise e => Raise e
              | Ret entry =>
                  match py_getitem error_text entry "IPAddress" with
                  | Raise e => Raise e
                  | Ret ip => Ret (Some ip)
                  end
              end
          end
      end
  end.

(** What [get_network_containers] makes of the inspection of a network. *)
Definition entries_in (network_info : PyVal) : Outcome (list PyVal) :=
  match py_get error_text network_info "Containers" (VDict []) with
  | Raise e => Raise e
  | Ret containers =>
      match py_items error_text containers with
      | Raise e => Raise e
      | Ret items => collect_containers error_text items []
      end
  end.

End PurePaths.

(** ** A Docker daemon and a web service, for concrete runs *)

Module Fixture.

Definition error_text (op : string) (v : PyVal) (key : string) : string :=
  "no " ++ op ++ " " ++ key.

Definition py_str (v : PyVal) : string := "<value>".

Definition json_dumps (v : PyVal) : string := "<json>".

(** Every call advances the invocation counter and takes no time. *)
Definition tick {A} (o : Outcome A) : Callable nat A :=
  fun env => (o, mkEnv (clock env) (S (store env))).

(** Containers carry their attributes and their status. *)
Definition Container : Type := (PyVal * string)%type.

Definition broker : Container :=
  (VDict [("NetworkSettings",
           VDict [("Networks",
                   VDict [("lab", VDict [("IPAddress", VStr "172.18.0.2")])])])],
   "running").

Definition db : Container :=
  (VDict [("NetworkSettings", VDict [("Networks", VDict [])])], "exited").

Definition interrupt : PyExn := NonError "KeyboardInterrupt".

(** Two containers; the lookup of [ctrl-c] is interrupted by the user. *)
Definition containers_get (name : string) : Callable nat Container :=
  tick (if String.eqb name "broker" then Ret broker
        else if String.eqb name "db" then Ret db
        else if String.eqb name "ctrl-c" then Raise interrupt
        else Raise (NotFound ("No such container: " ++ name))).

Definition attrs (c : Container) : PyVal := fst c.
Definition container_status (c : Container) : string := snd c.

(** Two networks, named by their ids. *)
Definition networks_get (name : string) : Callable nat string :=
  tick (if String.eqb name "lab" then Ret "lab-id"
        else if String.eqb name "bare" then Ret "bare-id"
        else if String.eqb name "ctrl-c" then Raise interrupt
        else Raise (NotFound ("network " ++ name ++ " not found"))).

Definition network_id (network : string) : string := network.

Definition lab_info : PyVal :=
  VDict [("Name", VStr "lab");
         ("Containers",
          VDict [("c0ffee", VDict [("Name", VStr "broker");
                                    ("IPv4Address", VStr "172.18.0.2/16")]);
                 ("decade", VDict [("Name", VStr "db")])])].

Definition inspect_network (id : string) : Callable nat PyVal :=
  tick (if String.eqb id "lab-id" then Ret lab_info
        else if String.eqb id "bare-id" then Ret (VDict [("Name", VStr "bare")])
        else Raise Scenario.api_error).

(** Logs that hold the ready message from the third call of the daemon
    on: the lookup and two quiet polls come first. *)
Definition logs_ready_on_third (c : unit) : Callable nat bytes :=
  Scenario.scripted
    (fun n => Ret (list_byte_of_string
                     (if (n <? 3)%nat then "starting" else "server ready"))).

(** An operation interrupted by the user. *)
Definition interrupted : Callable nat Z :=
  Scenario.scripted (fun _ => Raise interrupt).

(** Responses carry their status code, their text and what [json()]
    gives. *)
Definition Response : Type := (Z * string * Outcome PyVal)%type.

Definition status_code (r : Response) : Z := fst (fst r).
Definition headers_str (r : Response) : string := "{}".
Definition response_text (r : Response) : string := snd (fst r).
Definition response_json (r : Response) : Callable nat PyVal := tick (snd r).

Definition ok_response : Response :=
  (200, "[1, 2]", Ret (VList [VInt 1; VInt 2])).

Definition read_timeout : PyExn := OtherError "ReadTimeout" "read timed out".
Definition refused : PyExn := OtherError "ConnectionError" "connection refused".

Definition is_Timeout (e : PyExn) : bool :=
  match e with
  | OtherError cls _ => String.eqb cls "ReadTimeout" || String.eqb cls "Timeout"
  | _ => false
  end.

Definition is_RequestException (e : PyExn) : bool :=
  match e with
  | OtherError cls _ => is_Timeout e || String.eqb cls "ConnectionError"
                        || String.eqb cls "RequestException"
  | _ => false
  end.

(** The service answers under [/status], times out under [/slow] and is
    unreachable elsewhere. *)
Definition request (url : string) : Callable nat Response :=
  tick (if String.eqb url "http://host:8080/status" then Ret ok_response
        else if String.eqb url "http://host:8080/slow" then Raise read_timeout
        else Raise refused).

Definition session_get (url : string) (timeout : Z) : Callable nat Response :=
  request url.

Definition session_post (url : string) (data : PyVal) (timeout : Z)
  : Callable nat Response := request url.

Definition session_put (url : string) (data : PyVal) (timeout : Z)
  : Callable nat Response := request url.

End Fixture.

(** * Properties *)

(** ** Numbers *)

Lemma Qltb_lt (x y : Q) : Qltb x y = true <-> (x < y)%Q.
Proof. unfold Qltb, Qlt. apply Z.ltb_lt. Qed.

Lemma Qltb_ge (x y : Q) : Qltb x y = false <-> (y <= x)%Q.
Proof. unfold Qltb, Qle. apply Z.ltb_ge. Qed.

Lemma py_int_floor (x : Q) : (0 <= x)%Q -> py_int x = Qfloor x.
Proof.
  destruct x as [n d]. unfold py_int, Qfloor, Qle. simpl. intros H.
  apply Z.quot_div_nonneg; lia.
Qed.

(** [int()] cuts towards zero. *)
Lemma py_int_whole_units (x : Q) : py_int x = whole_units x.
Proof.
  unfold whole_units. destruct (Qle_bool 0 x) eqn:Hx.
  - apply py_int_floor. now apply Qle_bool_iff.
  - assert (Hneg : ~ (0 <= x)%Q) by (rewrite <- Qle_bool_iff; congruence).
    destruct x as [n d]. unfold py_int, Qceiling, Qfloor, Qopp, Qle in *.
    simpl in *.
    assert (Hn : n < 0) by lia.
    replace n with (- - n) at 1 by lia.
    rewrite Z.quot_opp_l by lia. f_equal.
    apply Z.quot_div_nonneg; lia.
Qed.

(** ** Events *)

Lemma after_nil {U A} (r : Run U A) : after [] r = r.
Proof. now destruct r. Qed.

Lemma after_after {U A} (xs ys : list Event) (r : Run U A) :
  after xs (after ys r) = after (xs ++ ys) r.
Proof. unfold after. simpl. now rewrite app_assoc. Qed.

Lemma calls_prints (lines : list string) : calls (map EvPrint lines) = 0%nat.
Proof. induction lines; auto. Qed.

Lemma sleeps_prints (lines : list string) : sleeps (map EvPrint lines) = [].
Proof. induction lines; auto. Qed.

Lemma calls_app (xs ys : list Event) :
  calls (xs ++ ys) = (calls xs + calls ys)%nat.
Proof. unfold calls. now rewrite filter_app, length_app. Qed.

Lemma sleeps_app (xs ys : list Event) :
  sleeps (xs ++ ys) = (sleeps xs ++ sleeps ys)%list.
Proof.
  induction xs as [|[l|d|c] xs IH]; simpl; auto. now rewrite IH.
Qed.

Lemma printed_app (xs ys : list Event) :
  printed (xs ++ ys) = (printed xs ++ printed ys)%list.
Proof.
  induction xs as [|[l|d|c] xs IH]; simpl; auto. now rewrite IH.
Qed.

(** ** time.sleep *)

Section Sleeping.

Context {U : Type} {platform : Platform U}.

Lemma time_sleep_performed d (env : Env U) :
  sleep_error d env = None ->
  time_sleep d env =
    mkRun (Ret tt) (mkEnv (clock env + inject_Z d) (store env)) [EvSleep d].
Proof. intros H. unfold time_sleep. now rewrite H. Qed.

Lemma time_sleep_refused d (env : Env U) e :
  sleep_error d env = Some e -> time_sleep d env = mkRun (Raise e) env [].
Proof. intros H. unfold time_sleep. now rewrite H. Qed.

(** Every error of [time.sleep] is an instance of [Exception]. *)
Lemma sleep_error_is_Exception d (env : Env U) e :
  sleep_error d env = Some e -> is_Exception e = true.
Proof.
  unfold sleep_error. destruct (_ || _); [now intros [= <-]|].
  destruct (d <? 0); [now intros [= <-]|].
  destruct (os_sleep d env); cbn; [now intros [= <-]|discriminate].
Qed.

(** A sleep that is performed has a length in the range of the clock. *)
Lemma sleep_error_range d (env : Env U) :
  sleep_error d env = None -> 0 <= d <= sleep_max.
Proof.
  unfold sleep_error.
  destruct (d <? - sleep_max) eqn:Hlo; [discriminate|].
  destruct (sleep_max <? d) eqn:Hhi; [discriminate|]. cbn [orb].
  destruct (d <? 0) eqn:Hneg; [discriminate|]. intros _.
  apply Z.ltb_ge in Hhi, Hneg. lia.
Qed.

(** A negative length never reaches the operating system. *)
Lemma sleep_error_negative d (env : Env U) :
  d < 0 ->
  sleep_error d env =
    Some (if d <? - sleep_max then sleep_overflow else sleep_negative).
Proof.
  intros Hd. unfold sleep_error.
  destruct (d <? - sleep_max) eqn:Hlo; [reflexivity|].
  replace (sleep_max <? d) with false
    by (symmetry; apply Z.ltb_ge; unfold sleep_max; lia).
  cbn [orb]. now rewrite (proj2 (Z.ltb_lt _ _) Hd).
Qed.

Lemma sleep_error_too_long d (env : Env U) :
  sleep_max < d -> sleep_error d env = Some sleep_overflow.
Proof.
  intros Hd. unfold sleep_error.
  rewrite (proj2 (Z.ltb_lt _ _) Hd). now rewrite orb_true_r.
Qed.

End Sleeping.

Section RetryProperties.

Context {U : Type} {platform : Platform U} {T : Type}.
Variable operation_func : Callable U T.
Variable max_retries : Z.
Variable delay : Z.
Variable description : string.

Local Abbreviation body :=
  (retry_body operation_func max_retries delay description).
Local Abbreviation loop :=
  (retry_loop operation_func max_retries delay description).
Local Abbreviation wait_time := (fun i : nat => delay * 2 ^ Z.of_nat i).

(** The four ways one iteration of the [for] loop can go. *)

Lemma retry_body_returns attempt env v :
  fst (operation_func env) = Ret v ->
  body attempt env =
    mkRun (Ret (Return (Some v))) (snd (operation_func env)) [EvCall COperation].
Proof.
  intros H. unfold retry_body, try_except_Exception, bind, invoke.
  destruct (operation_func env) as [o env']. simpl in *. subst o. reflexivity.
Qed.

Lemma retry_body_not_caught attempt env e :
  fst (operation_func env) = Raise e -> is_Exception e = false ->
  body attempt env =
    mkRun (Raise e) (snd (operation_func env)) [EvCall COperation].
Proof.
  intros H He. unfold retry_body, try_except_Exception, bind, invoke.
  destruct (operation_func env) as [o env']. simpl in *. subst o. simpl.
  now rewrite He.
Qed.

Lemma retry_body_last attempt env e :
  fst (operation_func env) = Raise e -> is_Exception e = true ->
  attempt = max_retries - 1 ->
  exists lines,
    body attempt env =
      mkRun (Raise e) (snd (operation_func env))
            (EvCall COperation :: map EvPrint lines).
Proof.
  intros H He Ha. unfold retry_body, try_except_Exception, bind, invoke.
  destruct (operation_func env) as [o env']. simpl in *. subst o. simpl.
  rewrite He. unfold retry_handler. rewrite (proj2 (Z.eqb_eq _ _) Ha).
  unfold print_status, bind, print, raise, ret. simpl.
  destruct (exn_str e) as [|c s]; simpl.
  - eexists [_]. reflexivity.
  - eexists [_; _]. reflexivity.
Qed.

Lemma retry_body_retries attempt env e :
  fst (operation_func env) = Raise e -> is_Exception e = true ->
  attempt <> max_retries - 1 ->
  sleep_error (delay * 2 ^ attempt) (snd (operation_func env)) = None ->
  exists line,
    body attempt env =
      mkRun (Ret Continue)
            (mkEnv (clock (snd (operation_func env))
                    + inject_Z (delay * 2 ^ attempt))
                   (store (snd (operation_func env))))
            [EvCall COperation; EvPrint line; EvSleep (delay * 2 ^ attempt)].
Proof.
  intros H He Ha Hd. unfold retry_body, try_except_Exception, bind, invoke.
  destruct (operation_func env) as [o env']. simpl in *. subst o. simpl.
  rewrite He. unfold retry_handler. rewrite (proj2 (Z.eqb_neq _ _) Ha).
  unfold print_status, bind, print, raise, ret. cbn [outcome final events app].
  rewrite (time_sleep_performed _ _ Hd). eexists. reflexivity.
Qed.

Lemma retry_body_sleep_refused attempt env e e' :
  fst (operation_func env) = Raise e -> is_Exception e = true ->
  attempt <> max_retries - 1 ->
  sleep_error (delay * 2 ^ attempt) (snd (operation_func env)) = Some e' ->
  exists line,
    body attempt env =
      mkRun (Raise e') (snd (operation_func env))
            [EvCall COperation; EvPrint line].
Proof.
  intros H He Ha Hd. unfold retry_body, try_except_Exception, bind, invoke.
  destruct (operation_func env) as [o env']. simpl in *. subst o. simpl.
  rewrite He. unfold retry_handler. rewrite (proj2 (Z.eqb_neq _ _) Ha).
  unfold print_status, bind, print, raise, ret. cbn [outcome final events app].
  rewrite (time_sleep_refused _ _ _ Hd). eexists. reflexivity.
Qed.

Lemma retry_loop_cons attempt rest env :
  loop (attempt :: rest) env =
    let r := body attempt env in
    match outcome r with
    | Ret (Return v) => mkRun (Ret v) (final r) (events r ++ [])
    | Ret Continue => after (events r) (loop rest (final r))
    | Raise e => mkRun (Raise e) (final r) (events r)
    end.
Proof.
  simpl. unfold bind at 1.
  destruct (outcome _) as [[v|]|e]; reflexivity.
Qed.

(** A run of failed attempts, none of them the last allowed one, leaves
    the loop at the next attempt after one invocation and one sleep each. *)
Lemma retry_loop_failed_prefix j : forall first len env,
  (forall i, (i < j)%nat ->
     exists e, fst (operation_func (attempt_env operation_func delay first i env))
               = Raise e /\ is_Exception e = true) ->
  (forall i, (i < j)%nat ->
     sleep_error (wait_time (first + i)%nat)
       (snd (operation_func (attempt_env operation_func delay first i env)))
     = None) ->
  (forall i, (i < j)%nat -> Z.of_nat (first + i) <> max_retries - 1) ->
  (j <= len)%nat ->
  exists evs,
    loop (map Z.of_nat (seq first len)) env =
      after evs (loop (map Z.of_nat (seq (first + j) (len - j)))
                      (attempt_env operation_func delay first j env))
    /\ calls evs = j
    /\ sleeps evs = map wait_time (seq first j).
Proof.
  induction j as [|j IH]; intros first len env Hfail Hsleep Hnl Hlen.
  - exists []. rewrite Nat.add_0_r, Nat.sub_0_r, after_nil. auto.
  - destruct len as [|len]; [lia|].
    destruct (Hfail 0%nat ltac:(lia)) as (e & He & Hexc). simpl in He.
    pose proof (Hsleep 0%nat ltac:(lia)) as Hw.
    rewrite Nat.add_0_r in Hw. cbn [attempt_env] in Hw.
    destruct (retry_body_retries (Z.of_nat first) env e He Hexc) as [line Hb];
      [specialize (Hnl 0%nat ltac:(lia)); now rewrite Nat.add_0_r in Hnl | exact Hw |].
    destruct (IH (S first) len
                 (after_failed_attempt operation_func delay first env))
      as (evs & Hrun & Hc & Hs).
    + intros i Hi. apply (Hfail (S i)). lia.
    + intros i Hi. specialize (Hsleep (S i) ltac:(lia)).
      now replace (S first + i)%nat with (first + S i)%nat by lia.
    + intros i Hi. specialize (Hnl (S i) ltac:(lia)).
      now replace (S first + i)%nat with (first + S i)%nat by lia.
    + lia.
    + eexists. split; [|split].
      * cbn [seq map]. rewrite retry_loop_cons. cbv zeta. rewrite Hb.
        cbn [outcome final events]. fold (after_failed_attempt operation_func delay first env).
        rewrite Hrun, after_after.
        replace (first + S j)%nat with (S first + j)%nat by lia.
        cbn [Nat.sub attempt_env]. reflexivity.
      * rewrite calls_app, Hc. reflexivity.
      * rewrite sleeps_app, Hs. reflexivity.
Qed.

Lemma range_seq : range max_retries = map Z.of_nat (seq 0 (Z.to_nat max_retries)).
Proof. reflexivity. Qed.

(** C1, as the code has it: when every attempt fails with an error and
    [time.sleep] performs each of the backoff sleeps between the attempts,
    the operation is invoked exactly [max_retries] times and the error of
    the last attempt is re-raised unchanged, in the environment that
    attempt left. *)
Theorem retry_operation_exhausted env :
  1 <= max_retries ->
  (forall j, (j < Z.to_nat max_retries)%nat ->
     exists e, fst (operation_func (attempt_env operation_func delay 0 j env))
               = Raise e /\ is_Exception e = true) ->
  (forall j, (j < Z.to_nat max_retries - 1)%nat ->
     sleep_error (delay * 2 ^ Z.of_nat j)
       (snd (operation_func (attempt_env operation_func delay 0 j env)))
     = None) ->
  let r := retry_operation operation_func max_retries delay description env in
  let last := operation_func
                (attempt_env operation_func delay 0
                             (Z.to_nat max_retries - 1) env) in
  exists e,
    fst last = Raise e
    /\ outcome r = Raise e
    /\ final r = snd last
    /\ calls (events r) = Z.to_nat max_retries
    /\ sleeps (events r) = map wait_time (seq 0 (Z.to_nat max_retries - 1)).
Proof.
  intros Hn Hfail Hsleep r last. subst r last. unfold retry_operation.
  rewrite range_seq.
  set (n := Z.to_nat max_retries) in *.
  assert (Hn' : (1 <= n)%nat) by (subst n; lia).
  destruct (retry_loop_failed_prefix (n - 1) 0 n env) as (evs & Hrun & Hc & Hs).
  - intros i Hi. apply Hfail. lia.
  - intros i Hi. apply Hsleep. lia.
  - intros i Hi. subst n. lia.
  - lia.
  - rewrite Hrun. replace (n - (n - 1))%nat with 1%nat by lia.
    cbn [Nat.add seq map].
    destruct (Hfail (n - 1)%nat ltac:(lia)) as (e & He & Hexc).
    exists e. rewrite retry_loop_cons. cbv zeta.
    destruct (retry_body_last (Z.of_nat (n - 1)) _ e He Hexc) as [lines Hb];
      [subst n; lia|].
    rewrite Hb. cbn [outcome final events after].
    repeat split; auto.
    + rewrite calls_app, Hc. change (EvCall COperation :: map EvPrint lines)
        with ([EvCall COperation] ++ map EvPrint lines)%list.
      rewrite calls_app, calls_prints. cbn. lia.
    + rewrite sleeps_app, Hs. cbn [sleeps]. now rewrite sleeps_prints, app_nil_r.
Qed.

(** C2, as the code has it: when the first [k - 1] attempts fail with an
    error, [time.sleep] performs the backoff sleep after each of them, and
    attempt [k <= max_retries] succeeds, the operation is invoked exactly
    [k] times and the value of the [k]-th invocation is returned as it is. *)
Theorem retry_operation_succeeds_at env (k : nat) (v : T) :
  (1 <= k)%nat -> Z.of_nat k <= max_retries ->
  (forall j, (j < k - 1)%nat ->
     exists e, fst (operation_func (attempt_env operation_func delay 0 j env))
               = Raise e /\ is_Exception e = true) ->
  (forall j, (j < k - 1)%nat ->
     sleep_error (delay * 2 ^ Z.of_nat j)
       (snd (operation_func (attempt_env operation_func delay 0 j env)))
     = None) ->
  fst (operation_func (attempt_env operation_func delay 0 (k - 1) env)) = Ret v ->
  let r := retry_operation operation_func max_retries delay description env in
  outcome r = Ret (Some v)
  /\ final r = snd (operation_func
                      (attempt_env operation_func delay 0 (k - 1) env))
  /\ calls (events r) = k
  /\ sleeps (events r) = map wait_time (seq 0 (k - 1)).
Proof.
  intros Hk Hkn Hfail Hsleep Hok r. subst r. unfold retry_operation.
  rewrite range_seq.
  set (n := Z.to_nat max_retries) in *.
  assert (Hn' : (k <= n)%nat) by (subst n; lia).
  destruct (retry_loop_failed_prefix (k - 1) 0 n env) as (evs & Hrun & Hc & Hs).
  - exact Hfail.
  - exact Hsleep.
  - intros i Hi. lia.
  - lia.
  - rewrite Hrun. replace (n - (k - 1))%nat with (S (n - k)) by lia.
    cbn [Nat.add seq map]. rewrite retry_loop_cons. cbv zeta.
    rewrite (retry_body_returns _ _ v Hok). cbn [outcome final events after].
    repeat split.
    + rewrite !calls_app, Hc. cbn. lia.
    + rewrite !sleeps_app, Hs. cbn [sleeps]. now rewrite app_nil_r.
Qed.

(** C9: a deterministic operation that always succeeds gives the same
    result in two successive calls, each of which invokes it once and does
    nothing else: no sleep, no notification. *)
Theorem retry_operation_twice env (v : T) :
  1 <= max_retries ->
  (forall env', fst (operation_func env') = Ret v) ->
  let r1 := retry_operation operation_func max_retries delay description env in
  let r2 := retry_operation operation_func max_retries delay description
                            (final r1) in
  outcome r1 = Ret (Some v) /\ outcome r2 = Ret (Some v)
  /\ events r1 = [EvCall COperation] /\ events r2 = [EvCall COperation]
  /\ calls (events r1) = 1%nat /\ calls (events r2) = 1%nat
  /\ sleeps (events r1) = [] /\ sleeps (events r2) = [].
Proof.
  intros Hn Hop.
  assert (Hone : forall env0,
    retry_operation operation_func max_retries delay description env0 =
      mkRun (Ret (Some v)) (snd (operation_func env0)) [EvCall COperation]).
  { intros env0. unfold retry_operation. rewrite range_seq.
    destruct (Z.to_nat max_retries) as [|n] eqn:E; [lia|].
    cbn [seq map]. rewrite retry_loop_cons. cbv zeta.
    now rewrite (retry_body_returns _ _ v (Hop env0)). }
  intros r1 r2. subst r1 r2. rewrite !Hone. cbn. repeat split.
Qed.

(** C10: with [max_retries <= 0] the loop body never runs: the operation
    is not invoked, nothing is raised, printed or slept, the environment
    is untouched and the function returns [None]. *)
Theorem retry_operation_no_attempts env :
  max_retries <= 0 ->
  retry_operation operation_func max_retries delay description env
    = mkRun (Ret None) env [].
Proof.
  intros Hn. unfold retry_operation, range.
  replace (Z.to_nat max_retries) with 0%nat by lia. reflexivity.
Qed.

(** What one iteration does to the events, whatever the operation does:
    it invokes the operation once and then either leaves the loop without
    sleeping or sleeps [delay * 2 ^ attempt] and goes on. *)
Lemma retry_body_cases attempt env :
  let r := body attempt env in
  (exists lines,
      events r = EvCall COperation :: map EvPrint lines
      /\ outcome r <> Ret Continue)
  \/ (exists line,
      events r = [EvCall COperation; EvPrint line; EvSleep (delay * 2 ^ attempt)]
      /\ outcome r = Ret Continue).
Proof.
  cbv zeta.
  destruct (fst (operation_func env)) as [v|e] eqn:Hop.
  - left. exists []. rewrite (retry_body_returns _ _ _ Hop). split; [reflexivity|discriminate].
  - destruct (is_Exception e) eqn:He.
    + destruct (Z.eq_dec attempt (max_retries - 1)) as [Ha|Ha].
      * left. destruct (retry_body_last _ _ _ Hop He Ha) as [lines ->].
        exists lines. split; [reflexivity|discriminate].
      * destruct (sleep_error (delay * 2 ^ attempt) (snd (operation_func env)))
          as [e'|] eqn:Hd.
        -- left. destruct (retry_body_sleep_refused _ _ _ _ Hop He Ha Hd)
             as (line & ->).
           exists [line]. split; [reflexivity|discriminate].
        -- right. destruct (retry_body_retries _ _ _ Hop He Ha Hd) as [line ->].
           exists line. split; reflexivity.
    + left. exists []. rewrite (retry_body_not_caught _ _ _ Hop He).
      split; [reflexivity|discriminate].
Qed.

Lemma sleep_before_calls_prints pending lines :
  sleep_before_calls pending (map EvPrint lines) = [].
Proof. induction lines; auto. Qed.

(** In every run of the loop, the invocations are separated by exactly
    the backoff sleeps, in order. *)
Lemma retry_loop_sleep_before_calls len : forall first env pending,
  let evs := events (loop (map Z.of_nat (seq first len)) env) in
  sleep_before_calls pending evs =
    match calls evs with
    | O => []
    | S c => pending :: map (fun i => Some (wait_time i)) (seq first c)
    end.
Proof.
  induction len as [|len IH]; intros first env pending; cbv zeta.
  - reflexivity.
  - cbn [seq map]. rewrite retry_loop_cons. cbv zeta.
    destruct (retry_body_cases (Z.of_nat first) env) as [(lines & Hev & Ho)|(line & Hev & Ho)].
    + assert (Hevs : forall r : Run U (option T),
                events r = (events (body (Z.of_nat first) env) ++ [])%list ->
                sleep_before_calls pending (events r) =
                match calls (events r) with
                | O => []
                | S c => pending :: map (fun i => Some (wait_time i)) (seq first c)
                end).
      { intros r ->. rewrite app_nil_r, Hev.
        change (EvCall COperation :: map EvPrint lines)
          with ([EvCall COperation] ++ map EvPrint lines)%list.
        rewrite calls_app, calls_prints. cbn.
        now rewrite sleep_before_calls_prints. }
      destruct (outcome (body (Z.of_nat first) env)) as [[v|]|e].
      * apply Hevs. reflexivity.
      * congruence.
      * apply Hevs. cbn. now rewrite app_nil_r.
    + rewrite Ho. cbn [after events]. rewrite Hev. cbn [app sleep_before_calls].
      rewrite IH.
      change (calls (EvCall COperation :: EvPrint line :: EvSleep (delay * 2 ^ Z.of_nat first) :: ?x))
        with (S (calls x)).
      match goal with |- context [calls ?x] => destruct (calls x) end; reflexivity.
Qed.

Lemma retry_loop_sleeps len : forall first env,
  exists m,
    sleeps (events (loop (map Z.of_nat (seq first len)) env))
      = map wait_time (seq first m).
Proof.
  induction len as [|len IH]; intros first env.
  - exists 0%nat. reflexivity.
  - cbn [seq map]. rewrite retry_loop_cons. cbv zeta.
    destruct (retry_body_cases (Z.of_nat first) env) as [(lines & Hev & Ho)|(line & Hev & Ho)].
    + exists 0%nat.
      assert (Hs : sleeps (events (body (Z.of_nat first) env)) = [])
        by (rewrite Hev; cbn; apply sleeps_prints).
      destruct (outcome (body (Z.of_nat first) env)) as [[v|]|e];
        cbn [events]; rewrite ?app_nil_r; auto; congruence.
    + rewrite Ho. cbn [after events]. rewrite Hev.
      destruct (IH (S first) (final (body (Z.of_nat first) env))) as [m Hm].
      exists (S m). cbn [app sleeps seq map]. now rewrite Hm.
Qed.

Lemma wait_time_monotone (i j : nat) :
  0 <= delay -> (i <= j)%nat -> wait_time i <= wait_time j.
Proof.
  intros Hd Hij. apply Z.mul_le_mono_nonneg_l; auto.
  apply Z.pow_le_mono_r; lia.
Qed.

(** C3: in every run, the sleep performed before attempt [i >= 1] (counted
    from 0) lasts [delay * 2 ^ (i - 1)] and no sleep precedes attempt 0;
    with [delay = 2] the sleeps before attempts 1, 2, 3 last 2, 4, 8; and
    for [delay >= 0] the successive sleeps never get shorter. *)
Theorem retry_operation_backoff env :
  let evs := events (retry_operation operation_func max_retries delay
                                     description env) in
  (forall i, (i < calls evs)%nat ->
     nth_error (sleep_before_calls None evs) i =
       Some (if (i =? 0)%nat then None
             else Some (delay * 2 ^ (Z.of_nat i - 1))))
  /\ (delay = 2 -> (3 < calls evs)%nat ->
      firstn 4 (sleep_before_calls None evs) = [None; Some 2; Some 4; Some 8])
  /\ (0 <= delay ->
      forall i j di dj, (i <= j)%nat ->
        nth_error (sleeps evs) i = Some di ->
        nth_error (sleeps evs) j = Some dj ->
        di <= dj).
Proof.
  cbv zeta. unfold retry_operation. rewrite range_seq.
  set (evs := events (loop _ env)).
  pose proof (retry_loop_sleep_before_calls (Z.to_nat max_retries) 0 env None) as Hb.
  cbv zeta in Hb. fold evs in Hb.
  split; [|split].
  - intros i Hi. rewrite Hb. destruct (calls evs) as [|c]; [lia|].
    destruct i as [|i]; [reflexivity|]. cbn [nth_error Nat.eqb].
    rewrite nth_error_map, nth_error_seq.
    destruct (Nat.ltb_spec i c) as [_|]; [|lia]. cbn [option_map Nat.add].
    now replace (Z.of_nat (S i) - 1) with (Z.of_nat i) by lia.
  - intros Hd Hc. rewrite Hb. destruct (calls evs) as [|[|[|[|c]]]]; try lia.
    subst delay. reflexivity.
  - intros Hd i j di dj Hij Hi Hj.
    destruct (retry_loop_sleeps (Z.to_nat max_retries) 0 env) as [m Hm].
    fold evs in Hm. rewrite Hm in Hi, Hj.
    rewrite nth_error_map, nth_error_seq in Hi, Hj.
    destruct (Nat.ltb_spec i m); [|discriminate].
    destruct (Nat.ltb_spec j m); [|discriminate].
    cbn in Hi, Hj. injection Hi as <-. injection Hj as <-.
    now apply wait_time_monotone.
Qed.

End RetryProperties.

(** ** The polling loops *)

Section PollingLoops.

Context {U : Type}.

Lemma option_map_after_nil {A} (x : option (Run U A)) :
  option_map (after []) x = x.
Proof. destruct x as [r|]; cbn; [now rewrite after_nil|reflexivity]. Qed.

Lemma option_map_after_after {A} xs ys (x : option (Run U A)) :
  option_map (after xs) (option_map (after ys) x)
    = option_map (after (xs ++ ys)) x.
Proof. destruct x as [r|]; cbn; [now rewrite after_after|reflexivity]. Qed.

Lemma before_deadline_run start timeout (env : Env U) :
  before_deadline start timeout env =
    mkRun (Ret (Qltb (clock env - start) (inject_Z timeout))) env [].
Proof. reflexivity. Qed.

(** One iteration whose test holds. *)
Lemma while_loop_step {A} fuel start timeout (body : Eff U (Ctl A)) orelse env :
  Qltb (clock env - start) (inject_Z timeout) = true ->
  while_loop (S fuel) (before_deadline start timeout) body orelse env =
    let r := body env in
    match outcome r with
    | Raise e => Some (mkRun (Raise e) (final r) (events r))
    | Ret (Return a) => Some (mkRun (Ret a) (final r) (events r))
    | Ret Continue =>
        option_map (after (events r))
          (while_loop fuel (before_deadline start timeout) body orelse (final r))
    end.
Proof.
  intros Hg. cbn [while_loop]. rewrite before_deadline_run.
  cbn [outcome final events app]. rewrite Hg. reflexivity.
Qed.

(** The deadline has passed: the loop is left without another iteration. *)
Lemma while_loop_exit {A} fuel start timeout (body : Eff U (Ctl A)) orelse env :
  Qltb (clock env - start) (inject_Z timeout) = false ->
  while_loop fuel (before_deadline start timeout) body orelse env =
    Some (orelse env).
Proof.
  intros Hg. destruct fuel; cbn [while_loop]; rewrite before_deadline_run;
    cbn [outcome final events]; rewrite Hg; now rewrite after_nil.
Qed.

(** [k] iterations in a row that poll, find nothing and sleep. *)
Lemma while_loop_idle_prefix {A B} (poll : Callable U B) check_interval
    start timeout (body : Eff U (Ctl A)) orelse k :
  forall fuel env,
  (forall j, (j < k)%nat ->
     Qltb (clock (poll_env poll check_interval j env) - start)
          (inject_Z timeout) = true
     /\ exists evs,
          body (poll_env poll check_interval j env) =
            mkRun (Ret Continue)
                  (after_idle_poll poll check_interval
                                    (poll_env poll check_interval j env))
                  evs
          /\ calls evs = 1%nat /\ sleeps evs = [check_interval]) ->
  exists evs,
    while_loop (k + fuel) (before_deadline start timeout) body orelse env =
      option_map (after evs)
        (while_loop fuel (before_deadline start timeout) body orelse
                    (poll_env poll check_interval k env))
    /\ calls evs = k
    /\ sleeps evs = repeat check_interval k.
Proof.
  induction k as [|k IH]; intros fuel env Hidle.
  - exists []. now rewrite option_map_after_nil.
  - destruct (Hidle 0%nat ltac:(lia)) as (Hg & evs0 & Hb & Hc0 & Hs0).
    cbn [poll_env] in Hg, Hb.
    destruct (IH fuel (after_idle_poll poll check_interval env))
      as (evs & Hrun & Hc & Hs).
    { intros j Hj. apply (Hidle (S j)). lia. }
    exists (evs0 ++ evs)%list. split; [|split].
    + cbn [Nat.add]. rewrite (while_loop_step _ _ _ _ _ _ Hg). cbv zeta.
      rewrite Hb. cbn [outcome final events]. rewrite Hrun.
      now rewrite option_map_after_after.
    + rewrite calls_app, Hc0, Hc. reflexivity.
    + rewrite sleeps_app, Hs0, Hs. reflexivity.
Qed.

End PollingLoops.

(** ** wait_with_timeout *)

Section WaitProperties.

Context {U : Type} {platform : Platform U}.
Variable condition_func : Callable U bool.
Variable timeout : Z.
Variable check_interval : Z.
Variable description : string.

Local Abbreviation body := (wait_body condition_func check_interval description).
Local Abbreviation env_at := (poll_env condition_func check_interval).

Lemma wait_body_true start env :
  fst (condition_func env) = Ret true ->
  body start env =
    mkRun (Ret (Return true)) (snd (condition_func env))
          [EvCall CCondition;
           EvPrint ("[SUCCESS] " ++ description ++ " completed")].
Proof.
  intros H. unfold wait_body, bind, invoke.
  destruct (condition_func env) as [o env']. simpl in *. subst o. reflexivity.
Qed.

Lemma wait_body_raises start env e :
  fst (condition_func env) = Raise e ->
  body start env = mkRun (Raise e) (snd (condition_func env)) [EvCall CCondition].
Proof.
  intros H. unfold wait_body, bind, invoke.
  destruct (condition_func env) as [o env']. simpl in *. subst o. reflexivity.
Qed.

Lemma wait_body_false start env :
  fst (condition_func env) = Ret false ->
  sleep_error check_interval (snd (condition_func env)) = None ->
  let elapsed := py_int (clock (snd (condition_func env)) - start) in
  body start env =
    mkRun (Ret Continue) (after_idle_poll condition_func check_interval env)
          (EvCall CCondition ::
           (if (elapsed mod 15 =? 0) && (elapsed >? 0)
            then [EvPrint ("[WORKING] Still waiting for " ++ description
                             ++ "... (" ++ str_int elapsed ++ "s)")]
            else []) ++ [EvSleep check_interval]).
Proof.
  intros H Hi. cbv zeta. unfold wait_body, bind, invoke, after_idle_poll.
  destruct (condition_func env) as [o env']. simpl in *. subst o.
  cbn [outcome final events time_time].
  destruct (_ && _); cbn; rewrite (time_sleep_performed _ _ Hi); reflexivity.
Qed.

(** The predicate is false and [time.sleep] refuses the interval: the
    iteration ends with the error of the sleep, after the progress line. *)
Lemma wait_body_sleep_refused start env e :
  fst (condition_func env) = Ret false ->
  sleep_error check_interval (snd (condition_func env)) = Some e ->
  let elapsed := py_int (clock (snd (condition_func env)) - start) in
  body start env =
    mkRun (Raise e) (snd (condition_func env))
          (EvCall CCondition ::
           (if (elapsed mod 15 =? 0) && (elapsed >? 0)
            then [EvPrint ("[WORKING] Still waiting for " ++ description
                             ++ "... (" ++ str_int elapsed ++ "s)")]
            else [])).
Proof.
  intros H Hi. cbv zeta. unfold wait_body, bind, invoke.
  destruct (condition_func env) as [o env']. simpl in *. subst o.
  cbn [outcome final events time_time].
  destruct (_ && _); cbn; rewrite (time_sleep_refused _ _ _ Hi); reflexivity.
Qed.

Lemma wait_body_idle start env :
  fst (condition_func env) = Ret false ->
  sleep_error check_interval (snd (condition_func env)) = None ->
  exists evs,
    body start env =
      mkRun (Ret Continue) (after_idle_poll condition_func check_interval env) evs
    /\ calls evs = 1%nat /\ sleeps evs = [check_interval].
Proof.
  intros H Hi. eexists. split; [apply wait_body_false; assumption|].
  cbv zeta. destruct (_ && _); split; reflexivity.
Qed.

Lemma wait_with_timeout_unfold fuel env :
  wait_with_timeout condition_func timeout check_interval description fuel env =
    option_map
      (after [EvPrint ("[WORKING] Waiting for " ++ description ++ " (timeout: "
                         ++ str_int timeout ++ "s)")])
      (while_loop fuel (before_deadline (clock env) timeout)
                  (body (clock env))
                  (wait_timed_out timeout description) env).
Proof. reflexivity. Qed.

(** A predicate that takes no time leaves the clock to the sleeps. *)
Lemma poll_env_clock j : forall env,
  (forall e, clock (snd (condition_func e)) = clock e) ->
  (clock (env_at j env) == clock env + inject_Z (Z.of_nat j * check_interval))%Q.
Proof.
  induction j as [|j IH]; intros env Hc.
  - cbn. rewrite Qplus_0_r. reflexivity.
  - cbn [poll_env]. rewrite IH by assumption.
    unfold after_idle_poll. cbn [clock]. rewrite Hc.
    replace (Z.of_nat (S j) * check_interval)
      with (check_interval + Z.of_nat j * check_interval) by lia.
    rewrite (inject_Z_plus check_interval). ring.
Qed.

(** C4: a poll at which the predicate is true ends the loop at once,
    with true, the success line and no sleep, in whatever state the poll
    is made.  For the whole call: if poll [k] is made (the polls before it
    are made before the deadline, find the predicate false, and
    [time.sleep] performs the sleep after each) and it is the first to find
    the predicate true, the poller returns true right after that
    evaluation: [k + 1] evaluations, [k] sleeps of [check_interval], then
    the success line and nothing else; when the predicate takes no time the
    elapsed time is [k * check_interval] (2 for the third check with
    interval 1). *)
Theorem wait_with_timeout_first_true env (k fuel : nat) :
  (forall start env0 fuel0,
     (clock env0 - start < inject_Z timeout)%Q ->
     fst (condition_func env0) = Ret true ->
     while_loop (S fuel0) (before_deadline start timeout) (body start)
                (wait_timed_out timeout description) env0
     = Some (mkRun (Ret true) (snd (condition_func env0))
                   [EvCall CCondition;
                    EvPrint ("[SUCCESS] " ++ description ++ " completed")]))
  /\ (0 < timeout -> 0 < check_interval ->
      (forall j, (j <= k)%nat ->
         (clock (env_at j env) - clock env < inject_Z timeout)%Q) ->
      (forall j, (j < k)%nat ->
         fst (condition_func (env_at j env)) = Ret false) ->
      (forall j, (j < k)%nat ->
         sleep_error check_interval (snd (condition_func (env_at j env)))
         = None) ->
      fst (condition_func (env_at k env)) = Ret true ->
      (k < fuel)%nat ->
      exists evs,
        wait_with_timeout condition_func timeout check_interval description
                          fuel env
          = Some (mkRun (Ret true) (snd (condition_func (env_at k env)))
                        (evs ++ [EvCall CCondition;
                                 EvPrint ("[SUCCESS] " ++ description
                                            ++ " completed")]))
        /\ calls evs = k
        /\ sleeps evs = repeat check_interval k
        /\ ((forall e, clock (snd (condition_func e)) = clock e) ->
            (clock (snd (condition_func (env_at k env))) - clock env
             == inject_Z (Z.of_nat k * check_interval))%Q)).
Proof.
  split.
  { intros start env0 fuel0 Hg Htrue.
    rewrite while_loop_step by (now apply Qltb_lt). cbv zeta.
    now rewrite (wait_body_true _ _ Htrue). }
  intros Ht Hi Hguard Hfalse Hsleep Htrue Hfuel.
  destruct (while_loop_idle_prefix condition_func check_interval (clock env)
              timeout (body (clock env)) (wait_timed_out timeout description)
              k (fuel - k) env) as (evs & Hrun & Hc & Hs).
  { intros j Hj. split.
    - apply Qltb_lt, Hguard. lia.
    - apply wait_body_idle; [apply Hfalse | apply Hsleep]; assumption. }
  exists (EvPrint ("[WORKING] Waiting for " ++ description ++ " (timeout: "
                     ++ str_int timeout ++ "s)") :: evs).
  split; [|split; [|split]].
  - rewrite wait_with_timeout_unfold.
    replace fuel with (k + S (fuel - S k))%nat at 1 by lia.
    replace (fuel - k)%nat with (S (fuel - S k)) in Hrun by lia.
    rewrite Hrun, while_loop_step by (apply Qltb_lt, Hguard; lia).
    cbv zeta. rewrite (wait_body_true _ _ Htrue). reflexivity.
  - exact Hc.
  - exact Hs.
  - intros Hzero. rewrite Hzero, poll_env_clock by assumption. ring.
Qed.

(** C7: a poll at which the predicate raises ends the loop at once with
    that exception, whatever its class, in whatever state the poll is made:
    nothing is evaluated, slept or printed after it.  For the whole call:
    if poll [k] is made (the polls before it are made before the deadline,
    find the predicate false, and [time.sleep] performs the sleep after
    each) and the predicate raises there, the call ends with that
    exception; the last event of the run is that invocation and the
    environment is the one it left. *)
Theorem wait_with_timeout_predicate_raises env (k fuel : nat) (e : PyExn) :
  (forall start env0 fuel0,
     (clock env0 - start < inject_Z timeout)%Q ->
     fst (condition_func env0) = Raise e ->
     while_loop (S fuel0) (before_deadline start timeout) (body start)
                (wait_timed_out timeout description) env0
     = Some (mkRun (Raise e) (snd (condition_func env0)) [EvCall CCondition]))
  /\ ((forall j, (j <= k)%nat ->
         (clock (env_at j env) - clock env < inject_Z timeout)%Q) ->
      (forall j, (j < k)%nat ->
         fst (condition_func (env_at j env)) = Ret false) ->
      (forall j, (j < k)%nat ->
         sleep_error check_interval (snd (condition_func (env_at j env)))
         = None) ->
      fst (condition_func (env_at k env)) = Raise e ->
      (k < fuel)%nat ->
      exists evs,
        wait_with_timeout condition_func timeout check_interval description
                          fuel env
          = Some (mkRun (Raise e) (snd (condition_func (env_at k env)))
                        (evs ++ [EvCall CCondition]))
        /\ calls evs = k
        /\ sleeps evs = repeat check_interval k).
Proof.
  split.
  { intros start env0 fuel0 Hg Hraise.
    rewrite while_loop_step by (now apply Qltb_lt). cbv zeta.
    now rewrite (wait_body_raises _ _ _ Hraise). }
  intros Hguard Hfalse Hsleep Hraise Hfuel.
  destruct (while_loop_idle_prefix condition_func check_interval (clock env)
              timeout (body (clock env)) (wait_timed_out timeout description)
              k (fuel - k) env) as (evs & Hrun & Hc & Hs).
  { intros j Hj. split.
    - apply Qltb_lt, Hguard. lia.
    - apply wait_body_idle; [apply Hfalse | apply Hsleep]; assumption. }
  exists (EvPrint ("[WORKING] Waiting for " ++ description ++ " (timeout: "
                     ++ str_int timeout ++ "s)") :: evs).
  split; [|split].
  - rewrite wait_with_timeout_unfold.
    replace fuel with (k + S (fuel - S k))%nat at 1 by lia.
    replace (fuel - k)%nat with (S (fuel - S k)) in Hrun by lia.
    rewrite Hrun, while_loop_step by (apply Qltb_lt, Hguard; lia).
    cbv zeta. rewrite (wait_body_raises _ _ _ Hraise).
    reflexivity.
  - exact Hc.
  - exact Hs.
Qed.

Lemma Qceiling_ratio (t i : Z) :
  0 < i -> Qceiling (inject_Z t / inject_Z i) = (t + i - 1) / i.
Proof.
  intros Hi. unfold Qceiling.
  assert (E : (- (inject_Z t / inject_Z i) == inject_Z (- t) / inject_Z i)%Q).
  { rewrite inject_Z_opp. field. intros H.
    apply (inject_Z_injective i 0) in H. lia. }
  rewrite (Qfloor_comp _ _ E), <- Zdiv_Qdiv.
  pose proof (Z.div_mod (- t) i ltac:(lia)).
  pose proof (Z.mod_pos_bound (- t) i Hi).
  pose proof (Z.div_mod (t + i - 1) i ltac:(lia)).
  pose proof (Z.mod_pos_bound (t + i - 1) i Hi).
  nia.
Qed.

Lemma ceiling_bounds (t i : Z) :
  0 < i ->
  let n := (t + i - 1) / i in
  t <= n * i < t + i.
Proof.
  intros Hi n. subst n.
  pose proof (Z.div_mod (t + i - 1) i ltac:(lia)).
  pose proof (Z.mod_pos_bound (t + i - 1) i Hi).
  nia.
Qed.

(** C5, as the code has it: when the predicate is false on every
    evaluation and takes no time, and [time.sleep] performs the sleep after
    each evaluation, the poller evaluates the predicate
    [ceil(timeout / check_interval)] times, sleeping [check_interval] after
    each, and returns false at the first test made once the elapsed time
    has reached [timeout] (3 evaluations for [timeout = 5] and
    [check_interval = 2]). *)
Theorem wait_with_timeout_never_true env (fuel : nat) :
  0 < timeout -> 0 < check_interval ->
  (forall e, fst (condition_func e) = Ret false
             /\ clock (snd (condition_func e)) = clock e) ->
  let n := Qceiling (inject_Z timeout / inject_Z check_interval) in
  (forall j, (j < Z.to_nat n)%nat ->
     sleep_error check_interval (snd (condition_func (env_at j env))) = None) ->
  (Z.to_nat n <= fuel)%nat ->
  exists evs,
    wait_with_timeout condition_func timeout check_interval description fuel env
      = Some (mkRun (Ret false) (env_at (Z.to_nat n) env)
                    (evs ++ [EvPrint ("[ERROR] " ++ description
                                        ++ " timed out after "
                                        ++ str_int timeout ++ "s")]))
    /\ calls evs = Z.to_nat n
    /\ sleeps evs = repeat check_interval (Z.to_nat n)
    /\ (clock (env_at (Z.to_nat n) env) - clock env
        == inject_Z (n * check_interval))%Q
    /\ timeout <= n * check_interval < timeout + check_interval.
Proof.
  intros Ht Hi Hcond n Hsleep Hfuel. subst n.
  rewrite Qceiling_ratio in * by assumption.
  set (n := (timeout + check_interval - 1) / check_interval) in *.
  pose proof (ceiling_bounds timeout check_interval Hi) as Hn. cbv zeta in Hn.
  fold n in Hn.
  assert (Hn0 : 0 <= n) by nia.
  assert (Hzero : forall e, clock (snd (condition_func e)) = clock e)
    by (intros e; apply Hcond).
  assert (Helapsed : forall j,
            (clock (env_at j env) - clock env
             == inject_Z (Z.of_nat j * check_interval))%Q).
  { intros j. rewrite poll_env_clock by assumption. ring. }
  destruct (while_loop_idle_prefix condition_func check_interval (clock env)
              timeout (body (clock env)) (wait_timed_out timeout description)
              (Z.to_nat n) (fuel - Z.to_nat n) env) as (evs & Hrun & Hc & Hs).
  { intros j Hj. split.
    - apply Qltb_lt. rewrite Helapsed. rewrite <- Zlt_Qlt. nia.
    - apply wait_body_idle; [apply Hcond | now apply Hsleep]. }
  exists (EvPrint ("[WORKING] Waiting for " ++ description ++ " (timeout: "
                     ++ str_int timeout ++ "s)") :: evs).
  split; [|split; [|split; [|split]]]; auto.
  - rewrite wait_with_timeout_unfold.
    replace fuel with (Z.to_nat n + (fuel - Z.to_nat n))%nat at 1 by lia.
    rewrite Hrun, while_loop_exit.
    + reflexivity.
    + apply Qltb_ge. rewrite Helapsed. rewrite <- Zle_Qle. nia.
  - rewrite Helapsed. now rewrite Z2Nat.id.
Qed.

End WaitProperties.

(** ** DockerHelper.wait_for_container *)

Section DockerProperties.

Context {U : Type} {platform : Platform U} {Container : Type}.
Variable containers_get : string -> Callable U Container.
Variable container_logs : Container -> Callable U bytes.
Variable container_name : string.
Variable ready_messages : list bytes.
Variable timeout : Z.
Variable check_interval : Z.

Local Abbreviation body :=
  (container_body container_logs container_name ready_messages check_interval).
Local Abbreviation ready :=
  (fun logs : bytes => existsb (fun ready_msg => bytes_in ready_msg logs) ready_messages).
Local Abbreviation wait :=
  (wait_for_container containers_get container_logs container_name
                      ready_messages timeout check_interval).
Local Abbreviation waiting_line :=
  (EvPrint ("[WORKING] Waiting for " ++ container_name
              ++ " to start (timeout: " ++ str_int timeout ++ "s)")).

Lemma container_body_raises c start env e :
  fst (container_logs c env) = Raise e ->
  body c start env = mkRun (Raise e) (snd (container_logs c env)) [EvCall CLogs].
Proof.
  intros H. unfold container_body, bind, invoke.
  destruct (container_logs c env) as [o env']. simpl in *. subst o. reflexivity.
Qed.

Lemma container_body_ready c start env logs :
  fst (container_logs c env) = Ret logs -> ready logs = true ->
  body c start env =
    mkRun (Ret (Return true)) (snd (container_logs c env))
          [EvCall CLogs; EvPrint ("[SUCCESS] " ++ container_name ++ " is ready")].
Proof.
  intros H Hr. unfold container_body, bind, invoke.
  destruct (container_logs c env) as [o env']. simpl in *. subst o.
  cbn [outcome final events]. rewrite Hr. reflexivity.
Qed.

Lemma container_body_not_ready c start env logs :
  fst (container_logs c env) = Ret logs -> ready logs = false ->
  sleep_error check_interval (snd (container_logs c env)) = None ->
  let elapsed := py_int (clock (snd (container_logs c env)) - start) in
  body c start env =
    mkRun (Ret Continue) (after_idle_poll (container_logs c) check_interval env)
          (idle_iteration CLogs (elapsed mod 10 =? 0)
             ("[WORKING] Still waiting... (" ++ str_int elapsed ++ "s elapsed)")
             check_interval).
Proof.
  intros H Hr Hi. cbv zeta.
  unfold container_body, bind, invoke, after_idle_poll, idle_iteration.
  destruct (container_logs c env) as [o env']. simpl in *. subst o.
  cbn [outcome final events]. rewrite Hr. cbn [time_time outcome final events].
  destruct (_ =? 0); cbn; rewrite (time_sleep_performed _ _ Hi); reflexivity.
Qed.

(** The logs hold no ready message and [time.sleep] refuses the interval:
    the iteration ends with the error of the sleep, after the progress
    line. *)
Lemma container_body_sleep_refused c start env logs e :
  fst (container_logs c env) = Ret logs -> ready logs = false ->
  sleep_error check_interval (snd (container_logs c env)) = Some e ->
  let elapsed := py_int (clock (snd (container_logs c env)) - start) in
  body c start env =
    mkRun (Raise e) (snd (container_logs c env))
          (EvCall CLogs ::
           (if elapsed mod 10 =? 0
            then [EvPrint ("[WORKING] Still waiting... (" ++ str_int elapsed
                             ++ "s elapsed)")]
            else [])).
Proof.
  intros H Hr Hi. cbv zeta. unfold container_body, bind, invoke.
  destruct (container_logs c env) as [o env']. simpl in *. subst o.
  cbn [outcome final events]. rewrite Hr. cbn [time_time outcome final events].
  destruct (_ =? 0); cbn; rewrite (time_sleep_refused _ _ _ Hi); reflexivity.
Qed.

Lemma container_body_idle c start env logs :
  fst (container_logs c env) = Ret logs -> ready logs = false ->
  sleep_error check_interval (snd (container_logs c env)) = None ->
  exists evs,
    body c start env =
      mkRun (Ret Continue) (after_idle_poll (container_logs c) check_interval env) evs
    /\ calls evs = 1%nat /\ sleeps evs = [check_interval].
Proof.
  intros H Hr Hi. eexists. split; [eapply container_body_not_ready; eassumption|].
  cbv zeta. unfold idle_iteration. destruct (_ =? 0); split; reflexivity.
Qed.

(** Whatever the body raises is an error when what the logs raise is. *)
Lemma container_body_raises_Exception c start env e :
  (forall c env e, fst (container_logs c env) = Raise e -> is_Exception e = true) ->
  outcome (body c start env) = Raise e -> is_Exception e = true.
Proof.
  intros Hlogs Hr.
  destruct (fst (container_logs c env)) as [logs|e'] eqn:Hl.
  - destruct (ready logs) eqn:Hready.
    + rewrite (container_body_ready _ _ _ _ Hl Hready) in Hr. discriminate.
    + destruct (sleep_error check_interval (snd (container_logs c env)))
        as [e'|] eqn:Hi.
      * rewrite (container_body_sleep_refused c start env logs e' Hl Hready Hi)
          in Hr.
        injection Hr as <-. eapply sleep_error_is_Exception; eassumption.
      * rewrite (container_body_not_ready _ _ _ _ Hl Hready Hi) in Hr.
        discriminate.
  - rewrite (container_body_raises _ _ _ _ Hl) in Hr. injection Hr as <-.
    eapply Hlogs; eassumption.
Qed.

Lemma container_loop_raises_Exception c start fuel :
  (forall c env e, fst (container_logs c env) = Raise e -> is_Exception e = true) ->
  forall env r e,
    while_loop fuel (before_deadline start timeout) (body c start)
               (container_timed_out container_name timeout) env = Some r ->
    outcome r = Raise e -> is_Exception e = true.
Proof.
  intros Hlogs. induction fuel as [|fuel IH]; intros env r e Hrun Hr.
  - destruct (Qltb (clock env - start) (inject_Z timeout)) eqn:Hg.
    + cbn in Hrun. rewrite Hg in Hrun. discriminate.
    + rewrite (while_loop_exit _ _ _ _ _ _ Hg) in Hrun.
      injection Hrun as <-. discriminate.
  - destruct (Qltb (clock env - start) (inject_Z timeout)) eqn:Hg.
    + rewrite (while_loop_step _ _ _ _ _ _ Hg) in Hrun. cbv zeta in Hrun.
      pose proof (container_body_raises_Exception c start env) as Hb.
      destruct (outcome (body c start env)) as [[b|]|e'].
      * injection Hrun as <-. discriminate.
      * destruct (while_loop fuel _ _ _ _) as [r'|] eqn:Hrest; [|discriminate].
        cbn in Hrun. injection Hrun as <-. eapply IH; eauto.
      * injection Hrun as <-. cbn in Hr. injection Hr as <-. now apply Hb.
    + rewrite (while_loop_exit _ _ _ _ _ _ Hg) in Hrun.
      injection Hrun as <-. discriminate.
Qed.

Lemma wait_try_lookup_raises fuel env e :
  fst (containers_get container_name env) = Raise e ->
  wait_for_container_try containers_get container_logs container_name
                         ready_messages timeout check_interval fuel env
    = Some (mkRun (Raise e) (snd (containers_get container_name env))
                  [EvCall CContainersGet]).
Proof.
  intros H. unfold wait_for_container_try, bind_loop, bind, invoke.
  destruct (containers_get container_name env) as [o env']. simpl in *.
  subst o. reflexivity.
Qed.

Lemma wait_try_lookup_returns fuel env c :
  fst (containers_get container_name env) = Ret c ->
  let env1 := snd (containers_get container_name env) in
  wait_for_container_try containers_get container_logs container_name
                         ready_messages timeout check_interval fuel env
    = option_map (after [EvCall CContainersGet; waiting_line])
        (while_loop fuel (before_deadline (clock env1) timeout)
                    (body c (clock env1))
                    (container_timed_out container_name timeout) env1).
Proof.
  intros H. cbv zeta. unfold wait_for_container_try, bind_loop, bind, invoke.
  destruct (containers_get container_name env) as [o env']. simpl in *.
  subst o. reflexivity.
Qed.

(** What the two handlers do with an error that ended the [try] block. *)
Lemma wait_handles fuel env r e :
  wait_for_container_try containers_get container_logs container_name
                         ready_messages timeout check_interval fuel env = Some r ->
  outcome r = Raise e -> is_Exception e = true ->
  wait fuel env =
    Some (mkRun (Ret false) (final r) (events r ++ reported_error container_name e)).
Proof.
  intros Hrun Hr He. unfold wait_for_container. rewrite Hrun, Hr.
  unfold reported_error, on_not_found, on_exception, print_status, bind, print, ret, after.
  destruct (is_NotFound e) eqn:Hnf; [reflexivity|]. rewrite He.
  destruct (exn_str e); reflexivity.
Qed.

(** An exception that is not an error passes both handlers. *)
Lemma wait_passes fuel env r e :
  wait_for_container_try containers_get container_logs container_name
                         ready_messages timeout check_interval fuel env = Some r ->
  outcome r = Raise e -> is_Exception e = false ->
  wait fuel env = Some r.
Proof.
  intros Hrun Hr He. unfold wait_for_container. rewrite Hrun, Hr, He.
  now destruct e.
Qed.

(** The [try] block when poll [k] is made and ends in an exception. *)
Lemma wait_try_raises_at fuel k env c e env2 evk :
  fst (containers_get container_name env) = Ret c ->
  let env1 := snd (containers_get container_name env) in
  let env_at := poll_env (container_logs c) check_interval in
  (forall j, (j <= k)%nat ->
     (clock (env_at j env1) - clock env1 < inject_Z timeout)%Q) ->
  (forall j, (j < k)%nat ->
     exists logs, fst (container_logs c (env_at j env1)) = Ret logs
                  /\ ready logs = false) ->
  (forall j, (j < k)%nat ->
     sleep_error check_interval (snd (container_logs c (env_at j env1)))
     = None) ->
  body c (clock env1) (env_at k env1) = mkRun (Raise e) env2 evk ->
  (k < fuel)%nat ->
  exists evs,
    wait_for_container_try containers_get container_logs container_name
                           ready_messages timeout check_interval fuel env
      = Some (mkRun (Raise e) env2 (evs ++ evk))
    /\ calls evs = S k
    /\ sleeps evs = repeat check_interval k.
Proof.
  intros Hget env1 env_at Hguard Hidle Hsleep Hbody Hfuel.
  destruct (while_loop_idle_prefix (container_logs c) check_interval
              (clock env1) timeout (body c (clock env1))
              (container_timed_out container_name timeout)
              k (fuel - k) env1) as (evs & Hrun & Hc & Hs).
  { intros j Hj. split.
    - apply Qltb_lt, Hguard. lia.
    - destruct (Hidle j Hj) as (logs & Hl & Hr).
      eapply container_body_idle; [eassumption .. | now apply Hsleep]. }
  exists (EvCall CContainersGet :: waiting_line :: evs). split; [|split].
  - rewrite (wait_try_lookup_returns fuel env c Hget). cbv zeta. fold env1.
    replace fuel with (k + S (fuel - S k))%nat at 1 by lia.
    replace (fuel - k)%nat with (S (fuel - S k)) in Hrun by lia.
    rewrite Hrun, while_loop_step by (apply Qltb_lt, Hguard; lia).
    cbv zeta. fold env_at. rewrite Hbody. reflexivity.
  - change (EvCall CContainersGet :: waiting_line :: evs)
      with ([EvCall CContainersGet; waiting_line] ++ evs)%list.
    rewrite calls_app, Hc. reflexivity.
  - exact Hs.
Qed.

(** C6, as the code has it: errors, the instances of [Exception], never
    leave [wait_for_container].  A lookup that raises "not found" gives
    false at once with one error line and no sleep; so does any other error
    of the lookup; an error raised on poll [k], by the logs or by
    [time.sleep], gives false right there, reported; and when the Docker
    calls raise nothing but errors, no run ends in a raise.  An exception
    that is not an error, raised by the lookup or by the logs, is not
    caught: it leaves the function. *)
Theorem wait_for_container_catches :
  (forall fuel env e,
     fst (containers_get container_name env) = Raise e ->
     is_NotFound e = true ->
     wait fuel env =
       Some (mkRun (Ret false) (snd (containers_get container_name env))
                   [EvCall CContainersGet;
                    EvPrint ("[ERROR] Container " ++ container_name
                               ++ " not found")]))
  /\ (forall fuel env e,
        fst (containers_get container_name env) = Raise e ->
        wait fuel env =
          Some (if is_Exception e
                then mkRun (Ret false) (snd (containers_get container_name env))
                           (EvCall CContainersGet
                              :: reported_error container_name e)
                else mkRun (Raise e) (snd (containers_get container_name env))
                           [EvCall CContainersGet]))
  /\ (forall (fuel k : nat) env c e,
        fst (containers_get container_name env) = Ret c ->
        let env1 := snd (containers_get container_name env) in
        let env_at := poll_env (container_logs c) check_interval in
        (forall j, (j <= k)%nat ->
           (clock (env_at j env1) - clock env1 < inject_Z timeout)%Q) ->
        (forall j, (j < k)%nat ->
           exists logs, fst (container_logs c (env_at j env1)) = Ret logs
                        /\ ready logs = false) ->
        (forall j, (j < k)%nat ->
           sleep_error check_interval (snd (container_logs c (env_at j env1)))
           = None) ->
        fst (container_logs c (env_at k env1)) = Raise e ->
        (k < fuel)%nat ->
        exists evs,
          wait fuel env =
            Some (if is_Exception e
                  then mkRun (Ret false)
                             (snd (container_logs c (env_at k env1)))
                             (evs ++ EvCall CLogs
                                :: reported_error container_name e)
                  else mkRun (Raise e)
                             (snd (container_logs c (env_at k env1)))
                             (evs ++ [EvCall CLogs]))
          /\ calls evs = S k
          /\ sleeps evs = repeat check_interval k)
  /\ (forall (fuel k : nat) env c logs e,
        fst (containers_get container_name env) = Ret c ->
        let env1 := snd (containers_get container_name env) in
        let env_at := poll_env (container_logs c) check_interval in
        (forall j, (j <= k)%nat ->
           (clock (env_at j env1) - clock env1 < inject_Z timeout)%Q) ->
        (forall j, (j < k)%nat ->
           exists logs, fst (container_logs c (env_at j env1)) = Ret logs
                        /\ ready logs = false) ->
        (forall j, (j < k)%nat ->
           sleep_error check_interval (snd (container_logs c (env_at j env1)))
           = None) ->
        fst (container_logs c (env_at k env1)) = Ret logs ->
        ready logs = false ->
        sleep_error check_interval (snd (container_logs c (env_at k env1)))
        = Some e ->
        (k < fuel)%nat ->
        exists evs,
          wait fuel env =
            Some (mkRun (Ret false) (snd (container_logs c (env_at k env1)))
                        (evs ++ reported_error container_name e))
          /\ calls evs = S (S k)
          /\ sleeps evs = repeat check_interval k)
  /\ ((forall env e, fst (containers_get container_name env) = Raise e ->
                     is_Exception e = true) ->
      (forall c env e, fst (container_logs c env) = Raise e ->
                       is_Exception e = true) ->
      forall fuel env r, wait fuel env = Some r -> exists b, outcome r = Ret b).
Proof.
  assert (Hlookup : forall fuel env e,
            fst (containers_get container_name env) = Raise e ->
            is_Exception e = true ->
            wait fuel env =
              Some (mkRun (Ret false) (snd (containers_get container_name env))
                          (EvCall CContainersGet :: reported_error container_name e))).
  { intros fuel env e Hget He.
    now rewrite (wait_handles fuel env _ e (wait_try_lookup_raises fuel env e Hget)). }
  split; [|split; [|split; [|split]]].
  - intros fuel env e Hget Hnf.
    rewrite (Hlookup fuel env e Hget) by (now destruct e).
    unfold reported_error. now rewrite Hnf.
  - intros fuel env e Hget. destruct (is_Exception e) eqn:He.
    + now apply Hlookup.
    + now rewrite (wait_passes fuel env _ e (wait_try_lookup_raises fuel env e Hget)).
  - intros fuel k env c e Hget env1 env_at Hguard Hidle Hsleep Hraise Hfuel.
    destruct (wait_try_raises_at fuel k env c e _ _ Hget Hguard Hidle Hsleep
                (container_body_raises c (clock env1) _ e Hraise) Hfuel)
      as (evs & Htry & Hc & Hs).
    exists evs. split; [|split; assumption].
    destruct (is_Exception e) eqn:He.
    + rewrite (wait_handles fuel env _ e Htry eq_refl He). cbn [final events].
      now rewrite <- app_assoc.
    + now rewrite (wait_passes fuel env _ e Htry eq_refl He).
  - intros fuel k env c logs e Hget env1 env_at Hguard Hidle Hsleep Hlogs Hquiet
           Hrefused Hfuel.
    destruct (wait_try_raises_at fuel k env c e _ _ Hget Hguard Hidle Hsleep
                (container_body_sleep_refused c (clock env1) _ logs e
                   Hlogs Hquiet Hrefused) Hfuel)
      as (evs & Htry & Hc & Hs).
    eexists. split; [|split].
    + rewrite (wait_handles fuel env _ e Htry eq_refl
                 (sleep_error_is_Exception _ _ _ Hrefused)).
      cbn [final events]. reflexivity.
    + rewrite calls_app, Hc. cbv zeta.
      destruct (_ =? 0); cbn; lia.
    + rewrite sleeps_app, Hs. cbv zeta.
      destruct (_ =? 0); cbn; now rewrite app_nil_r.
  - intros Hget Hlogs fuel env r Hrun.
    destruct (wait_for_container_try containers_get container_logs
                container_name ready_messages timeout check_interval fuel env)
      as [r0|] eqn:Htry.
    2:{ unfold wait_for_container in Hrun. rewrite Htry in Hrun. discriminate. }
    destruct (outcome r0) as [b|e] eqn:Ho.
    + unfold wait_for_container in Hrun. rewrite Htry, Ho in Hrun.
      injection Hrun as <-. eauto.
    + assert (He : is_Exception e = true).
      { destruct (fst (containers_get container_name env)) as [c|e'] eqn:Hg.
        - rewrite (wait_try_lookup_returns fuel env c Hg) in Htry.
          cbv zeta in Htry.
          destruct (while_loop fuel _ _ _ _) as [r1|] eqn:Hloop; [|discriminate].
          cbn in Htry. injection Htry as <-. cbn in Ho.
          eapply container_loop_raises_Exception; eauto.
        - rewrite (wait_try_lookup_raises fuel env e' Hg) in Htry.
          injection Htry as <-. cbn in Ho. injection Ho as <-. eauto. }
      rewrite (wait_handles fuel env r0 e Htry Ho He) in Hrun.
      injection Hrun as <-. now exists false.
Qed.

End DockerProperties.

(** C8, as the code has it: in an iteration that finds nothing, the
    container poller prints its progress line exactly when the elapsed
    time, cut to whole time units, is a multiple of 10, and the generic
    poller exactly when it is a positive multiple of 15; then each calls
    [time.sleep] for [check_interval]: a sleep that is performed ends the
    iteration, one that is refused ends it with the error of the sleep. *)
Theorem idle_iteration_progress :
  (forall U (platform : Platform U) Container
          (container_logs : Container -> Callable U bytes)
          container_name ready_messages check_interval c start env logs,
     fst (container_logs c env) = Ret logs ->
     existsb (fun ready_msg => bytes_in ready_msg logs) ready_messages = false ->
     let polled := snd (container_logs c env) in
     let elapsed := whole_units (clock polled - start) in
     let line := "[WORKING] Still waiting... (" ++ str_int elapsed
                   ++ "s elapsed)" in
     let r := container_body container_logs container_name ready_messages
                             check_interval c start env in
     match sleep_error check_interval polled with
     | None =>
         r = mkRun (Ret Continue)
                   (after_idle_poll (container_logs c) check_interval env)
                   (idle_iteration CLogs (elapsed mod 10 =? 0) line
                                   check_interval)
     | Some e =>
         r = mkRun (Raise e) polled
                   (EvCall CLogs
                      :: if elapsed mod 10 =? 0 then [EvPrint line] else [])
     end)
  /\ (forall U (platform : Platform U) (condition_func : Callable U bool)
             check_interval description start env,
        fst (condition_func env) = Ret false ->
        let polled := snd (condition_func env) in
        let elapsed := whole_units (clock polled - start) in
        let line := "[WORKING] Still waiting for " ++ description ++ "... ("
                      ++ str_int elapsed ++ "s)" in
        let r := wait_body condition_func check_interval description
                           start env in
        match sleep_error check_interval polled with
        | None =>
            r = mkRun (Ret Continue)
                      (after_idle_poll condition_func check_interval env)
                      (idle_iteration CCondition
                         ((elapsed mod 15 =? 0) && (0 <? elapsed)) line
                         check_interval)
        | Some e =>
            r = mkRun (Raise e) polled
                      (EvCall CCondition
                         :: if (elapsed mod 15 =? 0) && (0 <? elapsed)
                            then [EvPrint line] else [])
        end).
Proof.
  split.
  - intros U platform Container container_logs container_name ready_messages
           check_interval c start env logs Hl Hr polled elapsed line r.
    subst polled elapsed line r. rewrite <- py_int_whole_units.
    destruct (sleep_error _ _) as [e|] eqn:Hs.
    + now apply (container_body_sleep_refused container_logs container_name
                   ready_messages check_interval c start env logs e).
    + now apply (container_body_not_ready container_logs container_name
                   ready_messages check_interval c start env logs).
  - intros U platform condition_func check_interval description start env Hc
           polled elapsed line r.
    subst polled elapsed line r. rewrite <- py_int_whole_units.
    destruct (sleep_error _ _) as [e|] eqn:Hs.
    + rewrite (wait_body_sleep_refused condition_func check_interval
                 description start env e Hc Hs).
      cbv zeta. now rewrite Z.gtb_ltb.
    + rewrite (wait_body_false condition_func check_interval description
                 start env Hc Hs).
      cbv zeta. unfold idle_iteration. now rewrite Z.gtb_ltb.
Qed.

(** ** Termination of the pollers *)

Section Termination.

Context {U : Type} {platform : Platform U}.

(** A loop whose iterations each take at least one time unit is over
    after [timeout] of them. *)
Lemma while_loop_terminates {A} start timeout (body : Eff U (Ctl A)) orelse :
  (forall env, outcome (body env) = Ret Continue ->
               (clock env + 1 <= clock (final (body env)))%Q) ->
  forall fuel env,
    (inject_Z timeout - (clock env - start) <= inject_Z (Z.of_nat fuel))%Q ->
    while_loop fuel (before_deadline start timeout) body orelse env <> None.
Proof.
  intros Hbody. induction fuel as [|fuel IH]; intros env Hleft.
  - rewrite while_loop_exit; [discriminate|].
    apply Qltb_ge. change (inject_Z (Z.of_nat 0)) with 0%Q in Hleft. lra.
  - destruct (Qltb (clock env - start) (inject_Z timeout)) eqn:Hg.
    + rewrite (while_loop_step _ _ _ _ _ _ Hg). cbv zeta.
      specialize (Hbody env).
      destruct (outcome (body env)) as [[a|]|e]; try discriminate.
      specialize (Hbody eq_refl).
      specialize (IH (final (body env))).
      destruct (while_loop fuel _ _ _ _); [discriminate|].
      exfalso. apply IH; [|reflexivity].
      rewrite Nat2Z.inj_succ in Hleft. unfold Z.succ in Hleft.
      rewrite inject_Z_plus in Hleft. change (inject_Z 1) with 1%Q in Hleft.
      lra.
    + rewrite (while_loop_exit _ _ _ _ _ _ Hg). discriminate.
Qed.

Lemma wait_body_continues (condition_func : Callable U bool) check_interval
    description start env :
  outcome (wait_body condition_func check_interval description start env)
    = Ret Continue ->
  0 <= check_interval
  /\ final (wait_body condition_func check_interval description start env)
     = after_idle_poll condition_func check_interval env.
Proof.
  intros Ho.
  destruct (fst (condition_func env)) as [[|]|e] eqn:Hc.
  - rewrite (wait_body_true _ _ _ _ _ Hc) in Ho. discriminate.
  - destruct (sleep_error check_interval (snd (condition_func env)))
      as [e|] eqn:Hi.
    + rewrite (wait_body_sleep_refused _ _ _ _ _ _ Hc Hi) in Ho. discriminate.
    + split; [apply (sleep_error_range _ _ Hi)|].
      now rewrite (wait_body_false _ _ _ _ _ Hc Hi).
  - rewrite (wait_body_raises _ _ _ _ _ _ Hc) in Ho. discriminate.
Qed.

(** X27: [wait_with_timeout] returns within [timeout] iterations when the
    interval is at least one time unit and the predicate does not set the
    clock back. *)
Lemma wait_with_timeout_terminates (condition_func : Callable U bool)
    timeout check_interval description fuel env :
  1 <= check_interval ->
  (forall e, (clock e <= clock (snd (condition_func e)))%Q) ->
  (Z.to_nat timeout <= fuel)%nat ->
  wait_with_timeout condition_func timeout check_interval description fuel env
    <> None.
Proof.
  intros Hi Hmono Hfuel. rewrite wait_with_timeout_unfold.
  pose proof (while_loop_terminates (clock env) timeout
                (wait_body condition_func check_interval description (clock env))
                (wait_timed_out timeout description)) as Hloop.
  destruct (while_loop fuel _ _ _ env) eqn:Hrun; [discriminate|].
  exfalso. eapply Hloop; [| |exact Hrun].
  - intros env0 Ho. apply wait_body_continues in Ho as [_ ->].
    unfold after_idle_poll. cbn [clock].
    pose proof (Hmono env0). rewrite Zle_Qle in Hi.
    change (inject_Z 1) with 1%Q in Hi. lra.
  - assert (Ht : timeout <= Z.of_nat fuel) by lia. rewrite Zle_Qle in Ht. lra.
Qed.

(** X29: an exception that is not an error is not retried: it leaves
    [retry_operation] from the attempt that raised it. *)
Lemma retry_operation_lets_non_errors_through {T}
    (operation_func : Callable U T) max_retries delay description env e :
  1 <= max_retries ->
  fst (operation_func env) = Raise e -> is_Exception e = false ->
  retry_operation operation_func max_retries delay description env
    = mkRun (Raise e) (snd (operation_func env)) [EvCall COperation].
Proof.
  intros Hn Hop He. unfold retry_operation, range.
  destruct (Z.to_nat max_retries) as [|n] eqn:E; [lia|].
  cbn [seq map]. rewrite retry_loop_cons. cbv zeta.
  now rewrite (retry_body_not_caught _ _ _ _ _ _ _ Hop He).
Qed.

Lemma container_body_continues {Container}
    (container_logs : Container -> Callable U bytes) container_name
    ready_messages check_interval c start env :
  outcome (container_body container_logs container_name ready_messages
                          check_interval c start env) = Ret Continue ->
  0 <= check_interval
  /\ final (container_body container_logs container_name ready_messages
                           check_interval c start env)
     = after_idle_poll (container_logs c) check_interval env.
Proof.
  intros Ho.
  destruct (fst (container_logs c env)) as [logs|e] eqn:Hl.
  - destruct (existsb (fun ready_msg => bytes_in ready_msg logs) ready_messages)
      eqn:Hready.
    + rewrite (container_body_ready _ container_name _ check_interval _ start
                 _ _ Hl Hready) in Ho.
      discriminate.
    + destruct (sleep_error check_interval (snd (container_logs c env)))
        as [e'|] eqn:Hi.
      * rewrite (container_body_sleep_refused _ container_name _ _ _ start
                   _ _ _ Hl Hready Hi) in Ho.
        discriminate.
      * split; [apply (sleep_error_range _ _ Hi)|].
        now rewrite (container_body_not_ready _ container_name _ _ _ start
                       _ _ Hl Hready Hi).
  - rewrite (container_body_raises _ container_name ready_messages
               check_interval _ start _ _ Hl) in Ho.
    discriminate.
Qed.

(** X28: [wait_for_container] returns within [timeout] iterations when the
    interval is at least one time unit and reading the logs does not set
    the clock back. *)
Lemma wait_for_container_terminates {Container}
    (containers_get : string -> Callable U Container)
    (container_logs : Container -> Callable U bytes)
    container_name ready_messages timeout check_interval fuel env :
  1 <= check_interval ->
  (forall c e, (clock e <= clock (snd (container_logs c e)))%Q) ->
  (Z.to_nat timeout <= fuel)%nat ->
  wait_for_container containers_get container_logs container_name
                     ready_messages timeout check_interval fuel env <> None.
Proof.
  intros Hi Hmono Hfuel.
  assert (Htry : wait_for_container_try containers_get container_logs
                   container_name ready_messages timeout check_interval
                   fuel env <> None).
  { destruct (fst (containers_get container_name env)) as [c|e] eqn:Hg.
    - rewrite (wait_try_lookup_returns _ _ _ _ _ _ _ _ _ Hg). cbv zeta.
      set (env1 := snd (containers_get container_name env)).
      pose proof (while_loop_terminates (clock env1) timeout
                    (container_body container_logs container_name
                                    ready_messages check_interval c (clock env1))
                    (container_timed_out container_name timeout)) as Hloop.
      destruct (while_loop fuel _ _ _ env1) eqn:Hrun; [discriminate|].
      exfalso. eapply Hloop; [| |exact Hrun].
      + intros env0 Ho. apply container_body_continues in Ho as [_ ->].
        unfold after_idle_poll. cbn [clock].
        pose proof (Hmono c env0). rewrite Zle_Qle in Hi.
        change (inject_Z 1) with 1%Q in Hi. lra.
      + assert (Ht : timeout <= Z.of_nat fuel) by lia.
        rewrite Zle_Qle in Ht. lra.
    - rewrite (wait_try_lookup_raises _ _ _ _ _ _ _ _ _ Hg). discriminate. }
  unfold wait_for_container.
  destruct (wait_for_container_try _ _ _ _ _ _ _ _) as [r|]; [|contradiction].
  destruct (outcome r) as [b|e]; [discriminate|].
  destruct (is_NotFound e); [discriminate|].
  destruct (is_Exception e); discriminate.
Qed.

End Termination.

(** ** Concrete runs *)

Import Scenario.

(** Three attempts with base delay 2, all failing: three invocations,
    sleeps of 2 and 4, and [boom] comes out. *)
Lemma retry_operation_exhausted_run :
  let r := retry_operation always_fails 3 2 "fetch" start in
  let last := always_fails (attempt_env always_fails 2 0 (Z.to_nat 3 - 1) start) in
  exists e,
    fst last = Raise e
    /\ outcome r = Raise e
    /\ final r = snd last
    /\ calls (events r) = Z.to_nat 3
    /\ sleeps (events r) = map (fun i => 2 * 2 ^ Z.of_nat i) (seq 0 (Z.to_nat 3 - 1)).
Proof.
  apply (retry_operation_exhausted always_fails 3 2 "fetch" start).
  - lia.
  - intros j _. exists boom. split; reflexivity.
  - intros j Hj. destruct j as [|[|j]]; [reflexivity | reflexivity | lia].
Defined.

(** C1 as stated fails when a backoff sleep is refused: with a base delay
    of 10^10 seconds the first sleep does not fit the clock type, and the
    call ends after a single invocation with the error of [time.sleep] in
    place of the operation's. *)
Lemma retry_operation_sleep_overflow :
  let r := retry_operation always_fails 2 (10 ^ 10) "fetch" start in
  (forall env, fst (always_fails env) = Raise boom)
  /\ outcome r = Raise sleep_overflow
  /\ outcome r <> Raise boom
  /\ calls (events r) = 1%nat
  /\ calls (events r) <> Z.to_nat 2.
Proof.
  cbv zeta. split; [reflexivity|]. split; [reflexivity|].
  split; [discriminate|]. split; [reflexivity|]. discriminate.
Qed.

(** The third of five attempts succeeds with 42. *)
Lemma retry_operation_succeeds_at_run :
  let r := retry_operation succeeds_on_third 5 2 "fetch" start in
  outcome r = Ret (Some 42)
  /\ final r = snd (succeeds_on_third
                      (attempt_env succeeds_on_third 2 0 (3 - 1) start))
  /\ calls (events r) = 3%nat
  /\ sleeps (events r) = map (fun i => 2 * 2 ^ Z.of_nat i) (seq 0 (3 - 1)).
Proof.
  apply (retry_operation_succeeds_at succeeds_on_third 5 2 "fetch" start 3 42).
  - lia.
  - lia.
  - intros j Hj. exists boom.
    destruct j as [|[|j]]; [split; reflexivity | split; reflexivity | lia].
  - intros j Hj. destruct j as [|[|j]]; [reflexivity | reflexivity | lia].
  - reflexivity.
Defined.

(** C2 as stated fails when a backoff sleep is refused: the operation
    would succeed on its third invocation, but with a base delay of 10^10
    seconds the sleep after the first failure does not fit the clock type;
    the operation is invoked once and the error of [time.sleep] comes
    out. *)
Lemma retry_operation_success_not_reached :
  let r := retry_operation succeeds_on_third 5 (10 ^ 10) "fetch" start in
  (forall env,
     fst (succeeds_on_third env)
     = if (store env <? 2)%nat then Raise boom else Ret 42)
  /\ outcome r = Raise sleep_overflow
  /\ outcome r <> Ret (Some 42)
  /\ calls (events r) = 1%nat
  /\ calls (events r) <> 3%nat.
Proof.
  cbv zeta. split; [reflexivity|]. split; [reflexivity|].
  split; [discriminate|]. split; [reflexivity|]. discriminate.
Qed.

(** Four failing attempts with base delay 2: no sleep before attempt 0,
    then 2, 4 and 8. *)
Lemma retry_operation_backoff_run :
  firstn 4 (sleep_before_calls None
              (events (retry_operation always_fails 4 2 "fetch" start)))
  = [None; Some 2; Some 4; Some 8].
Proof.
  apply (proj1 (proj2 (retry_operation_backoff always_fails 4 2 "fetch" start))).
  - reflexivity.
  - vm_compute. lia.
Defined.

Lemma retry_operation_twice_run :
  let r1 := retry_operation always_ok 3 2 "fetch" start in
  let r2 := retry_operation always_ok 3 2 "fetch" (final r1) in
  outcome r1 = Ret (Some 7) /\ outcome r2 = Ret (Some 7)
  /\ events r1 = [EvCall COperation] /\ events r2 = [EvCall COperation]
  /\ calls (events r1) = 1%nat /\ calls (events r2) = 1%nat
  /\ sleeps (events r1) = [] /\ sleeps (events r2) = [].
Proof.
  apply (retry_operation_twice always_ok 3 2 "fetch" start 7).
  - lia.
  - reflexivity.
Defined.

Lemma retry_operation_no_attempts_run :
  retry_operation always_fails 0 2 "fetch" start = mkRun (Ret None) start [].
Proof.
  apply (retry_operation_no_attempts always_fails 0 2 "fetch" start). lia.
Defined.

(** The predicate turns true on the third check, interval 1, timeout 60:
    true after 2 time units; and a loop entered 59 time units into the
    wait, with an interval no sleep would take, returns at once when the
    predicate is true. *)
Lemma wait_with_timeout_first_true_run :
  (exists evs,
     wait_with_timeout true_on_third 60 1 "service" 100 start
       = Some (mkRun (Ret true) (snd (true_on_third (poll_env true_on_third 1 2 start)))
                     (evs ++ [EvCall CCondition;
                              EvPrint ("[SUCCESS] " ++ "service" ++ " completed")]))
     /\ calls evs = 2%nat
     /\ sleeps evs = repeat 1 2
     /\ (clock (snd (true_on_third (poll_env true_on_third 1 2 start))) - clock start
         == inject_Z (Z.of_nat 2 * 1))%Q)
  /\ while_loop 1 (before_deadline 0 60)
                (wait_body true_on_third (10 ^ 10) "service" 0)
                (wait_timed_out 60 "service") (mkEnv 59 2%nat)
     = Some (mkRun (Ret true) (snd (true_on_third (mkEnv 59 2%nat)))
                   [EvCall CCondition;
                    EvPrint ("[SUCCESS] " ++ "service" ++ " completed")]).
Proof.
  split.
  2:{ apply (proj1 (wait_with_timeout_first_true true_on_third 60 (10 ^ 10)
                      "service" start 0 0)); reflexivity. }
  assert (Hguard : forall j, (j <= 2)%nat ->
            (clock (poll_env true_on_third 1 j start) - clock start
             < inject_Z 60)%Q).
  { intros j Hj. destruct j as [|[|[|j]]]; [reflexivity .. | lia]. }
  assert (Hfalse : forall j, (j < 2)%nat ->
            fst (true_on_third (poll_env true_on_third 1 j start)) = Ret false).
  { intros j Hj. destruct j as [|[|j]]; [reflexivity .. | lia]. }
  assert (Hsleep : forall j, (j < 2)%nat ->
            sleep_error 1 (snd (true_on_third (poll_env true_on_third 1 j start)))
            = None).
  { intros j Hj. reflexivity. }
  destruct (proj2 (wait_with_timeout_first_true true_on_third 60 1 "service"
                     start 2 100)
              ltac:(lia) ltac:(lia) Hguard Hfalse Hsleep eq_refl ltac:(lia))
    as (evs & Hrun & Hcalls & Hsleeps & Hclock).
  exists evs. split; [exact Hrun|]. split; [exact Hcalls|].
  split; [exact Hsleeps|]. apply Hclock. intros e. reflexivity.
Defined.

(** Timeout 5, interval 2, predicate never true: three evaluations. *)
Lemma wait_with_timeout_never_true_run :
  let n := Qceiling (inject_Z 5 / inject_Z 2) in
  exists evs,
    wait_with_timeout never_true 5 2 "service" 10 start
      = Some (mkRun (Ret false) (poll_env never_true 2 (Z.to_nat n) start)
                    (evs ++ [EvPrint ("[ERROR] " ++ "service"
                                        ++ " timed out after "
                                        ++ str_int 5 ++ "s")]))
    /\ calls evs = Z.to_nat n
    /\ sleeps evs = repeat 2 (Z.to_nat n)
    /\ (clock (poll_env never_true 2 (Z.to_nat n) start) - clock start
        == inject_Z (n * 2))%Q
    /\ 5 <= n * 2 < 5 + 2.
Proof.
  apply (wait_with_timeout_never_true never_true 5 2 "service" start 10).
  - lia.
  - lia.
  - intros e. split; reflexivity.
  - intros j Hj. reflexivity.
  - vm_compute. lia.
Defined.

Lemma wait_with_timeout_never_true_count :
  Z.to_nat (Qceiling (inject_Z 5 / inject_Z 2)) = 3%nat.
Proof. reflexivity. Qed.

(** C5 as stated fails for a predicate that takes time: with timeout 5
    and interval 2, a predicate that is false on every evaluation and takes
    three time units is evaluated once, not [ceil(5 / 2) = 3] times: after
    the first evaluation and the first sleep the elapsed time is 5. *)
Lemma wait_with_timeout_slow_predicate :
  (forall env, fst (slow_never_true env) = Ret false)
  /\ Qceiling (inject_Z 5 / inject_Z 2) = 3
  /\ exists r,
       wait_with_timeout slow_never_true 5 2 "service" 10 start = Some r
       /\ outcome r = Ret false
       /\ sleeps (events r) = [2]
       /\ calls (events r) = 1%nat
       /\ Z.of_nat (calls (events r)) <> Qceiling (inject_Z 5 / inject_Z 2).
Proof.
  split; [reflexivity|]. split; [reflexivity|].
  eexists. split; [reflexivity|]. split; [reflexivity|].
  split; [reflexivity|]. split; [reflexivity|]. discriminate.
Qed.

(** The predicate raises on the third check: [boom] comes out after
    three evaluations and two sleeps; and a loop entered 59 time units into
    the wait ends at once with the exception the predicate raises. *)
Lemma wait_with_timeout_predicate_raises_run :
  (exists evs,
     wait_with_timeout raises_on_third 60 1 "service" 100 start
       = Some (mkRun (Raise boom)
                     (snd (raises_on_third (poll_env raises_on_third 1 2 start)))
                     (evs ++ [EvCall CCondition]))
     /\ calls evs = 2%nat
     /\ sleeps evs = repeat 1 2)
  /\ while_loop 1 (before_deadline 0 60)
                (wait_body raises_on_third (10 ^ 10) "service" 0)
                (wait_timed_out 60 "service") (mkEnv 59 2%nat)
     = Some (mkRun (Raise boom) (snd (raises_on_third (mkEnv 59 2%nat)))
                   [EvCall CCondition]).
Proof.
  split.
  2:{ apply (proj1 (wait_with_timeout_predicate_raises raises_on_third 60
                      (10 ^ 10) "service" start 0 0 boom)); reflexivity. }
  apply (proj2 (wait_with_timeout_predicate_raises raises_on_third 60 1
                  "service" start 2 100 boom)).
  - intros j Hj. destruct j as [|[|[|j]]]; [reflexivity .. | lia].
  - intros j Hj. destruct j as [|[|j]]; [reflexivity .. | lia].
  - intros j Hj. reflexivity.
  - reflexivity.
  - lia.
Defined.

(** A missing container; a daemon that fails on the lookup; one that
    fails on the third reading of the logs; an interval that does not fit
    the clock type: each gives false with the error reported. *)
Lemma wait_for_container_catches_run :
  (wait_for_container lookup_missing logs_quiet "broker" ready_messages 60 2
                      10 start
   = Some (mkRun (Ret false) (snd (lookup_missing "broker" start))
                 [EvCall CContainersGet;
                  EvPrint ("[ERROR] Container " ++ "broker" ++ " not found")]))
  /\ (wait_for_container lookup_broken logs_quiet "broker" ready_messages 60 2
                         10 start
      = Some (mkRun (Ret false) (snd (lookup_broken "broker" start))
                    (EvCall CContainersGet :: reported_error "broker" api_error)))
  /\ (exists evs,
        wait_for_container lookup_ok logs_break_on_third "broker"
                           ready_messages 60 2 10 start
        = Some (mkRun (Ret false)
                      (snd (logs_break_on_third tt
                              (poll_env (logs_break_on_third tt) 2 2
                                        (snd (lookup_ok "broker" start)))))
                      (evs ++ EvCall CLogs :: reported_error "broker" api_error))
        /\ calls evs = 3%nat
        /\ sleeps evs = repeat 2 2)
  /\ (exists evs,
        wait_for_container lookup_ok logs_quiet "broker" ready_messages 60
                           (10 ^ 10) 10 start
        = Some (mkRun (Ret false)
                      (snd (logs_quiet tt (snd (lookup_ok "broker" start))))
                      (evs ++ reported_error "broker" sleep_overflow))
        /\ calls evs = 2%nat
        /\ sleeps evs = [])
  /\ (exists r,
        wait_for_container lookup_ok logs_break_on_third "broker"
                           ready_messages 60 2 10 start = Some r
        /\ exists b, outcome r = Ret b).
Proof.
  pose proof (wait_for_container_catches lookup_missing logs_quiet "broker"
                ready_messages 60 2) as (Hmissing & _).
  pose proof (wait_for_container_catches lookup_broken logs_quiet "broker"
                ready_messages 60 2) as (_ & Hbroken & _).
  pose proof (wait_for_container_catches lookup_ok logs_break_on_third "broker"
                ready_messages 60 2) as (_ & _ & Hlogs & _ & Hnone).
  pose proof (wait_for_container_catches lookup_ok logs_quiet "broker"
                ready_messages 60 (10 ^ 10)) as (_ & _ & _ & Hsleep & _).
  split; [|split; [|split; [|split]]].
  - apply (Hmissing 10%nat start (NotFound ("No such container: " ++ "broker")));
      reflexivity.
  - apply (Hbroken 10%nat start api_error); reflexivity.
  - apply (Hlogs 10%nat 2%nat start tt api_error).
    + reflexivity.
    + intros j Hj. destruct j as [|[|[|j]]]; [reflexivity .. | lia].
    + intros j Hj. exists (list_byte_of_string "starting").
      destruct j as [|[|j]]; [split; reflexivity .. | lia].
    + intros j Hj. reflexivity.
    + reflexivity.
    + lia.
  - apply (Hsleep 10%nat 0%nat start tt (list_byte_of_string "starting")
             sleep_overflow).
    + reflexivity.
    + intros j Hj. destruct j as [|j]; [reflexivity | lia].
    + intros j Hj. lia.
    + intros j Hj. lia.
    + reflexivity.
    + reflexivity.
    + reflexivity.
    + lia.
  - eexists. split; [reflexivity|].
    eapply (Hnone) with (fuel := 10%nat) (env := start).
    + intros env e H. unfold lookup_ok, scripted in H. cbn in H. discriminate H.
    + intros c env e H. cbv beta iota delta [logs_break_on_third scripted fst] in H.
      destruct (store env <? 3)%nat; [discriminate H|].
      injection H as <-. reflexivity.
    + reflexivity.
Defined.

(** C6 as stated fails for an exception that is not an error: a
    [KeyboardInterrupt] raised while the logs are read is caught by neither
    handler and leaves [wait_for_container]. *)
Lemma wait_for_container_interrupted :
  exists r,
    wait_for_container lookup_ok logs_interrupted "broker" ready_messages 60 2
                       10 start = Some r
    /\ outcome r = Raise (NonError "KeyboardInterrupt")
    /\ forall b, outcome r <> Ret b.
Proof.
  eexists. split; [reflexivity|]. split; [reflexivity|]. discriminate.
Qed.

(** Thirty and a half time units into the wait both pollers print their
    progress line, with the elapsed time cut to 30, and sleep; ten and a
    half time units before the start the container poller prints it, with
    the elapsed time cut to -10; and a sleep the operating system refuses
    ends the iteration after the progress line. *)
Lemma idle_iteration_progress_run :
  container_body logs_quiet "broker" ready_messages 2 tt 0%Q (mkEnv (61 # 2) 0%nat)
  = mkRun (Ret Continue)
          (after_idle_poll (logs_quiet tt) 2 (mkEnv (61 # 2) 0%nat))
          [EvCall CLogs; EvPrint "[WORKING] Still waiting... (30s elapsed)";
           EvSleep 2]
  /\ wait_body never_true 5 "service" 0%Q (mkEnv (61 # 2) 0%nat)
     = mkRun (Ret Continue)
             (after_idle_poll never_true 5 (mkEnv (61 # 2) 0%nat))
             [EvCall CCondition;
              EvPrint "[WORKING] Still waiting for service... (30s)";
              EvSleep 5]
  /\ container_body logs_quiet "broker" ready_messages 2 tt 0%Q
                    (mkEnv (- 21 # 2) 0%nat)
     = mkRun (Ret Continue)
             (after_idle_poll (logs_quiet tt) 2 (mkEnv (- 21 # 2) 0%nat))
             [EvCall CLogs; EvPrint "[WORKING] Still waiting... (-10s elapsed)";
              EvSleep 2]
  /\ container_body (platform := up_since 9223372030) logs_quiet "broker"
                    ready_messages 10 tt 0%Q (mkEnv (61 # 2) 0%nat)
     = mkRun (Raise (OtherError "OSError" "[Errno 22] Invalid argument"))
             (snd (logs_quiet tt (mkEnv (61 # 2) 0%nat)))
             [EvCall CLogs; EvPrint "[WORKING] Still waiting... (30s elapsed)"].
Proof.
  destruct idle_iteration_progress as [Hcontainer Hgeneric].
  split; [|split; [|split]].
  - apply (Hcontainer nat takes_every_sleep unit logs_quiet "broker"
             ready_messages 2 tt 0%Q (mkEnv (61 # 2) 0%nat)
             (list_byte_of_string "starting")); reflexivity.
  - apply (Hgeneric nat takes_every_sleep never_true 5 "service" 0%Q
             (mkEnv (61 # 2) 0%nat)); reflexivity.
  - apply (Hcontainer nat takes_every_sleep unit logs_quiet "broker"
             ready_messages 2 tt 0%Q (mkEnv (- 21 # 2) 0%nat)
             (list_byte_of_string "starting")); reflexivity.
  - apply (Hcontainer nat (up_since 9223372030) unit logs_quiet "broker"
             ready_messages 10 tt 0%Q (mkEnv (61 # 2) 0%nat)
             (list_byte_of_string "starting")); reflexivity.
Defined.

(** C8 as stated fails for the generic poller: on the first poll no time
    has elapsed, 0 is a multiple of 15, and nothing is printed. *)
Lemma generic_progress_at_zero :
  let env := start in
  let start_time := clock env in
  let elapsed := Qfloor (clock (snd (never_true env)) - start_time) in
  let r := wait_body never_true 5 "service" start_time env in
  fst (never_true env) = Ret false
  /\ elapsed mod 15 = 0
  /\ printed (events r) = []
  /\ events r <>
       idle_iteration CCondition (elapsed mod 15 =? 0)
         ("[WORKING] Still waiting for " ++ "service" ++ "... ("
            ++ str_int elapsed ++ "s)") 5.
Proof.
  cbv zeta. repeat split. discriminate.
Qed.

(** * Properties of the rest of the module *)

(** ** Strings *)

Lemma str_rstrip_append_char (c : ascii) (s : string) :
  str_rstrip c (s ++ String c EmptyString) = str_rstrip c s.
Proof.
  induction s as [|a s IH]; cbn.
  - now rewrite Ascii.eqb_refl.
  - now rewrite IH.
Qed.

Lemma str_rstrip_no_trailing (c : ascii) (s : string) :
  forall t, str_rstrip c s <> t ++ String c EmptyString.
Proof.
  induction s as [|a s IH]; intros t; cbn.
  - destruct t; discriminate.
  - destruct (str_rstrip c s) as [|b r] eqn:Hr.
    + destruct (Ascii.eqb_spec a c) as [->|Hne].
      * destruct t; discriminate.
      * destruct t as [|a' [|b' t]]; cbn; try discriminate.
        intros H. injection H as H. contradiction.
    + destruct t as [|a' t]; cbn.
      * discriminate.
      * intros H. injection H as _ H. exact (IH t H).
Qed.

Lemma str_rstrip_decompose (c : ascii) (s : string) :
  exists k, s = str_rstrip c s ++ string_of_list_ascii (repeat c k).
Proof.
  induction s as [|a s [k IH]]; cbn.
  - exists 0%nat. reflexivity.
  - destruct (str_rstrip c s) as [|b r] eqn:Hr.
    + destruct (Ascii.eqb_spec a c) as [->|Hne].
      * exists (S k). cbn. now rewrite IH at 1.
      * exists k. cbn. now rewrite IH at 1.
    + exists k. cbn. now rewrite IH at 1.
Qed.

Lemma str_split_head_decompose (c : ascii) (s : string) :
  s = str_split_head c s
  \/ exists rest, s = str_split_head c s ++ String c rest.
Proof.
  induction s as [|a s IH]; cbn.
  - now left.
  - destruct (Ascii.eqb_spec a c) as [->|Hne].
    + right. exists s. reflexivity.
    + destruct IH as [IH|[rest IH]].
      * left. now rewrite <- IH.
      * right. exists rest. cbn. now rewrite <- IH.
Qed.

Lemma str_split_head_clean (c : ascii) (s : string) :
  ~ In c (list_ascii_of_string (str_split_head c s)).
Proof.
  induction s as [|a s IH]; cbn.
  - tauto.
  - destruct (Ascii.eqb_spec a c) as [->|Hne]; cbn; [tauto|].
    intros [H|H]; [contradiction|exact (IH H)].
Qed.

(** ** format_json_response *)

(** The recursion of the source, read back from the embedding. *)
Lemma truncate_dict_eq (obj : PyVal) (depth : Z) :
  truncate_dict obj depth =
    if depth <=? 0 then VStr "..."
    else match obj with
         | VDict items =>
             VDict (map (fun kv => (fst kv, truncate_dict (snd kv) (depth - 1)))
                        (firstn 3 items))
         | VList items =>
             VList (map (fun item => truncate_dict item (depth - 1))
                        (firstn 3 items))
         | _ => obj
         end.
Proof.
  unfold truncate_dict. destruct (Z.leb_spec depth 0) as [H|H].
  - now replace (Z.to_nat depth) with 0%nat by lia.
  - replace (Z.to_nat depth) with (S (Z.to_nat (depth - 1))) by lia.
    reflexivity.
Qed.

Lemma fold_max_le {A} (f : A -> nat) (xs : list A) (n : nat) :
  (forall x, In x xs -> (f x <= n)%nat) ->
  (fold_right (fun x acc => Nat.max (f x) acc) 0 xs <= n)%nat.
Proof.
  induction xs as [|x xs IH]; intros H; cbn.
  - lia.
  - pose proof (H x (or_introl eq_refl)).
    pose proof (IH (fun y Hy => H y (or_intror Hy))). lia.
Qed.

Lemma fold_max_ge {A} (f : A -> nat) (xs : list A) (x : A) :
  In x xs -> (f x <= fold_right (fun x acc => Nat.max (f x) acc) 0 xs)%nat.
Proof.
  induction xs as [|y xs IH]; cbn; [tauto|].
  intros [->|H]; [lia|]. specialize (IH H). lia.
Qed.

Lemma truncate_levels_height (n : nat) : forall obj,
  (height (truncate_levels n obj) <= n)%nat.
Proof.
  induction n as [|n IH]; intros obj.
  - cbn. lia.
  - destruct obj; cbn [truncate_levels height]; try lia.
    + apply le_n_S, (fold_max_le height). intros x Hx.
      apply in_map_iff in Hx as (y & <- & _). apply IH.
    + apply le_n_S, (fold_max_le (fun kv => height (snd kv))). intros x Hx.
      apply in_map_iff in Hx as (y & <- & _). apply IH.
Qed.

Lemma truncate_levels_width (n : nat) : forall obj,
  width_le 3 (truncate_levels n obj) = true.
Proof.
  induction n as [|n IH]; intros obj.
  - reflexivity.
  - destruct obj; cbn [truncate_levels width_le]; try reflexivity.
    + apply andb_true_iff. split.
      * apply Nat.leb_le. rewrite length_map. apply firstn_le_length.
      * apply forallb_forall. intros x Hx.
        apply in_map_iff in Hx as (y & <- & _). apply IH.
    + apply andb_true_iff. split.
      * apply Nat.leb_le. rewrite length_map. apply firstn_le_length.
      * apply forallb_forall. intros x Hx.
        apply in_map_iff in Hx as (y & <- & _). apply IH.
Qed.

(** X1: whatever the value, [truncate_dict] leaves at most [depth] levels
    of nested lists and dicts, and at most three entries in each. *)
Theorem truncate_dict_bounded (obj : PyVal) (depth : Z) :
  (height (truncate_dict obj depth) <= Z.to_nat depth)%nat
  /\ width_le 3 (truncate_dict obj depth) = true.
Proof.
  split; [apply truncate_levels_height | apply truncate_levels_width].
Qed.

Lemma truncate_levels_min (a : nat) : forall b obj,
  truncate_levels a (truncate_levels b obj) = truncate_levels (Nat.min a b) obj.
Proof.
  induction a as [|a IH]; intros b obj.
  - reflexivity.
  - destruct b as [|b]; [reflexivity|].
    cbn [Nat.min truncate_levels].
    destruct obj; try reflexivity.
    + f_equal. rewrite firstn_map, firstn_firstn, map_map. cbn [Nat.min].
      apply map_ext. intros x. apply IH.
    + f_equal. rewrite firstn_map, firstn_firstn, map_map. cbn [Nat.min].
      apply map_ext. intros [k v]. cbn. now rewrite IH.
Qed.

(** X2: truncating twice is truncating once at the smaller depth; in
    particular truncation is idempotent. *)
Theorem truncate_dict_twice (obj : PyVal) (a b : Z) :
  truncate_dict (truncate_dict obj b) a = truncate_dict obj (Z.min a b)
  /\ truncate_dict (truncate_dict obj a) a = truncate_dict obj a.
Proof.
  unfold truncate_dict. rewrite !truncate_levels_min, Z2Nat.inj_min.
  now rewrite Nat.min_id.
Qed.

Lemma map_fixed {A} (f : A -> A) (xs : list A) :
  (forall x, In x xs -> f x = x) -> map f xs = xs.
Proof.
  induction xs as [|x xs IH]; intros H; cbn; [reflexivity|].
  rewrite (H x (or_introl eq_refl)), IH; [reflexivity|].
  intros y Hy. apply H. now right.
Qed.

Lemma truncate_levels_fixed (n : nat) : forall obj,
  (height obj < n)%nat -> width_le 3 obj = true ->
  truncate_levels n obj = obj.
Proof.
  induction n as [|n IH]; intros obj Hh Hw; [lia|].
  destruct obj as [| | | | |items|items]; try reflexivity;
    cbn in Hh, Hw; apply andb_true_iff in Hw as [Hlen Hall];
    apply Nat.leb_le in Hlen; rewrite forallb_forall in Hall;
    cbn [truncate_levels]; rewrite firstn_all2 by assumption; f_equal;
    apply map_fixed.
  - intros x Hx. apply IH; [|now apply Hall].
    pose proof (fold_max_ge height items x Hx). lia.
  - intros [k v] Hx. cbn. f_equal. apply IH; [|now apply (Hall (k, v))].
    pose proof (fold_max_ge (fun kv => height (snd kv)) items (k, v) Hx).
    cbn in *. lia.
Qed.

(** X3: a value nested less deep than [max_depth], with at most three
    entries in each list and dict, is displayed whole. *)
Theorem format_json_response_whole (py_str json_dumps : PyVal -> string)
    (data : PyVal) (max_depth : Z) :
  (Z.of_nat (height data) < max_depth) -> width_le 3 data = true ->
  truncate_dict data max_depth = data
  /\ format_json_response py_str json_dumps data max_depth = json_dumps data.
Proof.
  intros Hh Hw.
  assert (E : truncate_dict data max_depth = data)
    by (apply truncate_levels_fixed; [lia | assumption]).
  split; [exact E|]. unfold format_json_response.
  destruct (Z.leb_spec max_depth 0); [lia|]. now rewrite E.
Qed.

Lemma NoDup_firstn {A} (n : nat) (xs : list A) : NoDup xs -> NoDup (firstn n xs).
Proof.
  intros H. rewrite <- (firstn_skipn n xs) in H.
  exact (NoDup_app_remove_r _ _ H).
Qed.

Lemma in_firstn {A} (n : nat) (xs : list A) (x : A) :
  In x (firstn n xs) -> In x xs.
Proof.
  intros H. rewrite <- (firstn_skipn n xs). apply in_or_app. now left.
Qed.

Lemma fold_and_iff {A} (P : A -> Prop) (xs : list A) :
  fold_right (fun x acc => P x /\ acc) True xs <-> forall x, In x xs -> P x.
Proof.
  induction xs as [|x xs IH]; cbn.
  - tauto.
  - rewrite IH. split.
    + intros [Hx H] y [<-|Hy]; auto.
    + intros H. split; [apply H; now left | intros y Hy; apply H; now right].
Qed.

Lemma truncate_levels_keys_distinct (n : nat) : forall obj,
  keys_distinct obj -> keys_distinct (truncate_levels n obj).
Proof.
  induction n as [|n IH]; intros obj H; [exact I|].
  destruct obj as [| | | | |items|items]; cbn [truncate_levels keys_distinct];
    try exact I.
  - cbn [keys_distinct] in H. rewrite fold_and_iff in *.
    intros x Hx. apply in_map_iff in Hx as (y & <- & Hy).
    apply IH, H. eapply in_firstn; eassumption.
  - cbn [keys_distinct] in H. destruct H as [Hnd H]. split.
    + rewrite map_map. cbn [fst]. rewrite <- firstn_map.
      now apply NoDup_firstn.
    + rewrite fold_and_iff in *.
      intros x Hx. apply in_map_iff in Hx as (y & <- & Hy). cbn [snd].
      apply IH, (H y). eapply in_firstn; eassumption.
Qed.

(** X4: a truncated dict keeps the first three keys of the original, in
    order, and truncation keeps the keys of every dict distinct. *)
Theorem truncate_dict_keys (items : list (string * PyVal)) (depth : Z) :
  0 < depth ->
  (exists items',
      truncate_dict (VDict items) depth = VDict items'
      /\ dict_keys items' = firstn 3 (dict_keys items))
  /\ (keys_distinct (VDict items) ->
      keys_distinct (truncate_dict (VDict items) depth)).
Proof.
  intros Hd. split.
  - rewrite truncate_dict_eq. destruct (Z.leb_spec depth 0); [lia|].
    eexists. split; [reflexivity|].
    unfold dict_keys. rewrite map_map. cbn [fst]. now rewrite firstn_map.
  - apply truncate_levels_keys_distinct.
Qed.

(** ** Equations of the effects *)

Section RunAlgebra.

Context {U : Type}.

Lemma after_mkRun {A} (evs evs' : list Event) (o : Outcome A) (env : Env U) :
  after evs (mkRun o env evs') = mkRun o env (evs ++ evs').
Proof. reflexivity. Qed.

Lemma ret_run {A} (a : A) (env : Env U) : ret a env = mkRun (Ret a) env [].
Proof. reflexivity. Qed.

Lemma bind_ret {A B} (a : A) (f : A -> Eff U B) (env : Env U) :
  bind (ret a) f env = f a env.
Proof. unfold bind, ret. cbn. now destruct (f a env). Qed.

Lemma bind_lift_ret {A B} (a : A) (f : A -> Eff U B) (env : Env U) :
  bind (lift (Ret a)) f env = f a env.
Proof. unfold bind, lift. cbn. now destruct (f a env). Qed.

Lemma bind_lift_raise {A B} (e : PyExn) (f : A -> Eff U B) (env : Env U) :
  bind (lift (Raise e)) f env = mkRun (Raise e) env [].
Proof. reflexivity. Qed.

Lemma bind_print {B} (line : string) (f : unit -> Eff U B) (env : Env U) :
  bind (print line) f env = after [EvPrint line] (f tt env).
Proof. reflexivity. Qed.

Lemma print_status_run (message status : string) (env : Env U) :
  print_status message status None env =
    mkRun (Ret tt) env [EvPrint (status ++ " " ++ message)].
Proof. reflexivity. Qed.

Lemma print_status_error_run (message status : string) (e : PyExn)
    (env : Env U) :
  print_status message status (Some (exn_str e)) env =
    mkRun (Ret tt) env (EvPrint (status ++ " " ++ message) :: error_details e).
Proof.
  unfold print_status, error_details. rewrite bind_print.
  destruct (exn_str e); reflexivity.
Qed.

Lemma bind_print_status {B} (message status : string) (f : unit -> Eff U B)
    (env : Env U) :
  bind (print_status message status None) f env =
    after [EvPrint (status ++ " " ++ message)] (f tt env).
Proof. reflexivity. Qed.

Lemma bind_print_status_error {B} (message status : string) (e : PyExn)
    (f : unit -> Eff U B) (env : Env U) :
  bind (print_status message status (Some (exn_str e))) f env =
    after (EvPrint (status ++ " " ++ message) :: error_details e) (f tt env).
Proof.
  unfold bind at 1. now rewrite print_status_error_run.
Qed.

Lemma bind_call {A B} (g : Callable U A) (f : A -> Eff U B) (env : Env U) :
  bind (call g) f env =
    match fst (g env) with
    | Ret a => f a (snd (g env))
    | Raise e => mkRun (Raise e) (snd (g env)) []
    end.
Proof.
  unfold bind, call. destruct (g env) as [[a|e] env']; cbn; [|reflexivity].
  now destruct (f a env').
Qed.

Lemma bind_invoke {A B} (c : Callee) (g : Callable U A) (f : A -> Eff U B)
    (env : Env U) :
  bind (invoke c g) f env =
    match fst (g env) with
    | Ret a => after [EvCall c] (f a (snd (g env)))
    | Raise e => mkRun (Raise e) (snd (g env)) [EvCall c]
    end.
Proof.
  unfold bind, invoke. now destruct (g env) as [[a|e] env'].
Qed.

Lemma bind_run_ret {A B} (m : Eff U A) (f : A -> Eff U B) (env env1 : Env U)
    (a : A) (evs : list Event) :
  m env = mkRun (Ret a) env1 evs -> bind m f env = after evs (f a env1).
Proof. intros H. unfold bind. now rewrite H. Qed.

Lemma bind_run_raise {A B} (m : Eff U A) (f : A -> Eff U B) (env env1 : Env U)
    (e : PyExn) (evs : list Event) :
  m env = mkRun (Raise e) env1 evs -> bind m f env = mkRun (Raise e) env1 evs.
Proof. intros H. unfold bind. now rewrite H. Qed.

Lemma try_except_run_ret {A} (m : Eff U A) clauses (env env1 : Env U) (a : A)
    (evs : list Event) :
  m env = mkRun (Ret a) env1 evs ->
  try_except m clauses env = mkRun (Ret a) env1 evs.
Proof. intros H. unfold try_except. now rewrite H. Qed.

Lemma try_except_run_raise {A} (m : Eff U A) clauses (env env1 : Env U)
    (e : PyExn) (evs : list Event) :
  m env = mkRun (Raise e) env1 evs ->
  try_except m clauses env =
    match clauses e with
    | Some handler => after evs (handler env1)
    | None => mkRun (Raise e) env1 evs
    end.
Proof. intros H. unfold try_except. now rewrite H. Qed.

End RunAlgebra.

(** ** RESTClient *)

(** X5: [RESTClient.__init__] stores the base URL without its trailing
    slashes: what it stores does not end in a slash, differs from the
    argument by slashes only, and does not change when slashes are added to
    the argument. *)
Theorem RESTClient_init_base_url (base_url username password : string)
    (timeout : Z) :
  let self := RESTClient.init base_url username password timeout in
  (forall t, RESTClient.base_url self <> t ++ "/")
  /\ (exists k, base_url = RESTClient.base_url self
                             ++ string_of_list_ascii (repeat slash k))
  /\ RESTClient.init (base_url ++ "/") username password timeout = self
  /\ RESTClient.timeout self = timeout.
Proof.
  cbv zeta. unfold RESTClient.init. cbn [RESTClient.base_url RESTClient.timeout].
  split; [|split; [|split]].
  - apply str_rstrip_no_trailing.
  - apply str_rstrip_decompose.
  - f_equal. apply (str_rstrip_append_char slash).
  - reflexivity.
Qed.

Section RestProperties.

Context {U Response : Type}.
Variable status_code : Response -> Z.
Variable headers_str : Response -> string.
Variable response_text : Response -> string.
Variable response_json : Response -> Callable U PyVal.
Variable session_get : string -> Z -> Callable U Response.
Variable session_post : string -> PyVal -> Z -> Callable U Response.
Variable session_put : string -> PyVal -> Z -> Callable U Response.
Variable is_Timeout : PyExn -> bool.
Variable is_RequestException : PyExn -> bool.
Variable json_dumps : PyVal -> string.

Local Abbreviation raw :=
  (RESTClient.print_raw_response status_code headers_str response_text
                                 response_json json_dumps).

(** X6: [print_raw_response] never raises, whatever [response.json()]
    does, an exception that is not an error included; it prints four
    lines, the last being the formatted JSON when the body decodes, the raw
    text when it does not, and [(empty)] when there is no text. *)
Theorem print_raw_response_total (response : Response) (label : string)
    (env : Env U) :
  let r := raw response label env in
  let decoded := response_json response env in
  outcome r = Ret tt
  /\ events r =
       [EvPrint (label ++ ":");
        EvPrint ("  Status: " ++ str_int (status_code response));
        EvPrint ("  Headers: " ++ headers_str response);
        EvPrint ("  Body: " ++
                 match response_text response with
                 | EmptyString => "(empty)"
                 | text => match fst decoded with
                           | Ret data => json_dumps data
                           | Raise _ => text
                           end
                 end)]
  /\ final r = match response_text response with
               | EmptyString => env
               | _ => snd decoded
               end.
Proof.
  cbv zeta. unfold RESTClient.print_raw_response.
  repeat (rewrite bind_print; cbv beta).
  destruct (response_text response) as [|c text].
  - repeat split.
  - set (body := bind _ _).
    assert (Hbody : body env =
              match fst (response_json response env) with
              | Ret data =>
                  mkRun (Ret tt) (snd (response_json response env))
                        [EvPrint ("  Body: " ++ json_dumps data)]
              | Raise e => mkRun (Raise e) (snd (response_json response env)) []
              end).
    { subst body. rewrite bind_call.
      destruct (fst (response_json response env)); reflexivity. }
    destruct (fst (response_json response env)) as [data|e].
    + rewrite (try_except_run_ret _ _ _ _ _ _ Hbody). repeat split.
    + rewrite (try_except_run_raise _ _ _ _ _ _ Hbody). repeat split.
Qed.

Lemma run_eta {A} (r : Run U A) : r = mkRun (outcome r) (final r) (events r).
Proof. now destruct r. Qed.

(** The shape the three request methods share: what is printed first,
    then the [try] statement around the request [send]. *)
Lemma request_method (prefix : Eff U unit) (shown : list Event)
    (send : Callable U Response) (show_details : bool)
    (label timed_out failed : string) (env : Env U) :
  (forall env0, prefix env0 = mkRun (Ret tt) env0 shown) ->
  let r :=
    bind prefix (fun _ =>
      try_except
        (bind (call send) (fun response =>
           bind (if show_details then raw response label else ret tt)
                (fun _ => ret (Some response))))
        (RESTClient.request_clauses is_Timeout is_RequestException
           (bind (print_status timed_out StatusIndicators.ERROR None)
                 (fun _ => ret None))
           (fun e =>
              bind (print_status failed StatusIndicators.ERROR
                                 (Some (exn_str e)))
                   (fun _ => ret None)))) env in
  match fst (send env) with
  | Ret response =>
      outcome r = Ret (Some response)
      /\ events r = (shown ++ if show_details
                              then events (raw response label (snd (send env)))
                              else [])%list
      /\ final r = (if show_details
                    then final (raw response label (snd (send env)))
                    else snd (send env))
  | Raise e =>
      final r = snd (send env)
      /\ if is_Timeout e || is_RequestException e then
           outcome r = Ret None
           /\ events r =
                (shown ++ if is_Timeout e
                          then [EvPrint ("[ERROR] " ++ timed_out)]
                          else EvPrint ("[ERROR] " ++ failed) :: error_details e)%list
         else outcome r = Raise e /\ events r = shown
  end.
Proof.
  intros Hprefix. cbv zeta.
  rewrite (bind_run_ret _ _ _ _ _ _ (Hprefix env)).
  set (body := bind (call send) _).
  assert (Hbody : body env =
            match fst (send env) with
            | Ret response =>
                mkRun (Ret (Some response))
                      (if show_details
                       then final (raw response label (snd (send env)))
                       else snd (send env))
                      (if show_details
                       then events (raw response label (snd (send env)))
                       else [])
            | Raise e => mkRun (Raise e) (snd (send env)) []
            end).
  { subst body. rewrite bind_call.
    destruct (fst (send env)) as [response|e]; [|reflexivity].
    destruct show_details.
    - pose proof (print_raw_response_total response label (snd (send env)))
        as (Ho & _ & _). cbv zeta in Ho.
      rewrite (bind_run_ret _ _ _ _ tt _
                 (eq_trans (run_eta _) (f_equal (fun o => mkRun o _ _) Ho))).
      rewrite ret_run, after_mkRun. now rewrite app_nil_r.
    - now rewrite bind_ret. }
  destruct (fst (send env)) as [response|e].
  - rewrite (try_except_run_ret _ _ _ _ _ _ Hbody), after_mkRun. repeat split.
  - rewrite (try_except_run_raise _ _ _ _ _ _ Hbody).
    unfold RESTClient.request_clauses.
    destruct (is_Timeout e); cbn [orb].
    + rewrite bind_print_status, ret_run, !after_mkRun. repeat split.
    + destruct (is_RequestException e).
      * rewrite bind_print_status_error, ret_run, !after_mkRun.
        rewrite app_nil_r. repeat split.
      * rewrite after_mkRun, app_nil_r. repeat split.
Qed.

(** X7: [RESTClient.get] sends one request to [base_url + endpoint].  A
    response is returned as it is; a timeout or another request exception
    gives [None] and an error line; any other exception is let through
    with nothing reported. *)
Theorem RESTClient_get_outcome (self : RESTClient.t) (endpoint : string)
    (show_details : bool) (env : Env U) :
  let sent := session_get (RESTClient.base_url self ++ endpoint)
                          (RESTClient.timeout self) env in
  let r := RESTClient.get status_code headers_str response_text response_json
                          session_get is_Timeout is_RequestException json_dumps
                          self endpoint show_details env in
  let shown := request_details show_details "GET" endpoint None in
  match fst sent with
  | Ret response =>
      outcome r = Ret (Some response)
      /\ events r = (shown ++ if show_details
                              then events (raw response "GET Response" (snd sent))
                              else [])%list
      /\ final r = (if show_details
                    then final (raw response "GET Response" (snd sent))
                    else snd sent)
  | Raise e =>
      final r = snd sent
      /\ if is_Timeout e || is_RequestException e then
           outcome r = Ret None
           /\ events r = (shown ++ request_error_lines
                                     is_Timeout "GET" (RESTClient.timeout self) e)%list
         else outcome r = Raise e /\ events r = shown
  end.
Proof.
  unfold RESTClient.get. cbv zeta.
  apply (request_method _ (request_details show_details "GET" endpoint None)).
  intros env0. destruct show_details; reflexivity.
Qed.

(** X8: [RESTClient.post] sends one request with the payload to
    [base_url + endpoint], with the same outcomes as [get]. *)
Theorem RESTClient_post_outcome (self : RESTClient.t) (endpoint : string)
    (data : PyVal) (show_details : bool) (env : Env U) :
  let sent := session_post (RESTClient.base_url self ++ endpoint) data
                           (RESTClient.timeout self) env in
  let r := RESTClient.post status_code headers_str response_text response_json
                           session_post is_Timeout is_RequestException
                           json_dumps self endpoint data show_details env in
  let shown := request_details show_details "POST" endpoint
                               (Some (json_dumps data)) in
  match fst sent with
  | Ret response =>
      outcome r = Ret (Some response)
      /\ events r = (shown ++ if show_details
                              then events (raw response "POST Response" (snd sent))
                              else [])%list
      /\ final r = (if show_details
                    then final (raw response "POST Response" (snd sent))
                    else snd sent)
  | Raise e =>
      final r = snd sent
      /\ if is_Timeout e || is_RequestException e then
           outcome r = Ret None
           /\ events r = (shown ++ request_error_lines
                                     is_Timeout "POST" (RESTClient.timeout self) e)%list
         else outcome r = Raise e /\ events r = shown
  end.
Proof.
  unfold RESTClient.post. cbv zeta.
  apply (request_method _ (request_details show_details "POST" endpoint
                                           (Some (json_dumps data)))).
  intros env0. destruct show_details; reflexivity.
Qed.

(** X9: [RESTClient.put] sends one request with the payload to
    [base_url + endpoint], with the same outcomes as [get]. *)
Theorem RESTClient_put_outcome (self : RESTClient.t) (endpoint : string)
    (data : PyVal) (show_details : bool) (env : Env U) :
  let sent := session_put (RESTClient.base_url self ++ endpoint) data
                          (RESTClient.timeout self) env in
  let r := RESTClient.put status_code headers_str response_text response_json
                          session_put is_Timeout is_RequestException
                          json_dumps self endpoint data show_details env in
  let shown := request_details show_details "PUT" endpoint
                               (Some (json_dumps data)) in
  match fst sent with
  | Ret response =>
      outcome r = Ret (Some response)
      /\ events r = (shown ++ if show_details
                              then events (raw response "PUT Response" (snd sent))
                              else [])%list
      /\ final r = (if show_details
                    then final (raw response "PUT Response" (snd sent))
                    else snd sent)
  | Raise e =>
      final r = snd sent
      /\ if is_Timeout e || is_RequestException e then
           outcome r = Ret None
           /\ events r = (shown ++ request_error_lines
                                     is_Timeout "PUT" (RESTClient.timeout self) e)%list
         else outcome r = Raise e /\ events r = shown
  end.
Proof.
  unfold RESTClient.put. cbv zeta.
  apply (request_method _ (request_details show_details "PUT" endpoint
                                           (Some (json_dumps data)))).
  intros env0. destruct show_details; reflexivity.
Qed.

End RestProperties.

(** ** Operations on Python values *)

Section PyOpsProperties.

Variable error_text : string -> PyVal -> string -> string.

Lemma dict_lookup_key_in (key : string) (items : list (string * PyVal)) :
  existsb (String.eqb key) (dict_keys items) = true
  <-> exists v, dict_lookup key items = Some v.
Proof.
  induction items as [|[k v] items IH]; cbn.
  - split; [discriminate | intros [v H]; discriminate].
  - rewrite (String.eqb_sym key k). destruct (String.eqb k key); cbn.
    + split; eauto.
    + exact IH.
Qed.

Lemma py_getitem_ret (v : PyVal) (key : string) (x : PyVal) :
  py_getitem error_text v key = Ret x <->
  exists items, v = VDict items /\ dict_lookup key items = Some x.
Proof.
  split.
  - destruct v; cbn; try discriminate.
    destruct (dict_lookup key items) eqn:E; [|discriminate].
    intros H. injection H as <-. eauto.
  - intros (items & -> & H). cbn. now rewrite H.
Qed.

Lemma py_getitem_raises (v : PyVal) (key : string) (e : PyExn) :
  py_getitem error_text v key = Raise e ->
  is_NotFound e = false /\ is_Exception e = true.
Proof.
  destruct v; cbn; try (intros H; injection H as <-; split; reflexivity).
  destruct (dict_lookup key items); [discriminate|].
  intros H; injection H as <-; split; reflexivity.
Qed.

Lemma py_contains_raises (v : PyVal) (key : string) (e : PyExn) :
  py_contains error_text key v = Raise e ->
  is_NotFound e = false /\ is_Exception e = true.
Proof.
  destruct v; cbn; try discriminate;
    intros H; injection H as <-; split; reflexivity.
Qed.

Lemma py_get_raises (v : PyVal) (key : string) (d : PyVal) (e : PyExn) :
  py_get error_text v key d = Raise e ->
  is_NotFound e = false /\ is_Exception e = true.
Proof.
  destruct v; cbn; try discriminate;
    intros H; injection H as <-; split; reflexivity.
Qed.

Lemma py_items_raises (v : PyVal) (e : PyExn) :
  py_items error_text v = Raise e ->
  is_NotFound e = false /\ is_Exception e = true.
Proof.
  destruct v; cbn; try discriminate;
    intros H; injection H as <-; split; reflexivity.
Qed.

Lemma py_split_head_raises (v : PyVal) (e : PyExn) :
  py_split_head error_text v = Raise e ->
  is_NotFound e = false /\ is_Exception e = true.
Proof.
  destruct v; cbn; try discriminate;
    intros H; injection H as <-; split; reflexivity.
Qed.

Lemma collect_containers_raises items : forall result e,
  collect_containers error_text items result = Raise e ->
  is_NotFound e = false /\ is_Exception e = true.
Proof.
  induction items as [|[id info] items IH]; intros result e; cbn.
  - discriminate.
  - destruct (py_get error_text info "Name" _) as [name|e1] eqn:E1.
    2:{ intros H; injection H as <-. eapply py_get_raises; eassumption. }
    destruct (py_get error_text info "IPv4Address" _) as [addr|e2] eqn:E2.
    2:{ intros H; injection H as <-. eapply py_get_raises; eassumption. }
    destruct (py_split_head error_text addr) as [ip|e3] eqn:E3.
    2:{ intros H; injection H as <-. eapply py_split_head_raises; eassumption. }
    apply IH.
Qed.

End PyOpsProperties.

(** ** DockerHelper.get_container_ip *)

Section DockerHelperProperties.

Context {U Container Network : Type}.
Variable containers_get : string -> Callable U Container.
Variable networks_get : string -> Callable U Network.
Variable inspect_network : string -> Callable U PyVal.
Variable attrs : Container -> PyVal.
Variable container_status : Container -> string.
Variable network_id : Network -> string.
Variable error_text : string -> PyVal -> string -> string.
Variable py_str : PyVal -> string.

Local Abbreviation get_ip :=
  (get_container_ip containers_get attrs error_text py_str).

Lemma address_in_raises (v : PyVal) (network_name : string) (e : PyExn) :
  address_in error_text v network_name = Raise e ->
  is_NotFound e = false /\ is_Exception e = true.
Proof.
  unfold address_in.
  destruct (py_getitem error_text v "NetworkSettings") as [s|e1] eqn:E1.
  2:{ intros H; injection H as <-. eapply py_getitem_raises; eassumption. }
  destruct (py_getitem error_text s "Networks") as [ni|e2] eqn:E2.
  2:{ intros H; injection H as <-. eapply py_getitem_raises; eassumption. }
  destruct (py_contains error_text network_name ni) as [[|]|e3] eqn:E3.
  3:{ intros H; injection H as <-. eapply py_contains_raises; eassumption. }
  2:{ discriminate. }
  destruct (py_getitem error_text ni network_name) as [entry|e4] eqn:E4.
  2:{ intros H; injection H as <-. eapply py_getitem_raises; eassumption. }
  destruct (py_getitem error_text entry "IPAddress") as [ip|e5] eqn:E5.
  2:{ intros H; injection H as <-. eapply py_getitem_raises; eassumption. }
  discriminate.
Qed.

Lemma address_in_some (v : PyVal) (network_name : string) (ip : PyVal) :
  address_in error_text v network_name = Ret (Some ip) <->
  exists settings networks entry,
    py_getitem error_text v "NetworkSettings" = Ret settings
    /\ py_getitem error_text settings "Networks" = Ret (VDict networks)
    /\ dict_lookup network_name networks = Some entry
    /\ py_getitem error_text entry "IPAddress" = Ret ip.
Proof.
  unfold address_in. split.
  - destruct (py_getitem error_text v "NetworkSettings") as [s|e1] eqn:E1;
      [|discriminate].
    destruct (py_getitem error_text s "Networks") as [ni|e2] eqn:E2;
      [|discriminate].
    destruct (py_contains error_text network_name ni) as [[|]|e3] eqn:E3;
      try discriminate.
    destruct (py_getitem error_text ni network_name) as [entry|e4] eqn:E4;
      [|discriminate].
    apply py_getitem_ret in E4 as (networks & -> & Hlook).
    destruct (py_getitem error_text entry "IPAddress") as [ip'|e5] eqn:E5;
      [|discriminate].
    intros H. injection H as <-. eauto 8.
  - intros (settings & networks & entry & -> & -> & Hlook & Hip).
    cbn [py_contains py_getitem].
    replace (existsb (String.eqb network_name) (dict_keys networks)) with true
      by (symmetry; apply dict_lookup_key_in; eauto).
    now rewrite Hlook, Hip.
Qed.

Lemma address_in_none (settings : PyVal) (networks : list (string * PyVal))
    (v : PyVal) (network_name : string) :
  py_getitem error_text v "NetworkSettings" = Ret settings ->
  py_getitem error_text settings "Networks" = Ret (VDict networks) ->
  dict_lookup network_name networks = None ->
  address_in error_text v network_name = Ret None.
Proof.
  unfold address_in. intros -> -> Hnone. cbn [py_contains].
  destruct (existsb _ _) eqn:Hex; [|reflexivity].
  apply dict_lookup_key_in in Hex as [x Hx]. congruence.
Qed.

(** The run of [get_container_ip], by what the lookup and the attributes
    give. *)
Lemma get_container_ip_run (container_name network_name : string)
    (env : Env U) :
  let looked := containers_get container_name env in
  get_ip container_name network_name env =
    match fst looked with
    | Raise e =>
        if is_NotFound e then
          mkRun (Ret VNone) (snd looked)
                [EvCall CContainersGet;
                 EvPrint ("[ERROR] Container " ++ container_name ++ " not found")]
        else if is_Exception e then
          mkRun (Ret VNone) (snd looked)
                (EvCall CContainersGet ::
                 EvPrint ("[ERROR] Error getting IP for " ++ container_name)
                 :: error_details e)
        else mkRun (Raise e) (snd looked) [EvCall CContainersGet]
    | Ret c =>
        match address_in error_text (attrs c) network_name with
        | Ret (Some ip) =>
            mkRun (Ret ip) (snd looked)
                  [EvCall CContainersGet;
                   EvPrint ("[SUCCESS] Container " ++ container_name ++ " IP: "
                              ++ format_value py_str ip)]
        | Ret None =>
            mkRun (Ret VNone) (snd looked)
                  [EvCall CContainersGet;
                   EvPrint ("[WARNING] Container " ++ container_name
                              ++ " not in network " ++ network_name)]
        | Raise e =>
            mkRun (Ret VNone) (snd looked)
                  (EvCall CContainersGet ::
                   EvPrint ("[ERROR] Error getting IP for " ++ container_name)
                   :: error_details e)
        end
    end.
Proof.
  cbv zeta. unfold get_container_ip.
  set (body := bind (invoke CContainersGet _) _).
  set (looked := containers_get container_name env).
  assert (Hbody : body env =
            match fst looked with
            | Raise e => mkRun (Raise e) (snd looked) [EvCall CContainersGet]
            | Ret c =>
                match address_in error_text (attrs c) network_name with
                | Ret (Some ip) =>
                    mkRun (Ret ip) (snd looked)
                          [EvCall CContainersGet;
                           EvPrint ("[SUCCESS] Container " ++ container_name
                                      ++ " IP: " ++ format_value py_str ip)]
                | Ret None =>
                    mkRun (Ret VNone) (snd looked)
                          [EvCall CContainersGet;
                           EvPrint ("[WARNING] Container " ++ container_name
                                      ++ " not in network " ++ network_name)]
                | Raise e => mkRun (Raise e) (snd looked) [EvCall CContainersGet]
                end
            end).
  { subst body. rewrite bind_invoke. fold looked.
    destruct (fst looked) as [c|e]; [|reflexivity].
    unfold address_in.
    destruct (py_getitem error_text (attrs c) "NetworkSettings") as [s|e1];
      [rewrite bind_lift_ret | now rewrite bind_lift_raise].
    destruct (py_getitem error_text s "Networks") as [ni|e2];
      [rewrite bind_lift_ret | now rewrite bind_lift_raise].
    destruct (py_contains error_text network_name ni) as [[|]|e3];
      [rewrite bind_lift_ret | rewrite bind_lift_ret | now rewrite bind_lift_raise].
    - destruct (py_getitem error_text ni network_name) as [entry|e4];
        [rewrite bind_lift_ret | now rewrite bind_lift_raise].
      destruct (py_getitem error_text entry "IPAddress") as [ip|e5];
        [rewrite bind_lift_ret | now rewrite bind_lift_raise].
      now rewrite bind_print_status, ret_run, !after_mkRun.
    - now rewrite bind_print_status, ret_run, !after_mkRun. }
  assert (Hhandled : forall e env1 evs,
            body env = mkRun (Raise e) env1 evs ->
            is_NotFound e = false -> is_Exception e = true ->
            try_except body
              (docker_clauses
                 (bind (print_status ("Container " ++ container_name ++ " not found")
                                     StatusIndicators.ERROR None)
                       (fun _ => ret VNone))
                 (fun e =>
                    bind (print_status ("Error getting IP for " ++ container_name)
                                       StatusIndicators.ERROR (Some (exn_str e)))
                         (fun _ => ret VNone))) env
            = mkRun (Ret VNone) env1
                    (evs ++ EvPrint ("[ERROR] Error getting IP for " ++ container_name)
                         :: error_details e)).
  { intros e env1 evs Hb Hnf Hexc.
    rewrite (try_except_run_raise _ _ _ _ _ _ Hb).
    unfold docker_clauses. rewrite Hnf, Hexc.
    rewrite bind_print_status_error, ret_run, !after_mkRun.
    now rewrite app_nil_r. }
  destruct (fst looked) as [c|e].
  - destruct (address_in error_text (attrs c) network_name) as [[ip|]|e] eqn:Ea.
    + now rewrite (try_except_run_ret _ _ _ _ _ _ Hbody).
    + now rewrite (try_except_run_ret _ _ _ _ _ _ Hbody).
    + destruct (address_in_raises _ _ _ Ea) as [Hnf Hexc].
      now rewrite (Hhandled _ _ _ Hbody Hnf Hexc).
  - rewrite (try_except_run_raise _ _ _ _ _ _ Hbody). unfold docker_clauses.
    destruct (is_NotFound e).
    + now rewrite bind_print_status, ret_run, !after_mkRun.
    + destruct (is_Exception e); [|reflexivity].
      rewrite bind_print_status_error, ret_run, !after_mkRun.
      now rewrite app_nil_r.
Qed.

Lemma calls_cons_call c evs : calls (EvCall c :: evs) = S (calls evs).
Proof. reflexivity. Qed.

Lemma calls_cons_print l evs : calls (EvPrint l :: evs) = calls evs.
Proof. reflexivity. Qed.

Lemma calls_error_details e : calls (error_details e) = 0%nat.
Proof. unfold error_details. now destruct (exn_str e). Qed.

Lemma sleeps_error_details e : sleeps (error_details e) = [].
Proof. unfold error_details. now destruct (exn_str e). Qed.

(** X10: [get_container_ip] looks the container up once and does nothing
    else to the world; the only exceptions it lets out are those of the
    lookup that are not errors. *)
Theorem get_container_ip_contained (container_name network_name : string)
    (env : Env U) :
  let looked := containers_get container_name env in
  let r := get_ip container_name network_name env in
  final r = snd looked
  /\ calls (events r) = 1%nat
  /\ sleeps (events r) = []
  /\ (forall e, outcome r = Raise e ->
                fst looked = Raise e /\ is_Exception e = false).
Proof.
  cbv zeta. rewrite get_container_ip_run. cbv zeta.
  destruct (fst (containers_get container_name env)) as [c|e].
  - destruct (address_in error_text (attrs c) network_name) as [[ip|]|e];
      cbn [outcome final events sleeps];
      rewrite ?calls_cons_call, ?calls_cons_print, ?calls_error_details,
        ?sleeps_error_details;
      (split; [reflexivity|split; [reflexivity|split; [reflexivity|]]]);
      intros e0 H; discriminate H.
  - destruct (is_NotFound e); [|destruct (is_Exception e) eqn:Hexc];
      cbn [outcome final events sleeps];
      rewrite ?calls_cons_call, ?calls_cons_print, ?calls_error_details,
        ?sleeps_error_details;
      (split; [reflexivity|split; [reflexivity|split; [reflexivity|]]]);
      intros e0 H; try discriminate H.
    injection H as <-. split; [reflexivity | exact Hexc].
Qed.

(** X11: [get_container_ip] returns the [IPAddress] recorded for the
    network under [NetworkSettings.Networks] of the container's attributes
    when the whole path exists, with a success line and nothing else; it
    returns a value other than [None] in no other case; and a container
    that is not in the network gives [None] with a warning. *)
Theorem get_container_ip_address (container_name network_name : string)
    (env : Env U) :
  let looked := containers_get container_name env in
  let r := get_ip container_name network_name env in
  (forall c settings networks entry ip,
     fst looked = Ret c ->
     py_getitem error_text (attrs c) "NetworkSettings" = Ret settings ->
     py_getitem error_text settings "Networks" = Ret (VDict networks) ->
     dict_lookup network_name networks = Some entry ->
     py_getitem error_text entry "IPAddress" = Ret ip ->
     r = mkRun (Ret ip) (snd looked)
               [EvCall CContainersGet;
                EvPrint ("[SUCCESS] Container " ++ container_name ++ " IP: "
                           ++ format_value py_str ip)])
  /\ (forall v,
        outcome r = Ret v -> v <> VNone ->
        exists c settings networks entry,
          fst looked = Ret c
          /\ py_getitem error_text (attrs c) "NetworkSettings" = Ret settings
          /\ py_getitem error_text settings "Networks" = Ret (VDict networks)
          /\ dict_lookup network_name networks = Some entry
          /\ py_getitem error_text entry "IPAddress" = Ret v)
  /\ (forall c settings networks,
        fst looked = Ret c ->
        py_getitem error_text (attrs c) "NetworkSettings" = Ret settings ->
        py_getitem error_text settings "Networks" = Ret (VDict networks) ->
        dict_lookup network_name networks = None ->
        r = mkRun (Ret VNone) (snd looked)
                  [EvCall CContainersGet;
                   EvPrint ("[WARNING] Container " ++ container_name
                              ++ " not in network " ++ network_name)]).
Proof.
  cbv zeta. rewrite get_container_ip_run. cbv zeta. split; [|split].
  - intros c settings networks entry ip Hc Hs Hn He Hip. rewrite Hc.
    replace (address_in error_text (attrs c) network_name) with (Ret (Some ip))
      by (symmetry; apply address_in_some; eauto 8).
    reflexivity.
  - intros v. destruct (fst (containers_get container_name env)) as [c|e].
    + destruct (address_in error_text (attrs c) network_name) as [[ip|]|e] eqn:Ea;
        cbn [outcome]; intros H Hv; injection H as <-; try contradiction.
      apply address_in_some in Ea as (settings & networks & entry & Hpath).
      exists c, settings, networks, entry. split; [reflexivity | exact Hpath].
    + destruct (is_NotFound e); [|destruct (is_Exception e)]; cbn [outcome];
        intros H Hv; try discriminate; injection H as <-; contradiction.
  - intros c settings networks Hc Hs Hn Hnone. rewrite Hc.
    now rewrite (address_in_none settings networks).
Qed.

(** ** DockerHelper.get_network_containers *)

Lemma collect_containers_entries items : forall acc result,
  collect_containers error_text items acc = Ret result ->
  exists entries, result = (acc ++ entries)%list /\ Forall2 entry_of items entries.
Proof.
  induction items as [|[id info] items IH]; intros acc result; cbn.
  - intros H. injection H as <-. exists []. now rewrite app_nil_r.
  - destruct info as [| | | | | |fields]; cbn; try discriminate.
    fold (field_or_unknown "Name" fields).
    fold (field_or_unknown "IPv4Address" fields).
    destruct (field_or_unknown "IPv4Address" fields) as [| | | |address| |] eqn:Ha;
      cbn; try discriminate.
    intros H. apply IH in H as (entries & -> & Hall).
    eexists (_ :: entries). rewrite <- app_assoc. split; [reflexivity|].
    constructor; [|exact Hall].
    exists fields, address. repeat split. exact Ha.
Qed.

Lemma Forall2_in_right {A B} (R : A -> B -> Prop) xs ys y :
  Forall2 R xs ys -> In y ys -> exists x, In x xs /\ R x y.
Proof.
  induction 1 as [|x y' xs ys Hxy Hall IH]; cbn; [tauto|].
  intros [<-|Hin].
  - exists x. auto.
  - destruct (IH Hin) as (x' & Hx' & HR). exists x'. auto.
Qed.

Lemma entries_in_raises (info : PyVal) (e : PyExn) :
  entries_in error_text info = Raise e ->
  is_NotFound e = false /\ is_Exception e = true.
Proof.
  unfold entries_in.
  destruct (py_get error_text info "Containers" _) as [c|e1] eqn:E1.
  2:{ intros H; injection H as <-. eapply py_get_raises; eassumption. }
  destruct (py_items error_text c) as [items|e2] eqn:E2.
  2:{ intros H; injection H as <-. eapply py_items_raises; eassumption. }
  apply collect_containers_raises.
Qed.

Lemma entries_in_ret (info : PyVal) (result : list PyVal) :
  entries_in error_text info = Ret result ->
  exists items,
    py_get error_text info "Containers" (VDict []) = Ret (VDict items)
    /\ Forall2 entry_of items result.
Proof.
  unfold entries_in.
  destruct (py_get error_text info "Containers" _) as [c|e1]; [|discriminate].
  destruct c; cbn [py_items]; try discriminate.
  intros H. apply collect_containers_entries in H as (entries & -> & Hall).
  eauto.
Qed.

Local Abbreviation get_containers :=
  (get_network_containers networks_get inspect_network network_id error_text).

(** What the handlers of [get_network_containers] make of an exception. *)
Local Abbreviation network_failure :=
  (fun (network_name : string) (e : PyExn) (env1 : Env U) =>
     if is_NotFound e then
       mkRun (Ret ([] : list PyVal)) env1
             [EvPrint ("[ERROR] Network " ++ network_name ++ " not found")]
     else if is_Exception e then
       mkRun (Ret []) env1
             (EvPrint "[ERROR] Error getting network containers"
              :: error_details e)
     else mkRun (Raise e) env1 []).

Lemma get_network_containers_run (network_name : string) (env : Env U) :
  let found := networks_get network_name env in
  get_containers network_name env =
    match fst found with
    | Raise e => network_failure network_name e (snd found)
    | Ret network =>
        let inspected := inspect_network (network_id network) (snd found) in
        match fst inspected with
        | Raise e => network_failure network_name e (snd inspected)
        | Ret info =>
            match entries_in error_text info with
            | Ret result =>
                mkRun (Ret result) (snd inspected)
                      [EvPrint ("[SUCCESS] Found "
                                  ++ str_int (Z.of_nat (List.length result))
                                  ++ " containers in " ++ network_name)]
            | Raise e =>
                mkRun (Ret []) (snd inspected)
                      (EvPrint "[ERROR] Error getting network containers"
                       :: error_details e)
            end
        end
    end.
Proof.
  cbv zeta. unfold get_network_containers.
  set (body := bind (call (networks_get network_name)) _).
  set (found := networks_get network_name env).
  assert (Hbody : body env =
            match fst found with
            | Raise e => mkRun (Raise e) (snd found) []
            | Ret network =>
                let inspected := inspect_network (network_id network) (snd found) in
                match fst inspected with
                | Raise e => mkRun (Raise e) (snd inspected) []
                | Ret info =>
                    match entries_in error_text info with
                    | Ret result =>
                        mkRun (Ret result) (snd inspected)
                              [EvPrint ("[SUCCESS] Found "
                                          ++ str_int (Z.of_nat (List.length result))
                                          ++ " containers in " ++ network_name)]
                    | Raise e => mkRun (Raise e) (snd inspected) []
                    end
                end
            end).
  { subst body. rewrite bind_call. fold found.
    destruct (fst found) as [network|e]; [|reflexivity].
    rewrite bind_call. cbv zeta.
    destruct (fst (inspect_network (network_id network) (snd found)))
      as [info|e]; [|reflexivity].
    unfold entries_in.
    destruct (py_get error_text info "Containers" (VDict [])) as [c|e1];
      [rewrite bind_lift_ret | now rewrite bind_lift_raise].
    destruct (py_items error_text c) as [items|e2];
      [rewrite bind_lift_ret | now rewrite bind_lift_raise].
    destruct (collect_containers error_text items []) as [result|e3];
      [rewrite bind_lift_ret | now rewrite bind_lift_raise].
    now rewrite bind_print_status, ret_run, !after_mkRun. }
  assert (Hhandled : forall e env1,
            body env = mkRun (Raise e) env1 [] ->
            try_except body
              (docker_clauses
                 (bind (print_status ("Network " ++ network_name ++ " not found")
                                     StatusIndicators.ERROR None)
                       (fun _ => ret []))
                 (fun e =>
                    bind (print_status "Error getting network containers"
                                       StatusIndicators.ERROR (Some (exn_str e)))
                         (fun _ => ret []))) env
            = network_failure network_name e env1).
  { intros e env1 Hb. rewrite (try_except_run_raise _ _ _ _ _ _ Hb).
    unfold docker_clauses. destruct (is_NotFound e).
    - now rewrite bind_print_status, ret_run, !after_mkRun.
    - destruct (is_Exception e); [|reflexivity].
      rewrite bind_print_status_error, ret_run, !after_mkRun.
      now rewrite app_nil_r. }
  destruct (fst found) as [network|e]; [|now apply Hhandled].
  cbv zeta in Hbody |- *.
  destruct (fst (inspect_network (network_id network) (snd found)))
    as [info|e]; [|now apply Hhandled].
  destruct (entries_in error_text info) as [result|e] eqn:Ee.
  - now rewrite (try_except_run_ret _ _ _ _ _ _ Hbody).
  - rewrite (Hhandled _ _ Hbody).
    destruct (entries_in_raises _ _ Ee) as [-> ->]. reflexivity.
Qed.

(** X12: a non-empty result of [get_network_containers] has one entry for
    each item of [Containers], in order, built from a well-formed item: no
    partial list is ever returned.  Each entry's [ip] is free of slashes,
    and the run prints the count. *)
Theorem get_network_containers_entries (network_name : string) (env : Env U)
    (result : list PyVal) :
  let r := get_containers network_name env in
  outcome r = Ret result -> result <> [] ->
  exists network info items,
    fst (networks_get network_name env) = Ret network
    /\ fst (inspect_network (network_id network)
                            (snd (networks_get network_name env))) = Ret info
    /\ py_get error_text info "Containers" (VDict []) = Ret (VDict items)
    /\ Forall2 entry_of items result
    /\ (forall entry, In entry result ->
          exists name ip id,
            entry = container_entry name ip id
            /\ ~ In slash (list_ascii_of_string ip))
    /\ events r =
         [EvPrint ("[SUCCESS] Found " ++ str_int (Z.of_nat (List.length items))
                     ++ " containers in " ++ network_name)].
Proof.
  cbv zeta. rewrite get_network_containers_run. cbv zeta.
  assert (Hfail : forall e env1,
            outcome (network_failure network_name e env1) = Ret result ->
            result = []).
  { intros e env1. destruct (is_NotFound e); [|destruct (is_Exception e)];
      cbn [outcome]; intros H; try discriminate; now injection H as <-. }
  destruct (fst (networks_get network_name env)) as [network|e].
  2:{ intros H Hne. elim Hne. eapply Hfail, H. }
  destruct (fst (inspect_network (network_id network) _)) as [info|e] eqn:Ei.
  2:{ intros H Hne. elim Hne. eapply Hfail, H. }
  destruct (entries_in error_text info) as [result'|e] eqn:Ee; cbn [outcome events].
  2:{ intros H Hne. injection H as <-. contradiction. }
  intros H Hne. injection H as <-.
  apply entries_in_ret in Ee as (items & Hget & Hall).
  exists network, info, items. split; [reflexivity|]. split; [exact Ei|].
  split; [exact Hget|]. split; [exact Hall|]. split.
  - intros entry Hin.
    destruct (Forall2_in_right _ _ _ _ Hall Hin) as (item & _ & Hitem).
    destruct Hitem as (fields & address & _ & _ & ->).
    do 3 eexists. split; [reflexivity|]. apply str_split_head_clean.
  - now rewrite (Forall2_length Hall).
Qed.

(** X13: [get_network_containers] lets out only exceptions of its two
    Docker calls that are not errors, looks up no container and never
    sleeps; an inspection without a [Containers] key gives the empty list
    with a success line. *)
Theorem get_network_containers_contained (network_name : string) (env : Env U) :
  let r := get_containers network_name env in
  let found := networks_get network_name env in
  (forall e, outcome r = Raise e ->
     is_Exception e = false
     /\ (fst found = Raise e
         \/ exists network,
              fst found = Ret network
              /\ fst (inspect_network (network_id network) (snd found)) = Raise e))
  /\ calls (events r) = 0%nat
  /\ sleeps (events r) = []
  /\ (forall network fields,
        fst found = Ret network ->
        fst (inspect_network (network_id network) (snd found)) = Ret (VDict fields) ->
        dict_lookup "Containers" fields = None ->
        outcome r = Ret []
        /\ events r = [EvPrint ("[SUCCESS] Found 0 containers in " ++ network_name)]).
Proof.
  cbv zeta. rewrite get_network_containers_run. cbv zeta.
  assert (Hfail : forall e env1,
            let r := network_failure network_name e env1 in
            (forall e0, outcome r = Raise e0 -> e0 = e /\ is_Exception e = false)
            /\ calls (events r) = 0%nat /\ sleeps (events r) = []).
  { intros e env1. cbv zeta.
    destruct (is_NotFound e); [|destruct (is_Exception e) eqn:Hexc];
      cbn [outcome events sleeps];
      rewrite ?calls_cons_print, ?calls_error_details, ?sleeps_error_details;
      (split; [|split; reflexivity]); intros e0 H; try discriminate H.
    injection H as <-. now split. }
  destruct (fst (networks_get network_name env)) as [network|e].
  2:{ destruct (Hfail e (snd (networks_get network_name env))) as (Hr & Hc & Hs).
      split; [|split; [exact Hc|split; [exact Hs|]]].
      - intros e0 H. destruct (Hr e0 H) as [-> Hexc]. split; [exact Hexc|now left].
      - intros network fields Hn. discriminate Hn. }
  set (inspected := inspect_network (network_id network) _).
  destruct (fst inspected) as [info|e] eqn:Ei.
  2:{ destruct (Hfail e (snd inspected)) as (Hr & Hc & Hs).
      split; [|split; [exact Hc|split; [exact Hs|]]].
      - intros e0 H. destruct (Hr e0 H) as [-> Hexc]. split; [exact Hexc|].
        right. exists network. split; [reflexivity|exact Ei].
      - intros network' fields Hn Hi. injection Hn as <-.
        fold inspected in Hi. congruence. }
  split; [|split; [|split]].
  - intros e0. destruct (entries_in error_text info); cbn [outcome]; discriminate.
  - destruct (entries_in error_text info); cbn [events];
      rewrite ?calls_cons_print, ?calls_error_details; reflexivity.
  - destruct (entries_in error_text info); cbn [events sleeps];
      rewrite ?sleeps_error_details; reflexivity.
  - intros network' fields Hn Hi Hc. injection Hn as <-.
    fold inspected in Hi. rewrite Ei in Hi. injection Hi as ->.
    unfold entries_in. cbn [py_get]. rewrite Hc. cbn. split; reflexivity.
Qed.

(** ** validate_prerequisites *)

Local Abbreviation check :=
  (check_containers containers_get container_status).
Local Abbreviation validate :=
  (validate_prerequisites containers_get networks_get container_status).

(** One iteration of the loop over the required containers. *)
Lemma check_containers_cons name rest missing env :
  let looked := containers_get name env in
  match fst looked with
  | Ret c =>
      exists line,
        check (name :: rest) missing env =
          after [EvCall CContainersGet; EvPrint line]
                (check rest missing (snd looked))
  | Raise e =>
      if is_NotFound e then
        check (name :: rest) missing env =
          after [EvCall CContainersGet;
                 EvPrint ("[ERROR] Container " ++ name ++ " not found")]
                (check rest (missing ++ [name]) (snd looked))
      else
        check (name :: rest) missing env =
          mkRun (Raise e) (snd looked) [EvCall CContainersGet]
  end.
Proof.
  cbv zeta. cbn [check_containers].
  set (body := bind (invoke CContainersGet _) _).
  set (looked := containers_get name env).
  assert (Hbody : body env =
            match fst looked with
            | Ret c =>
                mkRun (Ret missing) (snd looked)
                      [EvCall CContainersGet;
                       EvPrint (if String.eqb (container_status c) "running"
                                then "[SUCCESS] Container " ++ name ++ " running"
                                else "[WARNING] Container " ++ name
                                       ++ " not running ("
                                       ++ container_status c ++ ")")]
            | Raise e => mkRun (Raise e) (snd looked) [EvCall CContainersGet]
            end).
  { subst body. rewrite bind_invoke. fold looked.
    destruct (fst looked) as [c|e]; [|reflexivity].
    destruct (String.eqb (container_status c) "running");
      now rewrite bind_print_status, ret_run, !after_mkRun. }
  destruct (fst looked) as [c|e].
  - eexists.
    rewrite (bind_run_ret _ _ _ _ _ _ (try_except_run_ret _ _ _ _ _ _ Hbody)).
    reflexivity.
  - pose proof (try_except_run_raise _
                  (not_found_clause
                     (bind (print_status ("Container " ++ name ++ " not found")
                                         StatusIndicators.ERROR None)
                           (fun _ => ret (missing ++ [name])%list)))
                  _ _ _ _ Hbody) as Htry.
    unfold not_found_clause in Htry |- *. destruct (is_NotFound e).
    + rewrite bind_print_status, ret_run, !after_mkRun in Htry.
      now rewrite (bind_run_ret _ _ _ _ _ _ Htry).
    + now rewrite (bind_run_raise _ _ _ _ _ _ Htry).
Qed.

Lemma check_containers_run names : forall missing env,
  found_or_missing containers_get names env ->
  exists evs,
    check names missing env =
      mkRun (Ret (missing ++ missing_among containers_get names env)%list)
            (after_lookups containers_get names env) evs
    /\ calls evs = List.length names
    /\ sleeps evs = [].
Proof.
  induction names as [|name rest IH]; intros missing env Hok.
  - exists []. cbn. now rewrite app_nil_r.
  - cbn [found_or_missing] in Hok. destruct Hok as [Hhead Hrest].
    pose proof (check_containers_cons name rest missing env) as Hstep.
    cbv zeta in Hstep. cbn [missing_among after_lookups].
    destruct (fst (containers_get name env)) as [c|e].
    + destruct Hstep as [line ->].
      destruct (IH missing _ Hrest) as (evs & -> & Hc & Hs).
      exists (EvCall CContainersGet :: EvPrint line :: evs).
      rewrite after_mkRun. split; [reflexivity|].
      rewrite calls_cons_call, calls_cons_print, Hc. now split.
    + rewrite Hhead in Hstep. rewrite Hstep.
      destruct (IH (missing ++ [name])%list _ Hrest) as (evs & -> & Hc & Hs).
      exists (EvCall CContainersGet
              :: EvPrint ("[ERROR] Container " ++ name ++ " not found") :: evs).
      rewrite after_mkRun, <- app_assoc. split; [reflexivity|].
      rewrite calls_cons_call, calls_cons_print, Hc. now split.
Qed.

Lemma check_containers_never_not_found names : forall missing env e,
  outcome (check names missing env) = Raise e -> is_NotFound e = false.
Proof.
  induction names as [|name rest IH]; intros missing env e.
  - discriminate.
  - pose proof (check_containers_cons name rest missing env) as Hstep.
    cbv zeta in Hstep.
    destruct (fst (containers_get name env)) as [c|e'].
    + destruct Hstep as [line ->]. cbn. apply IH.
    + destruct (is_NotFound e') eqn:Hnf; rewrite Hstep; cbn.
      * apply IH.
      * intros H. now injection H as <-.
Qed.

Lemma print_section_run (title : string) (width : Z) (env : Env U) :
  print_section title width env = mkRun (Ret tt) env (section_lines title width).
Proof. reflexivity. Qed.

Lemma validate_unfold required network_name env :
  let found := networks_get network_name env in
  match fst found with
  | Ret _ =>
      validate required network_name env =
        after (section_lines "Prerequisites Check" 60
                 ++ [EvPrint ("[SUCCESS] Network " ++ network_name ++ " exists")])
          (bind (check required [])
                (fun missing =>
                   match missing with
                   | _ :: _ =>
                       bind (print_status
                               ("Missing containers: " ++ str_join ", " missing)
                               StatusIndicators.ERROR None)
                            (fun _ => ret false)
                   | [] =>
                       bind (print_status "All prerequisites satisfied"
                                          StatusIndicators.SUCCESS None)
                            (fun _ => ret true)
                   end)
                (snd found))
  | Raise e =>
      validate required network_name env =
        if is_NotFound e then
          mkRun (Ret false) (snd found)
                (section_lines "Prerequisites Check" 60
                   ++ [EvPrint ("[ERROR] Network " ++ network_name ++ " not found")])
        else
          mkRun (Raise e) (snd found) (section_lines "Prerequisites Check" 60)
  end.
Proof.
  cbv zeta. unfold validate_prerequisites.
  rewrite (bind_run_ret _ _ _ _ _ _ (print_section_run _ _ env)).
  set (body := bind (call (networks_get network_name)) _).
  set (found := networks_get network_name env).
  assert (Hbody : body env =
            match fst found with
            | Ret _ =>
                mkRun (Ret Continue) (snd found)
                      [EvPrint ("[SUCCESS] Network " ++ network_name ++ " exists")]
            | Raise e => mkRun (Raise e) (snd found) []
            end).
  { subst body. rewrite bind_call. fold found.
    destruct (fst found) as [n|e]; [|reflexivity].
    now rewrite bind_print_status, ret_run, !after_mkRun. }
  destruct (fst found) as [n|e].
  - rewrite (bind_run_ret _ _ _ _ _ _ (try_except_run_ret _ _ _ _ _ _ Hbody)).
    rewrite after_after. reflexivity.
  - pose proof (try_except_run_raise _
                  (not_found_clause
                     (bind (print_status ("Network " ++ network_name ++ " not found")
                                         StatusIndicators.ERROR None)
                           (fun _ => ret (Return false))))
                  _ _ _ _ Hbody) as Htry.
    unfold not_found_clause in Htry |- *. destruct (is_NotFound e).
    + rewrite bind_print_status, ret_run, !after_mkRun in Htry.
      rewrite (bind_run_ret _ _ _ _ _ _ Htry). reflexivity.
    + rewrite (bind_run_raise _ _ _ _ _ _ Htry). reflexivity.
Qed.

(** X14: when the network exists and every container lookup either
    returns or raises "not found", [validate_prerequisites] looks up each
    required container once, in order, and returns true exactly when none
    is missing; whether a container is running plays no part. *)
Theorem validate_prerequisites_verdict (required : list string)
    (network_name : string) (env : Env U) (network : Network) :
  let env1 := snd (networks_get network_name env) in
  fst (networks_get network_name env) = Ret network ->
  found_or_missing containers_get required env1 ->
  let r := validate required network_name env in
  let missing := missing_among containers_get required env1 in
  outcome r = Ret (match missing with [] => true | _ :: _ => false end)
  /\ final r = after_lookups containers_get required env1
  /\ calls (events r) = List.length required
  /\ sleeps (events r) = []
  /\ exists evs,
       events r =
         (evs ++ [EvPrint (match missing with
                           | [] => "[SUCCESS] All prerequisites satisfied"
                           | _ :: _ => "[ERROR] Missing containers: "
                                         ++ str_join ", " missing
                           end)])%list.
Proof.
  intros env1 Hnet Hok r missing. subst r.
  pose proof (validate_unfold required network_name env) as Hv.
  cbv zeta in Hv. rewrite Hnet in Hv. rewrite Hv. fold env1.
  destruct (check_containers_run required [] env1 Hok) as (evs & Hrun & Hc & Hs).
  cbn [app] in Hrun. fold missing in Hrun.
  rewrite (bind_run_ret _ _ _ _ _ _ Hrun).
  set (header := (section_lines _ _ ++ _)%list).
  assert (Hheader : calls header = 0%nat /\ sleeps header = [])
    by (split; reflexivity).
  destruct Hheader as [Hhc Hhs].
  destruct missing as [|m ms];
    rewrite bind_print_status, ret_run, !after_mkRun;
    cbn [outcome final events];
    (split; [reflexivity|]); (split; [reflexivity|]);
    rewrite !calls_app, !sleeps_app, Hhc, Hhs, Hc, Hs;
    (split; [cbn; lia|]); (split; [reflexivity|]);
    exists (header ++ evs)%list; now rewrite <- app_assoc.
Qed.

(** X15: when the network lookup raises "not found",
    [validate_prerequisites] returns false at once: after the header and
    one error line, without looking up any container. *)
Theorem validate_prerequisites_no_network (required : list string)
    (network_name : string) (env : Env U) (e : PyExn) :
  fst (networks_get network_name env) = Raise e ->
  is_NotFound e = true ->
  validate required network_name env =
    mkRun (Ret false) (snd (networks_get network_name env))
          (section_lines "Prerequisites Check" 60
             ++ [EvPrint ("[ERROR] Network " ++ network_name ++ " not found")]).
Proof.
  intros Hnet Hnf.
  pose proof (validate_unfold required network_name env) as Hv.
  cbv zeta in Hv. rewrite Hnet in Hv. now rewrite Hnf in Hv.
Qed.

(** X16: [validate_prerequisites] handles "not found" only: any other
    exception of the network lookup comes out right after the header, and
    no run ends in a "not found". *)
Theorem validate_prerequisites_lets_through (required : list string)
    (network_name : string) (env : Env U) :
  let r := validate required network_name env in
  (forall e, fst (networks_get network_name env) = Raise e ->
             is_NotFound e = false ->
             r = mkRun (Raise e) (snd (networks_get network_name env))
                       (section_lines "Prerequisites Check" 60))
  /\ (forall e, outcome r = Raise e -> is_NotFound e = false).
Proof.
  cbv zeta. pose proof (validate_unfold required network_name env) as Hv.
  cbv zeta in Hv. split.
  - intros e Hnet Hnf. rewrite Hnet in Hv. now rewrite Hnf in Hv.
  - intros e. destruct (fst (networks_get network_name env)) as [n|e'].
    + rewrite Hv. unfold bind at 1.
      pose proof (check_containers_never_not_found required []
                    (snd (networks_get network_name env))) as Hchk.
      destruct (outcome (check required [] _)) as [missing|e0] eqn:Ho; cbn.
      * destruct missing; cbn; discriminate.
      * intros H. injection H as <-. now apply Hchk.
    + rewrite Hv. destruct (is_NotFound e') eqn:Hnf; cbn; [discriminate|].
      intros H. now injection H as <-.
Qed.

End DockerHelperProperties.

(** ** More on retry_operation *)

Section RetryMore.

Context {U : Type} {platform : Platform U} {T : Type}.
Variable operation_func : Callable U T.
Variable max_retries : Z.
Variable delay : Z.
Variable description : string.

Local Abbreviation body :=
  (retry_body operation_func max_retries delay description).
Local Abbreviation loop :=
  (retry_loop operation_func max_retries delay description).
Local Abbreviation retry :=
  (retry_operation operation_func max_retries delay description).

(** An iteration goes on to the next only when it is not the last. *)
Lemma retry_body_continues attempt env :
  outcome (body attempt env) = Ret Continue -> attempt <> max_retries - 1.
Proof.
  intros Ho Ha.
  destruct (fst (operation_func env)) as [v|e] eqn:Hop.
  - rewrite (retry_body_returns _ _ _ _ _ _ _ Hop) in Ho. discriminate.
  - destruct (is_Exception e) eqn:He.
    + destruct (retry_body_last operation_func max_retries delay description
                  attempt env e Hop He Ha) as [lines Hb].
      rewrite Hb in Ho. discriminate.
    + rewrite (retry_body_not_caught _ _ _ _ _ _ _ Hop He) in Ho. discriminate.
Qed.

Lemma retry_loop_counts len : forall first env,
  Z.of_nat (first + len) = max_retries ->
  let evs := events (loop (map Z.of_nat (seq first len)) env) in
  (calls evs <= len)%nat
  /\ ((1 <= len)%nat -> (List.length (sleeps evs) < calls evs)%nat).
Proof.
  induction len as [|len IH]; intros first env Hn; cbv zeta.
  - split; [apply Nat.le_refl | lia].
  - cbn [seq map]. rewrite retry_loop_cons. cbv zeta.
    pose proof (retry_body_continues (Z.of_nat first) env) as Hcont.
    destruct (retry_body_cases operation_func max_retries delay description
                (Z.of_nat first) env) as [(lines & Hev & Ho)|(line & Hev & Ho)].
    + assert (Hone : calls (events (body (Z.of_nat first) env)) = 1%nat
                     /\ sleeps (events (body (Z.of_nat first) env)) = []).
      { rewrite Hev. split.
        - now rewrite calls_cons_call, calls_prints.
        - cbn [sleeps]. apply sleeps_prints. }
      destruct Hone as [Hc Hs].
      destruct (outcome (body (Z.of_nat first) env)) as [[v|]|e];
        [|congruence|]; cbn [events]; rewrite ?app_nil_r, Hc, Hs;
        (split; [lia | intros _; cbn [List.length]; lia]).
    + rewrite Ho in Hcont |- *. specialize (Hcont eq_refl).
      destruct len as [|len]; [lia|].
      destruct (IH (S first) (final (body (Z.of_nat first) env)) ltac:(lia))
        as [Hle Hlt].
      cbn [after events]. rewrite Hev.
      cbn [app sleeps List.length]. rewrite calls_cons_call, calls_cons_print.
      change (calls (EvSleep ?d :: ?x)) with (calls x).
      specialize (Hlt ltac:(lia)). lia.
Qed.

(** X17: whatever the operation does, [retry_operation] invokes it at
    most [max_retries] times, at least once when [max_retries >= 1], and
    every sleep is followed by another attempt: there are fewer sleeps
    than invocations. *)
Theorem retry_operation_attempts (env : Env U) :
  let evs := events (retry env) in
  (calls evs <= Z.to_nat max_retries)%nat
  /\ (1 <= max_retries ->
      (1 <= calls evs)%nat /\ (List.length (sleeps evs) < calls evs)%nat).
Proof.
  cbv zeta. unfold retry_operation, range.
  destruct (Z.le_gt_cases max_retries 0) as [Hn|Hn].
  - replace (Z.to_nat max_retries) with 0%nat by lia. cbn. split; [lia|lia].
  - pose proof (retry_loop_counts (Z.to_nat max_retries) 0 env ltac:(lia))
      as [Hle Hlt].
    cbv zeta in Hle, Hlt. split; [exact Hle|]. intros _.
    specialize (Hlt ltac:(lia)). lia.
Qed.

Lemma backoff_sum (m : nat) :
  fold_right Z.add 0 (map (fun i : nat => delay * 2 ^ Z.of_nat i) (seq 0 m))
  = delay * (2 ^ Z.of_nat m - 1).
Proof.
  induction m as [|m IH].
  - cbn. lia.
  - rewrite seq_S, map_app, fold_right_app. cbn [map fold_right Nat.add].
    rewrite Z.add_0_r.
    assert (Hshift : forall (l : list Z) (a : Z),
              fold_right Z.add a l = fold_right Z.add 0 l + a).
    { induction l as [|x l IHl]; intros a; cbn; [lia|]. rewrite IHl. lia. }
    rewrite Hshift, IH, Nat2Z.inj_succ, Z.pow_succ_r by lia. lia.
Qed.

(** X18: in every run of [retry_operation] the sleeps add up to
    [delay * (2^m - 1)], where [m] is their number. *)
Theorem retry_operation_total_backoff (env : Env U) :
  let slept := sleeps (events (retry env)) in
  fold_right Z.add 0 slept = delay * (2 ^ Z.of_nat (List.length slept) - 1).
Proof.
  cbv zeta. unfold retry_operation, range.
  destruct (retry_loop_sleeps operation_func max_retries delay description
              (Z.to_nat max_retries) 0 env) as [m Hm].
  rewrite Hm, length_map, length_seq. apply backoff_sum.
Qed.

(** X19: with a negative [delay], a failed attempt that is not the last
    ends the call: [time.sleep] refuses the length, with [ValueError] when
    it fits the clock type and with [OverflowError] when it does not, and
    that error comes out in place of the operation's, after a single
    invocation. *)
Theorem retry_operation_negative_delay (env : Env U) (e : PyExn) :
  delay < 0 -> 2 <= max_retries ->
  fst (operation_func env) = Raise e -> is_Exception e = true ->
  let r := retry env in
  outcome r = Raise (if delay <? - sleep_max then sleep_overflow
                     else sleep_negative)
  /\ final r = snd (operation_func env)
  /\ calls (events r) = 1%nat
  /\ sleeps (events r) = [].
Proof.
  intros Hd Hn Hop He. cbv zeta. unfold retry_operation, range.
  destruct (Z.to_nat max_retries) as [|n] eqn:En; [lia|].
  cbn [seq map]. rewrite retry_loop_cons. cbv zeta.
  assert (Hs : sleep_error (delay * 2 ^ Z.of_nat 0) (snd (operation_func env))
               = Some (if delay <? - sleep_max then sleep_overflow
                       else sleep_negative)).
  { cbn [Z.of_nat]. rewrite Z.pow_0_r, Z.mul_1_r.
    now apply sleep_error_negative. }
  destruct (retry_body_sleep_refused operation_func max_retries delay
              description (Z.of_nat 0) env e _ Hop He ltac:(cbn; lia) Hs)
    as [line Hb].
  rewrite Hb. cbn [outcome final events sleeps]. repeat split.
Qed.

End RetryMore.

(** ** More on wait_with_timeout *)

Section WaitMore.

Context {U : Type} {platform : Platform U}.
Variable condition_func : Callable U bool.
Variable timeout : Z.
Variable check_interval : Z.
Variable description : string.

Local Abbreviation body := (wait_body condition_func check_interval description).
Local Abbreviation wait :=
  (wait_with_timeout condition_func timeout check_interval description).
Local Abbreviation loop :=
  (fun fuel start =>
     while_loop fuel (before_deadline start timeout) (body start)
                (wait_timed_out timeout description)).

(** X20: with [timeout <= 0] the predicate is never evaluated:
    [wait_with_timeout] prints its two lines and returns false, whatever
    the fuel. *)
Theorem wait_with_timeout_no_time (fuel : nat) (env : Env U) :
  timeout <= 0 ->
  wait fuel env =
    Some (mkRun (Ret false) env
                [EvPrint ("[WORKING] Waiting for " ++ description
                            ++ " (timeout: " ++ str_int timeout ++ "s)");
                 EvPrint ("[ERROR] " ++ description ++ " timed out after "
                            ++ str_int timeout ++ "s")]).
Proof.
  intros Ht. rewrite wait_with_timeout_unfold, while_loop_exit; [reflexivity|].
  apply Qltb_ge. rewrite Zle_Qle in Ht. change (inject_Z 0) with 0%Q in Ht. lra.
Qed.

(** What an iteration of the loop can be. *)
Lemma wait_body_shape start env :
  let r := body start env in
  calls (events r) = 1%nat
  /\ outcome r <> Ret (Return false)
  /\ (outcome r = Ret Continue ->
      final r = after_idle_poll condition_func check_interval env).
Proof.
  cbv zeta.
  destruct (fst (condition_func env)) as [[|]|e] eqn:Hc.
  - rewrite (wait_body_true _ _ _ _ _ Hc). repeat split; discriminate.
  - destruct (sleep_error check_interval (snd (condition_func env)))
      as [e|] eqn:Hi.
    + rewrite (wait_body_sleep_refused _ _ _ _ _ _ Hc Hi). cbv zeta.
      cbn [outcome final events]. rewrite calls_cons_call.
      split; [|split; discriminate].
      f_equal. destruct (_ && _); reflexivity.
    + rewrite (wait_body_false _ _ _ _ _ Hc Hi). cbv zeta.
      cbn [outcome final events]. rewrite calls_cons_call.
      split; [|split; [discriminate|reflexivity]].
      f_equal. destruct (_ && _); reflexivity.
  - rewrite (wait_body_raises _ _ _ _ _ _ Hc). repeat split; discriminate.
Qed.

Lemma wait_loop_bound fuel start :
  0 < check_interval ->
  (forall e, (clock e <= clock (snd (condition_func e)))%Q) ->
  forall env r,
    loop fuel start env = Some r ->
    calls (events r) = 0%nat
    \/ (inject_Z (Z.of_nat (calls (events r)) - 1) * inject_Z check_interval
        < inject_Z timeout - (clock env - start))%Q.
Proof.
  intros Hi Hmono. induction fuel as [|fuel IH]; intros env r Hrun.
  - destruct (Qltb (clock env - start) (inject_Z timeout)) eqn:Hg.
    + cbn in Hrun. rewrite Hg in Hrun. discriminate.
    + rewrite (while_loop_exit _ _ _ _ _ _ Hg) in Hrun. injection Hrun as <-.
      now left.
  - destruct (Qltb (clock env - start) (inject_Z timeout)) eqn:Hg.
    2:{ rewrite (while_loop_exit _ _ _ _ _ _ Hg) in Hrun. injection Hrun as <-.
        now left. }
    rewrite (while_loop_step _ _ _ _ _ _ Hg) in Hrun. cbv zeta in Hrun.
    apply Qltb_lt in Hg.
    destruct (wait_body_shape start env) as (Hone & Hnf & Hcont).
    cbv zeta in Hone, Hnf, Hcont.
    destruct (outcome (body start env)) as [[b|]|e] eqn:Ho.
    + injection Hrun as <-. cbn [outcome final events].
      right. rewrite Hone. change (inject_Z (Z.of_nat 1 - 1)) with 0%Q. lra.
    + pose proof (Hcont eq_refl) as Hfinal.
      destruct (while_loop fuel _ _ _ (final (body start env))) as [r'|] eqn:Hr';
        [|discriminate].
      cbn in Hrun. injection Hrun as <-.
      pose proof (IH _ _ Hr') as Hcalls.
      cbn [after outcome final events].
      right. rewrite calls_app, Hone.
      replace (Z.of_nat (1 + calls (events r')) - 1)
        with (Z.of_nat (calls (events r'))) by lia.
      rewrite Hfinal in Hcalls. unfold after_idle_poll in Hcalls.
      cbn [clock] in Hcalls. pose proof (Hmono env) as Hm.
      assert (Hiq : (0 < inject_Z check_interval)%Q)
        by (rewrite Zlt_Qlt in Hi; exact Hi).
      destruct Hcalls as [H0|Hc].
      * rewrite H0. change (inject_Z (Z.of_nat 0)) with 0%Q. lra.
      * replace (Z.of_nat (calls (events r')))
          with ((Z.of_nat (calls (events r')) - 1) + 1) at 1 by lia.
        rewrite inject_Z_plus. change (inject_Z 1) with 1%Q. lra.
    + injection Hrun as <-. cbn [outcome final events].
      right. rewrite Hone. change (inject_Z (Z.of_nat 1 - 1)) with 0%Q. lra.
Qed.

(** X21: when the interval is positive and the predicate does not set the
    clock back, a call that returns has evaluated the predicate at most
    [ceil(timeout / check_interval)] times. *)
Theorem wait_with_timeout_evaluations (fuel : nat) (env : Env U) (r : Run U bool) :
  0 < timeout -> 0 < check_interval ->
  (forall e, (clock e <= clock (snd (condition_func e)))%Q) ->
  wait fuel env = Some r ->
  Z.of_nat (calls (events r))
    <= Qceiling (inject_Z timeout / inject_Z check_interval).
Proof.
  intros Ht Hi Hmono Hrun. rewrite wait_with_timeout_unfold in Hrun.
  destruct (while_loop fuel _ _ _ env) as [r'|] eqn:Hr'; [|discriminate].
  cbn in Hrun. injection Hrun as <-. cbn [after events app].
  rewrite calls_cons_print.
  pose proof (wait_loop_bound fuel (clock env) Hi Hmono env r' Hr') as Hc.
  rewrite Qceiling_ratio by assumption.
  apply Z.div_le_lower_bound; [lia|].
  destruct Hc as [H0|Hc]; [rewrite H0; cbn; lia|].
  assert (Hz : (Z.of_nat (calls (events r')) - 1) * check_interval < timeout).
  { rewrite Zlt_Qlt, inject_Z_mult. lra. }
  lia.
Qed.

Lemma bind_time_time {B} (f : Q -> Eff U B) (env : Env U) :
  bind time_time f env = f (clock env) env.
Proof. unfold bind, time_time. cbn. now destruct (f (clock env) env). Qed.

Lemma wait_body_never_false start env :
  outcome (body start env) <> Ret (Return false).
Proof. apply wait_body_shape. Qed.

Lemma wait_loop_false_late fuel start : forall env r,
  loop fuel start env = Some r ->
  outcome r = Ret false ->
  (inject_Z timeout <= clock (final r) - start)%Q.
Proof.
  induction fuel as [|fuel IH]; intros env r Hrun.
  - destruct (Qltb (clock env - start) (inject_Z timeout)) eqn:Hg.
    + cbn in Hrun. rewrite Hg in Hrun. discriminate.
    + rewrite (while_loop_exit _ _ _ _ _ _ Hg) in Hrun. injection Hrun as <-.
      intros _. now apply Qltb_ge in Hg.
  - destruct (Qltb (clock env - start) (inject_Z timeout)) eqn:Hg.
    2:{ rewrite (while_loop_exit _ _ _ _ _ _ Hg) in Hrun. injection Hrun as <-.
        intros _. now apply Qltb_ge in Hg. }
    rewrite (while_loop_step _ _ _ _ _ _ Hg) in Hrun. cbv zeta in Hrun.
    pose proof (wait_body_never_false start env) as Hnf.
    destruct (outcome (body start env)) as [[b|]|e] eqn:Ho.
    + injection Hrun as <-. cbn [outcome]. intros H. injection H as ->.
      now elim Hnf.
    + destruct (while_loop fuel _ _ _ (final (body start env))) as [r'|] eqn:Hr';
        [|discriminate].
      cbn in Hrun. injection Hrun as <-. cbn [after outcome final].
      intros H. eapply IH; eassumption.
    + injection Hrun as <-. discriminate.
Qed.

(** X22: [wait_with_timeout] returns false only once the deadline has
    passed: whatever the predicate and the interval, the elapsed time is
    then at least [timeout]. *)
Theorem wait_with_timeout_false_late (fuel : nat) (env : Env U) (r : Run U bool) :
  wait fuel env = Some r ->
  outcome r = Ret false ->
  (inject_Z timeout <= clock (final r) - clock env)%Q.
Proof.
  intros Hrun Ho. rewrite wait_with_timeout_unfold in Hrun.
  destruct (while_loop fuel _ _ _ env) as [r'|] eqn:Hr'; [|discriminate].
  cbn in Hrun. injection Hrun as <-. cbn [after outcome final] in *.
  now apply (wait_loop_false_late fuel (clock env) env r' Hr').
Qed.

(** X30: the generic poller does not catch the errors of [time.sleep]:
    when the first poll finds the predicate false and the sleep that
    follows is refused, the call ends with the error of the sleep, after
    that one evaluation. *)
Theorem wait_with_timeout_sleep_refused (fuel : nat) (env : Env U) (e : PyExn) :
  0 < timeout ->
  fst (condition_func env) = Ret false ->
  sleep_error check_interval (snd (condition_func env)) = Some e ->
  exists r,
    wait (S fuel) env = Some r
    /\ outcome r = Raise e
    /\ final r = snd (condition_func env)
    /\ calls (events r) = 1%nat
    /\ sleeps (events r) = [].
Proof.
  intros Ht Hc Hs. rewrite wait_with_timeout_unfold, while_loop_step.
  - cbv zeta. rewrite (wait_body_sleep_refused _ _ _ _ _ _ Hc Hs). cbv zeta.
    eexists. split; [reflexivity|]. cbn [after outcome final events app].
    split; [reflexivity|]. split; [reflexivity|].
    rewrite calls_cons_print, calls_cons_call.
    split; destruct (_ && _); reflexivity.
  - apply Qltb_lt. rewrite Zlt_Qlt in Ht. change (inject_Z 0) with 0%Q in Ht. lra.
Qed.

End WaitMore.

(** ** More on DockerHelper.wait_for_container *)

Section ContainerMore.

Context {U : Type} {platform : Platform U} {Container : Type}.
Variable containers_get : string -> Callable U Container.
Variable container_logs : Container -> Callable U bytes.
Variable container_name : string.
Variable timeout : Z.
Variable check_interval : Z.

Local Abbreviation wait_ready :=
  (fun ready_messages =>
     wait_for_container containers_get container_logs container_name
                        ready_messages timeout check_interval).
Local Abbreviation waiting_line :=
  (EvPrint ("[WORKING] Waiting for " ++ container_name
              ++ " to start (timeout: " ++ str_int timeout ++ "s)")).
Local Abbreviation ready_in :=
  (fun (ready_messages : list bytes) (logs : bytes) =>
     existsb (fun ready_msg => bytes_in ready_msg logs) ready_messages).

(** A [try] block that returns is the whole call. *)
Lemma wait_for_container_returns ready_messages fuel env b env1 evs :
  wait_for_container_try containers_get container_logs container_name
                         ready_messages timeout check_interval fuel env
    = Some (mkRun (Ret b) env1 evs) ->
  wait_ready ready_messages fuel env = Some (mkRun (Ret b) env1 evs).
Proof. intros H. unfold wait_for_container. now rewrite H. Qed.

(** X23: when the logs hold no ready message on polls [0 .. k-1],
    [time.sleep] performs the sleep after each of them, and the logs hold a
    ready message on poll [k], all made before the deadline,
    [wait_for_container] returns true right after that poll: [k] sleeps,
    [k + 1] readings of the logs, the success line, and nothing more. *)
Theorem wait_for_container_ready_at ready_messages (fuel k : nat) env c logs :
  fst (containers_get container_name env) = Ret c ->
  let env1 := snd (containers_get container_name env) in
  let env_at := poll_env (container_logs c) check_interval in
  (forall j, (j <= k)%nat ->
     (clock (env_at j env1) - clock env1 < inject_Z timeout)%Q) ->
  (forall j, (j < k)%nat ->
     exists quiet, fst (container_logs c (env_at j env1)) = Ret quiet
                   /\ ready_in ready_messages quiet = false) ->
  (forall j, (j < k)%nat ->
     sleep_error check_interval (snd (container_logs c (env_at j env1)))
     = None) ->
  fst (container_logs c (env_at k env1)) = Ret logs ->
  ready_in ready_messages logs = true ->
  (k < fuel)%nat ->
  exists evs,
    wait_ready ready_messages fuel env =
      Some (mkRun (Ret true) (snd (container_logs c (env_at k env1)))
                  (evs ++ [EvCall CLogs;
                           EvPrint ("[SUCCESS] " ++ container_name ++ " is ready")]))
    /\ calls evs = S k
    /\ sleeps evs = repeat check_interval k.
Proof.
  intros Hget env1 env_at Hguard Hquiet Hsleep Hlogs Hready Hfuel.
  destruct (while_loop_idle_prefix (container_logs c) check_interval
              (clock env1) timeout
              (container_body container_logs container_name ready_messages
                              check_interval c (clock env1))
              (container_timed_out container_name timeout)
              k (fuel - k) env1) as (evs & Hrun & Hc & Hs).
  { intros j Hj. split.
    - apply Qltb_lt, Hguard. lia.
    - destruct (Hquiet j Hj) as (quiet & Hl & Hr).
      eapply container_body_idle; [eassumption .. | now apply Hsleep]. }
  exists (EvCall CContainersGet :: waiting_line :: evs). split; [|split].
  - apply wait_for_container_returns.
    rewrite (wait_try_lookup_returns _ _ _ _ _ _ fuel env c Hget). cbv zeta.
    fold env1.
    replace fuel with (k + S (fuel - S k))%nat at 1 by lia.
    replace (fuel - k)%nat with (S (fuel - S k)) in Hrun by lia.
    rewrite Hrun, while_loop_step by (apply Qltb_lt, Hguard; lia).
    cbv zeta.
    rewrite (container_body_ready _ _ _ _ _ _ _ _ Hlogs Hready). reflexivity.
  - now rewrite calls_cons_call, calls_cons_print, Hc.
  - exact Hs.
Qed.

Lemma bytes_in_empty (logs : bytes) : bytes_in [] logs = true.
Proof. destruct logs; reflexivity. Qed.

(** X24: an empty ready message is found in any logs: with one among the
    ready messages, [wait_for_container] returns true on the first poll
    whatever the container has written. *)
Theorem wait_for_container_empty_message ready_messages (fuel : nat) env c logs :
  In [] ready_messages ->
  fst (containers_get container_name env) = Ret c ->
  let env1 := snd (containers_get container_name env) in
  fst (container_logs c env1) = Ret logs ->
  0 < timeout -> (1 <= fuel)%nat ->
  wait_ready ready_messages fuel env =
    Some (mkRun (Ret true) (snd (container_logs c env1))
                [EvCall CContainersGet; waiting_line; EvCall CLogs;
                 EvPrint ("[SUCCESS] " ++ container_name ++ " is ready")]).
Proof.
  intros Hin Hget env1 Hlogs Ht Hfuel.
  assert (Hready : ready_in ready_messages logs = true).
  { apply existsb_exists. exists []. split; [exact Hin | apply bytes_in_empty]. }
  apply wait_for_container_returns.
  rewrite (wait_try_lookup_returns _ _ _ _ _ _ fuel env c Hget). cbv zeta.
  fold env1. destruct fuel as [|fuel]; [lia|].
  rewrite while_loop_step.
  - cbv zeta. rewrite (container_body_ready _ _ _ _ _ _ _ _ Hlogs Hready).
    reflexivity.
  - apply Qltb_lt. rewrite Zlt_Qlt in Ht. change (inject_Z 0) with 0%Q in Ht. lra.
Qed.

Lemma container_loop_never_ready c start fuel : forall env r,
  while_loop fuel (before_deadline start timeout)
             (container_body container_logs container_name [] check_interval
                             c start)
             (container_timed_out container_name timeout) env = Some r ->
  outcome r <> Ret true.
Proof.
  induction fuel as [|fuel IH]; intros env r Hrun.
  - destruct (Qltb (clock env - start) (inject_Z timeout)) eqn:Hg.
    + cbn in Hrun. rewrite Hg in Hrun. discriminate.
    + rewrite (while_loop_exit _ _ _ _ _ _ Hg) in Hrun.
      injection Hrun as <-. discriminate.
  - destruct (Qltb (clock env - start) (inject_Z timeout)) eqn:Hg.
    2:{ rewrite (while_loop_exit _ _ _ _ _ _ Hg) in Hrun.
        injection Hrun as <-. discriminate. }
    rewrite (while_loop_step _ _ _ _ _ _ Hg) in Hrun. cbv zeta in Hrun.
    assert (Hbody : forall b,
              outcome (container_body container_logs container_name []
                                      check_interval c start env)
              <> Ret (Return b)).
    { intros b.
      destruct (fst (container_logs c env)) as [logs|e] eqn:Hl.
      - destruct (sleep_error check_interval (snd (container_logs c env)))
          as [e|] eqn:Hi.
        + rewrite (container_body_sleep_refused container_logs container_name
                     [] check_interval c start env logs e Hl eq_refl Hi).
          discriminate.
        + rewrite (container_body_not_ready container_logs container_name
                     [] check_interval c start env logs Hl eq_refl Hi).
          discriminate.
      - rewrite (container_body_raises container_logs container_name []
                   check_interval c start env e Hl).
        discriminate. }
    destruct (outcome (container_body _ _ _ _ _ _ env)) as [[b|]|e] eqn:Ho.
    + now elim (Hbody b).
    + destruct (while_loop fuel _ _ _ _) as [r'|] eqn:Hr'; [|discriminate].
      cbn in Hrun. injection Hrun as <-. cbn [after outcome].
      eapply IH; eassumption.
    + injection Hrun as <-. discriminate.
Qed.

(** X25: with no ready message to look for, [wait_for_container] never
    returns true. *)
Theorem wait_for_container_no_messages (fuel : nat) (env : Env U)
    (r : Run U bool) :
  wait_ready [] fuel env = Some r -> outcome r <> Ret true.
Proof.
  unfold wait_for_container.
  destruct (wait_for_container_try _ _ _ _ _ _ fuel env) as [r0|] eqn:Htry;
    [|discriminate].
  assert (Hr0 : outcome r0 <> Ret true).
  { destruct (fst (containers_get container_name env)) as [c|e] eqn:Hg.
    - rewrite (wait_try_lookup_returns _ _ _ _ _ _ fuel env c Hg) in Htry.
      cbv zeta in Htry.
      destruct (while_loop fuel _ _ _ _) as [r1|] eqn:Hloop; [|discriminate].
      cbn in Htry. injection Htry as <-. cbn [after outcome].
      eapply container_loop_never_ready; eassumption.
    - rewrite (wait_try_lookup_raises _ _ _ _ _ _ fuel env e Hg) in Htry.
      injection Htry as <-. discriminate. }
  destruct (outcome r0) as [b|e] eqn:Ho.
  - intros H. injection H as <-. rewrite Ho. exact Hr0.
  - destruct (is_NotFound e); [|destruct (is_Exception e)];
      intros H; injection H as <-.
    + discriminate.
    + unfold on_exception.
      rewrite bind_print_status_error, ret_run, !after_mkRun. discriminate.
    + rewrite Ho. discriminate.
Qed.

(** X26: with [timeout <= 0] the logs are never read: after the lookup
    [wait_for_container] prints its two lines and returns false. *)
Theorem wait_for_container_no_time ready_messages (fuel : nat) env c :
  timeout <= 0 ->
  fst (containers_get container_name env) = Ret c ->
  wait_ready ready_messages fuel env =
    Some (mkRun (Ret false) (snd (containers_get container_name env))
                [EvCall CContainersGet; waiting_line;
                 EvPrint ("[ERROR] " ++ container_name
                            ++ " did not start within " ++ str_int timeout
                            ++ "s")]).
Proof.
  intros Ht Hget. apply wait_for_container_returns.
  rewrite (wait_try_lookup_returns _ _ _ _ _ _ fuel env c Hget). cbv zeta.
  rewrite while_loop_exit; [reflexivity|].
  apply Qltb_ge. rewrite Zle_Qle in Ht. change (inject_Z 0) with 0%Q in Ht. lra.
Qed.

End ContainerMore.

(** ** Concrete runs of the rest of the module *)

Import Fixture.

Lemma format_json_response_whole_run :
  truncate_dict lab_info 4 = lab_info
  /\ format_json_response py_str json_dumps lab_info 4 = json_dumps lab_info.
Proof.
  apply (format_json_response_whole py_str json_dumps lab_info 4).
  - vm_compute. reflexivity.
  - reflexivity.
Defined.

Lemma truncate_dict_keys_run :
  (exists items',
      truncate_dict lab_info 2 = VDict items'
      /\ dict_keys items' = ["Name"; "Containers"])
  /\ keys_distinct (truncate_dict lab_info 2).
Proof.
  destruct (truncate_dict_keys
              [("Name", VStr "lab");
               ("Containers",
                VDict [("c0ffee", VDict [("Name", VStr "broker");
                                          ("IPv4Address", VStr "172.18.0.2/16")]);
                       ("decade", VDict [("Name", VStr "db")])])]
              2 ltac:(lia)) as [Hkeys Hdistinct].
  split; [exact Hkeys|]. apply Hdistinct.
  cbn. repeat constructor; cbn; intuition discriminate.
Defined.

(** An interrupted lookup is the one exception [get_container_ip] lets
    out. *)
Lemma get_container_ip_contained_run :
  let r := get_container_ip containers_get attrs error_text py_str
                            "ctrl-c" "lab" Scenario.start in
  final r = snd (containers_get "ctrl-c" Scenario.start)
  /\ calls (events r) = 1%nat
  /\ sleeps (events r) = []
  /\ fst (containers_get "ctrl-c" Scenario.start) = Raise interrupt
  /\ is_Exception interrupt = false.
Proof.
  destruct (get_container_ip_contained containers_get attrs error_text py_str
              "ctrl-c" "lab" Scenario.start) as (Hf & Hc & Hs & Hr).
  split; [exact Hf|]. split; [exact Hc|]. split; [exact Hs|].
  apply (Hr interrupt). reflexivity.
Defined.

(** The broker is in the lab network at 172.18.0.2; the database is in no
    network. *)
Lemma get_container_ip_address_run :
  get_container_ip containers_get attrs error_text py_str "broker" "lab"
                   Scenario.start
  = mkRun (Ret (VStr "172.18.0.2")) (snd (containers_get "broker" Scenario.start))
          [EvCall CContainersGet;
           EvPrint "[SUCCESS] Container broker IP: 172.18.0.2"]
  /\ (exists c settings networks entry,
        fst (containers_get "broker" Scenario.start) = Ret c
        /\ py_getitem error_text (attrs c) "NetworkSettings" = Ret settings
        /\ py_getitem error_text settings "Networks" = Ret (VDict networks)
        /\ dict_lookup "lab" networks = Some entry
        /\ py_getitem error_text entry "IPAddress" = Ret (VStr "172.18.0.2"))
  /\ get_container_ip containers_get attrs error_text py_str "db" "lab"
                      Scenario.start
     = mkRun (Ret VNone) (snd (containers_get "db" Scenario.start))
             [EvCall CContainersGet;
              EvPrint "[WARNING] Container db not in network lab"].
Proof.
  destruct (get_container_ip_address containers_get attrs error_text py_str
              "broker" "lab" Scenario.start) as (Hfound & Honly & _).
  destruct (get_container_ip_address containers_get attrs error_text py_str
              "db" "lab" Scenario.start) as (_ & _ & Habsent).
  split; [|split].
  - apply (Hfound broker
             (VDict [("Networks",
                      VDict [("lab", VDict [("IPAddress", VStr "172.18.0.2")])])])
             [("lab", VDict [("IPAddress", VStr "172.18.0.2")])]
             (VDict [("IPAddress", VStr "172.18.0.2")])
             (VStr "172.18.0.2")); reflexivity.
  - apply (Honly (VStr "172.18.0.2")); [reflexivity | discriminate].
  - apply (Habsent db (VDict [("Networks", VDict [])]) []); reflexivity.
Defined.

Lemma get_network_containers_entries_run :
  exists network info items,
    fst (networks_get "lab" Scenario.start) = Ret network
    /\ fst (inspect_network (network_id network)
                            (snd (networks_get "lab" Scenario.start))) = Ret info
    /\ py_get error_text info "Containers" (VDict []) = Ret (VDict items)
    /\ Forall2 entry_of items
               [container_entry (VStr "broker") "172.18.0.2" "c0ffee";
                container_entry (VStr "db") "Unknown" "decade"]
    /\ (forall entry,
          In entry [container_entry (VStr "broker") "172.18.0.2" "c0ffee";
                    container_entry (VStr "db") "Unknown" "decade"] ->
          exists name ip id,
            entry = container_entry name ip id
            /\ ~ In slash (list_ascii_of_string ip))
    /\ events (get_network_containers networks_get inspect_network network_id
                                      error_text "lab" Scenario.start)
       = [EvPrint ("[SUCCESS] Found " ++ str_int (Z.of_nat (List.length items))
                     ++ " containers in " ++ "lab")].
Proof.
  apply (get_network_containers_entries networks_get inspect_network network_id
           error_text "lab" Scenario.start).
  - reflexivity.
  - discriminate.
Defined.

Lemma get_network_containers_contained_run :
  (is_Exception interrupt = false
   /\ (fst (networks_get "ctrl-c" Scenario.start) = Raise interrupt
       \/ exists network,
            fst (networks_get "ctrl-c" Scenario.start) = Ret network
            /\ fst (inspect_network (network_id network)
                      (snd (networks_get "ctrl-c" Scenario.start)))
               = Raise interrupt))
  /\ (let r := get_network_containers networks_get inspect_network network_id
                                      error_text "bare" Scenario.start in
      outcome r = Ret []
      /\ events r = [EvPrint ("[SUCCESS] Found 0 containers in " ++ "bare")]).
Proof.
  destruct (get_network_containers_contained networks_get inspect_network
              network_id error_text "ctrl-c" Scenario.start) as (Hr & _).
  destruct (get_network_containers_contained networks_get inspect_network
              network_id error_text "bare" Scenario.start) as (_ & _ & _ & Hbare).
  split.
  - apply (Hr interrupt). reflexivity.
  - apply (Hbare "bare-id" [("Name", VStr "bare")]); reflexivity.
Defined.

(** Three required containers, one of them unknown: three lookups and
    false, although [db] is not running. *)
Lemma validate_prerequisites_verdict_run :
  let env1 := snd (networks_get "lab" Scenario.start) in
  let r := validate_prerequisites containers_get networks_get container_status
                                  ["broker"; "web"; "db"] "lab" Scenario.start in
  let missing := missing_among containers_get ["broker"; "web"; "db"] env1 in
  outcome r = Ret (match missing with [] => true | _ :: _ => false end)
  /\ final r = after_lookups containers_get ["broker"; "web"; "db"] env1
  /\ calls (events r) = List.length ["broker"; "web"; "db"]
  /\ sleeps (events r) = []
  /\ exists evs,
       events r =
         (evs ++ [EvPrint (match missing with
                           | [] => "[SUCCESS] All prerequisites satisfied"
                           | _ :: _ => "[ERROR] Missing containers: "
                                         ++ str_join ", " missing
                           end)])%list.
Proof.
  apply (validate_prerequisites_verdict containers_get networks_get
           container_status ["broker"; "web"; "db"] "lab" Scenario.start "lab-id").
  - reflexivity.
  - cbn. repeat split.
Defined.

Lemma validate_prerequisites_no_network_run :
  validate_prerequisites containers_get networks_get container_status
                         ["broker"] "wan" Scenario.start =
    mkRun (Ret false) (snd (networks_get "wan" Scenario.start))
          (section_lines "Prerequisites Check" 60
             ++ [EvPrint ("[ERROR] Network " ++ "wan" ++ " not found")]).
Proof.
  apply (validate_prerequisites_no_network containers_get networks_get
           container_status ["broker"] "wan" Scenario.start
           (NotFound ("network " ++ "wan" ++ " not found"))); reflexivity.
Defined.

Lemma validate_prerequisites_lets_through_run :
  validate_prerequisites containers_get networks_get container_status
                         ["broker"] "ctrl-c" Scenario.start
  = mkRun (Raise interrupt) (snd (networks_get "ctrl-c" Scenario.start))
          (section_lines "Prerequisites Check" 60)
  /\ is_NotFound interrupt = false.
Proof.
  destruct (validate_prerequisites_lets_through containers_get networks_get
              container_status ["broker"] "ctrl-c" Scenario.start)
    as (Hnet & Hnever).
  split.
  - apply (Hnet interrupt); reflexivity.
  - apply (Hnever interrupt). reflexivity.
Defined.

Import Scenario.

Lemma retry_operation_attempts_run :
  let evs := events (retry_operation always_fails 3 2 "fetch" start) in
  (calls evs <= Z.to_nat 3)%nat
  /\ (1 <= calls evs)%nat /\ (List.length (sleeps evs) < calls evs)%nat.
Proof.
  destruct (retry_operation_attempts always_fails 3 2 "fetch" start)
    as (Hmax & Hmin).
  split; [exact Hmax|]. apply Hmin. lia.
Defined.

(** A delay of -2 gives [ValueError], one of -10^10 [OverflowError]. *)
Lemma retry_operation_negative_delay_run :
  (let r := retry_operation always_fails 3 (-2) "fetch" start in
   outcome r = Raise (ValueError "sleep length must be non-negative")
   /\ final r = snd (always_fails start)
   /\ calls (events r) = 1%nat
   /\ sleeps (events r) = [])
  /\ (let r := retry_operation always_fails 3 (- 10 ^ 10) "fetch" start in
      outcome r = Raise (OtherError "OverflowError"
                           "timestamp too large to convert to C _PyTime_t")
      /\ final r = snd (always_fails start)
      /\ calls (events r) = 1%nat
      /\ sleeps (events r) = []).
Proof.
  split.
  - apply (retry_operation_negative_delay always_fails 3 (-2) "fetch" start boom).
    + lia.
    + lia.
    + reflexivity.
    + reflexivity.
  - apply (retry_operation_negative_delay always_fails 3 (- 10 ^ 10) "fetch"
             start boom).
    + lia.
    + lia.
    + reflexivity.
    + reflexivity.
Defined.

Lemma retry_operation_lets_non_errors_through_run :
  retry_operation interrupted 3 2 "fetch" start
  = mkRun (Raise interrupt) (snd (interrupted start)) [EvCall COperation].
Proof.
  apply (retry_operation_lets_non_errors_through interrupted 3 2 "fetch" start
           interrupt).
  - lia.
  - reflexivity.
  - reflexivity.
Defined.

Lemma wait_with_timeout_no_time_run :
  wait_with_timeout never_true 0 2 "service" 0 start =
    Some (mkRun (Ret false) start
                [EvPrint ("[WORKING] Waiting for " ++ "service"
                            ++ " (timeout: " ++ str_int 0 ++ "s)");
                 EvPrint ("[ERROR] " ++ "service" ++ " timed out after "
                            ++ str_int 0 ++ "s")]).
Proof.
  apply (wait_with_timeout_no_time never_true 0 2 "service" 0 start). lia.
Defined.

Lemma wait_with_timeout_evaluations_run :
  exists r,
    wait_with_timeout never_true 5 2 "service" 10 start = Some r
    /\ Z.of_nat (calls (events r)) <= Qceiling (inject_Z 5 / inject_Z 2).
Proof.
  eexists. split; [reflexivity|].
  apply (wait_with_timeout_evaluations never_true 5 2 "service" 10 start).
  - lia.
  - lia.
  - intros e. apply Qle_refl.
  - reflexivity.
Defined.

Lemma wait_with_timeout_false_late_run :
  exists r,
    wait_with_timeout never_true 5 2 "service" 10 start = Some r
    /\ (inject_Z 5 <= clock (final r) - clock start)%Q.
Proof.
  eexists. split; [reflexivity|].
  apply (wait_with_timeout_false_late never_true 5 2 "service" 10 start);
    reflexivity.
Defined.

(** An interval of 10^10 seconds does not fit the clock type: the
    [OverflowError] of the first sleep leaves the poller. *)
Lemma wait_with_timeout_sleep_refused_run :
  exists r,
    wait_with_timeout never_true (10 ^ 11) (10 ^ 10) "service" 1 start = Some r
    /\ outcome r = Raise sleep_overflow
    /\ final r = snd (never_true start)
    /\ calls (events r) = 1%nat
    /\ sleeps (events r) = [].
Proof.
  apply (wait_with_timeout_sleep_refused never_true (10 ^ 11) (10 ^ 10)
           "service" 0 start sleep_overflow).
  - lia.
  - reflexivity.
  - reflexivity.
Defined.

Lemma wait_with_timeout_terminates_run :
  wait_with_timeout true_on_third 60 1 "service" 60 start <> None.
Proof.
  apply (wait_with_timeout_terminates true_on_third 60 1 "service" 60 start).
  - lia.
  - intros e. apply Qle_refl.
  - lia.
Defined.

Lemma wait_for_container_terminates_run :
  wait_for_container lookup_ok logs_quiet "broker" ready_messages 60 2 60 start
  <> None.
Proof.
  apply (wait_for_container_terminates lookup_ok logs_quiet "broker"
           ready_messages 60 2 60 start).
  - lia.
  - intros c e. apply Qle_refl.
  - lia.
Defined.

Lemma wait_for_container_ready_at_run :
  exists evs,
    wait_for_container lookup_ok logs_ready_on_third "broker" ready_messages
                       60 2 10 start =
      Some (mkRun (Ret true)
                  (snd (logs_ready_on_third tt
                          (poll_env (logs_ready_on_third tt) 2 2
                                    (snd (lookup_ok "broker" start)))))
                  (evs ++ [EvCall CLogs;
                           EvPrint ("[SUCCESS] " ++ "broker" ++ " is ready")]))
    /\ calls evs = 3%nat
    /\ sleeps evs = repeat 2 2.
Proof.
  apply (wait_for_container_ready_at lookup_ok logs_ready_on_third "broker" 60 2
           ready_messages 10 2 start tt (list_byte_of_string "server ready")).
  - reflexivity.
  - intros j Hj. destruct j as [|[|[|j]]]; [reflexivity .. | lia].
  - intros j Hj. exists (list_byte_of_string "starting").
    destruct j as [|[|j]]; [split; reflexivity .. | lia].
  - intros j Hj. reflexivity.
  - reflexivity.
  - reflexivity.
  - lia.
Defined.

Lemma wait_for_container_empty_message_run :
  wait_for_container lookup_ok logs_quiet "broker" [[]] 60 2 10 start =
    Some (mkRun (Ret true) (snd (logs_quiet tt (snd (lookup_ok "broker" start))))
                [EvCall CContainersGet;
                 EvPrint ("[WORKING] Waiting for " ++ "broker"
                            ++ " to start (timeout: " ++ str_int 60 ++ "s)");
                 EvCall CLogs;
                 EvPrint ("[SUCCESS] " ++ "broker" ++ " is ready")]).
Proof.
  apply (wait_for_container_empty_message lookup_ok logs_quiet "broker" 60 2
           [[]] 10 start tt (list_byte_of_string "starting")).
  - now left.
  - reflexivity.
  - reflexivity.
  - lia.
  - lia.
Defined.

Lemma wait_for_container_no_messages_run :
  exists r,
    wait_for_container lookup_ok logs_quiet "broker" [] 5 2 10 start = Some r
    /\ outcome r <> Ret true.
Proof.
  eexists. split; [reflexivity|].
  apply (wait_for_container_no_messages lookup_ok logs_quiet "broker" 5 2 10
           start).
  reflexivity.
Defined.

Lemma wait_for_container_no_time_run :
  wait_for_container lookup_ok logs_quiet "broker" ready_messages 0 2 0 start =
    Some (mkRun (Ret false) (snd (lookup_ok "broker" start))
                [EvCall CContainersGet;
                 EvPrint ("[WORKING] Waiting for " ++ "broker"
                            ++ " to start (timeout: " ++ str_int 0 ++ "s)");
                 EvPrint ("[ERROR] " ++ "broker"
                            ++ " did not start within " ++ str_int 0 ++ "s")]).
Proof.
  apply (wait_for_container_no_time lookup_ok logs_quiet "broker" 0 2
           ready_messages 0 start tt).
  - lia.
  - reflexivity.
Defined.
